(** * LLM chat worker: request routing, chat adapter and stream generators

    A shallow embedding of [src/index.ts]: the Worker's [fetch] handler,
    [handleChatRequest], and the two stream generators
    [generateStreamingResponseUsingWorkersAi] and
    [generateStreamingResponseUsingGemini].

    Conventions of the embedding.
    - A JavaScript string is a [string] holding its UTF-8 bytes.
    - A value that came out of [request.json()] is a [json]; [undefined]
      is [None] of [option json].  The TypeScript cast on the parsed body
      performs no run-time check, so the handler works on raw [json].
    - The platform (global [fetch], the bindings of [env], the console) is
      a record of oracles; every call to it is written to an event log.
    - A thrown exception is the [inl] of a result; [await] on a rejected
      promise is the same thing. *)

From Stdlib Require Import String Ascii List Bool NArith ZArith Lia.
From Stdlib Require Import Init.Byte.
Import ListNotations.

Local Open Scope list_scope.
Local Open Scope string_scope.

(** ** Strings *)

Module Str.

(** The characters a Rocq literal cannot hold directly. *)
Definition nl : string := String "010"%char EmptyString.
Definition dq : string := String "034"%char EmptyString.

(** [Array.prototype.join] on strings. *)
Definition join (sep : string) (parts : list string) : string :=
  String.concat sep parts.

(** [String.prototype.startsWith]. *)
Definition startsWith (s p : string) : bool := String.prefix p s.

Definition of_bytes (bs : list byte) : string := string_of_list_byte bs.
Definition to_bytes (s : string) : list byte := list_byte_of_string s.

(** Plain concatenation of a list of strings. *)
Definition cat (parts : list string) : string := String.concat "" parts.

End Str.

(** ** Exceptions *)

Inductive exn : Type :=
| SyntaxError (message : string)
| TypeError (message : string)
| Error (message : string)
| Rejection (reason : string).   (* whatever a collaborator rejects with *)

Definition Result (A : Type) : Type := (exn + A)%type.

(** ** JSON values, as [JSON.parse] produces them *)

#[warnings="-register-all"] Inductive json : Type :=
| JNull
| JBool (b : bool)
| JNum (repr : string)      (* a number, carried by what [String(n)] gives *)
| JStr (s : string)
| JArr (items : list json)
| JObj (props : list (string * json)).  (* own properties, in key order *)

(** A JavaScript value in this program: a JSON value or [undefined]. *)
Definition value : Type := option json.
Definition undefined : value := None.

Module Js.

Fixpoint lookup (k : string) (props : list (string * json)) : value :=
  match props with
  | [] => undefined
  | (k', v) :: rest => if String.eqb k k' then Some v else lookup k rest
  end.

(** [v.k]: reading a property of [null] throws; an object gives its own
    property; every other JSON value (and every missing property) gives
    [undefined], none of the names read by the worker being inherited. *)
Definition get (v : json) (k : string) : Result value :=
  match v with
  | JNull => inl (TypeError ("Cannot read properties of null (reading '" ++ k ++ "')"))
  | JObj props => inr (lookup k props)
  | _ => inr undefined
  end.

(** [v === "lit"] for a string literal on the right. *)
Definition strict_eq_string (v : value) (lit : string) : bool :=
  match v with
  | Some (JStr s) => String.eqb s lit
  | _ => false
  end.

(** A destructuring default: used for [undefined] only, not for [null]. *)
Definition with_default (v : value) (d : json) : json :=
  match v with
  | None => d
  | Some j => j
  end.

(** [ToString] of a JSON value.  An array is joined with commas, its
    elements taken left to right.  An object goes through
    [Object.prototype.toString], unless it has an own property named
    "toString": a parsed value is never callable, so no method gives a
    primitive and the conversion throws. *)
Fixpoint toString (v : json) : Result string :=
  match v with
  | JNull => inr "null"
  | JBool true => inr "true"
  | JBool false => inr "false"
  | JNum repr => inr repr
  | JStr s => inr s
  | JArr items =>
      match
        (fix each (l : list json) : Result (list string) :=
           match l with
           | [] => inr []
           | x :: rest =>
               match (match x with JNull => inr "" | _ => toString x end) with
               | inl e => inl e
               | inr part =>
                   match each rest with
                   | inl e => inl e
                   | inr parts => inr (part :: parts)
                   end
               end
           end) items
      with
      | inl e => inl e
      | inr parts => inr (Str.join "," parts)
      end
  | JObj props =>
      match lookup "toString" props with
      | Some _ => inl (TypeError "Cannot convert object to primitive value")
      | None => inr "[object Object]"
      end
  end.

(** The string [Array.prototype.join] uses for one element. *)
Definition join_item (v : value) : Result string :=
  match v with
  | None => inr ""
  | Some JNull => inr ""
  | Some j => toString j
  end.

Fixpoint join_items (items : list value) : Result (list string) :=
  match items with
  | [] => inr []
  | x :: rest =>
      match join_item x with
      | inl e => inl e
      | inr part =>
          match join_items rest with
          | inl e => inl e
          | inr parts => inr (part :: parts)
          end
      end
  end.

Definition Array_join (sep : string) (items : list value) : Result string :=
  match join_items items with
  | inl e => inl e
  | inr parts => inr (Str.join sep parts)
  end.

(** [arr.some(cb)] with a callback that may throw: stops at the first
    element for which the callback gives [true]. *)
Fixpoint Array_some (cb : json -> Result bool) (items : list json) : Result bool :=
  match items with
  | [] => inr false
  | x :: rest =>
      match cb x with
      | inl e => inl e
      | inr true => inr true
      | inr false => Array_some cb rest
      end
  end.

(** [arr.map(cb)] with a callback that may throw. *)
Fixpoint Array_map {B : Type} (cb : json -> Result B) (items : list json)
  : Result (list B) :=
  match items with
  | [] => inr []
  | x :: rest =>
      match cb x with
      | inl e => inl e
      | inr y =>
          match Array_map cb rest with
          | inl e => inl e
          | inr ys => inr (y :: ys)
          end
      end
  end.

(** The array methods the worker calls, on a value that was only cast
    to an array type: calling one on anything but an array throws. *)
Definition not_a_function (v : json) (name : string) : exn :=
  match v with
  | JNull => TypeError ("Cannot read properties of null (reading '" ++ name ++ "')")
  | _ => TypeError ("messages." ++ name ++ " is not a function")
  end.

Definition some (v : json) (cb : json -> Result bool) : Result bool :=
  match v with
  | JArr items => Array_some cb items
  | _ => inl (not_a_function v "some")
  end.

Definition unshift (v : json) (x : json) : Result json :=
  match v with
  | JArr items => inr (JArr (x :: items))
  | _ => inl (not_a_function v "unshift")
  end.

Definition map_ {B : Type} (v : json) (cb : json -> Result B) : Result (list B) :=
  match v with
  | JArr items => Array_map cb items
  | _ => inl (not_a_function v "map")
  end.

End Js.

(** ** [JSON.stringify] *)

Module JSON.

Definition hex_digit (n : N) : ascii :=
  ascii_of_N (if (n <? 10)%N then 48 + n else 87 + n).

(** One character of a quoted JSON string. *)
Definition quote_char (c : ascii) : string :=
  let n := N_of_ascii c in
  if (n =? 34)%N then "\" ++ Str.dq
  else if (n =? 92)%N then "\\"
  else if (n =? 8)%N then "\b"
  else if (n =? 9)%N then "\t"
  else if (n =? 10)%N then "\n"
  else if (n =? 12)%N then "\f"
  else if (n =? 13)%N then "\r"
  else if (n <? 32)%N then
    "\u00" ++ String (hex_digit (n / 16)) (String (hex_digit (n mod 16)) "")
  else String c "".

Fixpoint quote_body (s : string) : string :=
  match s with
  | EmptyString => ""
  | String c rest => quote_char c ++ quote_body rest
  end.

Definition quote (s : string) : string := Str.dq ++ quote_body s ++ Str.dq.

Fixpoint stringify (v : json) : string :=
  match v with
  | JNull => "null"
  | JBool true => "true"
  | JBool false => "false"
  | JNum repr => repr
  | JStr s => quote s
  | JArr items => "[" ++ Str.join "," (map stringify items) ++ "]"
  | JObj props =>
      "{" ++ Str.join "," (map (fun '(k, x) => quote k ++ ":" ++ stringify x) props) ++ "}"
  end.

End JSON.

(** ** [TextDecoder] for UTF-8, replacement error mode, BOM not ignored *)

Module TextDecoder.

Local Open Scope N_scope.

(** The UTF-8 decoder's state together with the decoder object's flags. *)
Record t : Type := mk {
  code_point : N;
  bytes_seen : N;
  bytes_needed : N;
  lower : N;
  upper : N;
  bom_seen : bool;
  do_not_flush : bool
}.

(** [new TextDecoder()]. *)
Definition new : t := mk 0 0 0 0x80 0xBF false false.

Definition reset (d : t) : t := mk 0 0 0 0x80 0xBF (bom_seen d) (do_not_flush d).

Definition replacement : N := 0xFFFD.

(** A byte read while no sequence is open. *)
Definition lead (d : t) (b : N) : t * list N :=
  if b <=? 0x7F then (reset d, [b])
  else if (0xC2 <=? b) && (b <=? 0xDF) then
    (mk (N.land b 0x1F) 0 1 0x80 0xBF (bom_seen d) (do_not_flush d), [])
  else if (0xE0 <=? b) && (b <=? 0xEF) then
    (mk (N.land b 0xF) 0 2
        (if b =? 0xE0 then 0xA0 else 0x80)
        (if b =? 0xED then 0x9F else 0xBF)
        (bom_seen d) (do_not_flush d), [])
  else if (0xF0 <=? b) && (b <=? 0xF4) then
    (mk (N.land b 0x7) 0 3
        (if b =? 0xF0 then 0x90 else 0x80)
        (if b =? 0xF4 then 0x8F else 0xBF)
        (bom_seen d) (do_not_flush d), [])
  else (reset d, [replacement]).

(** The decoder's handler for one byte.  A byte outside the expected
    range ends the open sequence with U+FFFD and is then read again as a
    leading byte. *)
Definition handler (d : t) (b : N) : t * list N :=
  if bytes_needed d =? 0 then lead d b
  else if negb ((lower d <=? b) && (b <=? upper d)) then
    let '(d', out) := lead (reset d) b in (d', replacement :: out)
  else
    let cp := N.lor (N.shiftl (code_point d) 6) (N.land b 0x3F) in
    let seen := bytes_seen d + 1 in
    if seen =? bytes_needed d then (reset d, [cp])
    else (mk cp seen (bytes_needed d) 0x80 0xBF (bom_seen d) (do_not_flush d), []).

Fixpoint run (d : t) (input : list byte) : t * list N :=
  match input with
  | [] => (d, [])
  | b :: rest =>
      let '(d1, out1) := handler d (Byte.to_N b) in
      let '(d2, out2) := run d1 rest in
      (d2, (out1 ++ out2)%list)
  end.

(** End of input: an open sequence becomes one U+FFFD. *)
Definition finish (d : t) : t * list N :=
  if bytes_needed d =? 0 then (d, []) else (reset d, [replacement]).

(** The first code point ever produced is dropped when it is U+FEFF. *)
Definition strip_bom (d : t) (out : list N) : t * list N :=
  if bom_seen d then (d, out)
  else
    match out with
    | [] => (d, [])
    | c :: rest =>
        (mk (code_point d) (bytes_seen d) (bytes_needed d) (lower d) (upper d)
            true (do_not_flush d),
         if c =? 0xFEFF then rest else out)
    end.

(** The UTF-8 bytes of a scalar value, as characters of a [string]. *)
Definition encode_code_point (c : N) : string :=
  let ch (n : N) := ascii_of_N n in
  let cont (n : N) := ch (N.lor 0x80 (N.land n 0x3F)) in
  if c <? 0x80 then String (ch c) ""
  else if c <? 0x800 then
    String (ch (N.lor 0xC0 (N.shiftr c 6))) (String (cont c) "")
  else if c <? 0x10000 then
    String (ch (N.lor 0xE0 (N.shiftr c 12)))
      (String (cont (N.shiftr c 6)) (String (cont c) ""))
  else
    String (ch (N.lor 0xF0 (N.shiftr c 18)))
      (String (cont (N.shiftr c 12))
         (String (cont (N.shiftr c 6)) (String (cont c) ""))).

Definition text_of (cps : list N) : string := Str.cat (map encode_code_point cps).

(** [decoder.decode(input, { stream })]: the text and the decoder after. *)
Definition decode (d : t) (input : list byte) (stream : bool) : string * t :=
  let d0 := if do_not_flush d then d
            else mk 0 0 0 0x80 0xBF false false in
  let d1 := mk (code_point d0) (bytes_seen d0) (bytes_needed d0)
               (lower d0) (upper d0) (bom_seen d0) stream in
  let '(d2, out2) := run d1 input in
  let '(d3, out3) := if stream then (d2, []) else finish d2 in
  let '(d4, out) := strip_bom d3 (out2 ++ out3)%list in
  (text_of out, d4).

End TextDecoder.

(** ** Streams, requests and responses *)

Inductive chunk : Type :=
| Bytes (b : list byte)      (* a [Uint8Array] *)
| Text (s : string).         (* a string put on a stream as it is *)

Inductive StreamState : Type :=
| Readable                    (* still open; once its chunks are read, no more come *)
| Closed
| Errored (e : exn).

(** A stream by its chunks in order, then its state.  For a stream the
    platform hands over, the chunks are what its reader will be given.
    For a stream under construction, they are what its controller was
    given, in order; what a consumer gets of them is [Stream.received]. *)
Record ReadableStream : Type := mkStream {
  chunks : list chunk;
  state : StreamState
}.

Module Stream.

(** [stream.getReader()]: the reader is the rest of the stream. *)
Definition Reader : Type := ReadableStream.
Definition getReader (s : ReadableStream) : Reader := s.

Inductive ReadOutcome : Type :=
| Settled (done : bool) (value : option chunk)
| Rejected (e : exn)
| Pending.                  (* the promise never settles *)

(** [reader.read()]: the outcome and the reader afterwards. *)
Definition read (r : Reader) : ReadOutcome * Reader :=
  match chunks r with
  | c :: rest => (Settled false (Some c), mkStream rest (state r))
  | [] =>
      match state r with
      | Closed => (Settled true None, r)
      | Errored e => (Rejected e, r)
      | Readable => (Pending, r)
      end
  end.

(** The controller of a stream under construction is that stream. *)
Definition Controller : Type := ReadableStream.
Definition fresh : Controller := mkStream [] Readable.
Definition enqueue (c : Controller) (x : chunk) : Controller :=
  mkStream (chunks c ++ [x])%list (state c).
Definition close (c : Controller) : Controller := mkStream (chunks c) Closed.
(** [controller.error(e)], also what a rejected [start] does.  The record
    keeps what had been enqueued; the stream itself drops what was not yet
    read, see [received]. *)
Definition error (c : Controller) (e : exn) : Controller :=
  mkStream (chunks c) (Errored e).

(** What a consumer gets from a constructed stream, having taken [taken]
    chunks by the time the source ended.  An error resets the queue: the
    chunks not yet taken are lost and the next read rejects.  A close
    lets the queue drain first. *)
Definition received (s : ReadableStream) (taken : nat) : list chunk * StreamState :=
  match state s with
  | Errored e => (firstn taken (chunks s), Errored e)
  | Closed => (chunks s, Closed)
  | Readable => (chunks s, Readable)
  end.

(** The text of everything a stream delivers. *)
Definition chunk_text (c : chunk) : string :=
  match c with
  | Bytes b => Str.of_bytes b
  | Text s => s
  end.
Definition text (s : ReadableStream) : string := Str.cat (map chunk_text (chunks s)).

End Stream.

Inductive Body : Type :=
| BodyNull
| BodyString (s : string)
| BodyStream (s : ReadableStream).

Definition Headers : Type := list (string * string).

Record Response : Type := mkResponse {
  status : Z;
  headers : Headers;
  body : Body
}.

Record ResponseInit : Type := mkResponseInit {
  init_status : option Z;
  init_headers : Headers
}.

Definition has_header (name : string) (h : Headers) : bool :=
  existsb (fun kv => String.eqb (fst kv) name) h.

(** [new Response(body, init)]: status 200 unless given; a string body
    brings its content type when the headers name none. *)
Definition new_Response (b : Body) (init : ResponseInit) : Response :=
  mkResponse
    (match init_status init with Some s => s | None => 200%Z end)
    (match b with
     | BodyString _ =>
         if has_header "content-type" (init_headers init) then init_headers init
         else (init_headers init ++ [("content-type", "text/plain;charset=UTF-8")])%list
     | _ => init_headers init
     end)
    b.

(** [response.body?.getReader()]. *)
Definition body_getReader (r : Response) : option Stream.Reader :=
  match body r with
  | BodyNull => None
  | BodyString s =>
      Some (mkStream (if String.eqb s "" then [] else [Bytes (Str.to_bytes s)]) Closed)
  | BodyStream s => Some (Stream.getReader s)
  end.

(** [new URL(request.url)], as far as the worker looks at it. *)
Record URL : Type := mkURL { pathname : string }.

Record Request : Type := mkRequest {
  method : string;
  url : URL;
  json_body : Result json     (* what [request.json()] settles with *)
}.

Record RequestInit : Type := mkRequestInit {
  ri_method : string;
  ri_headers : Headers;
  ri_body : string
}.

(** The argument of [ai.run]. *)
Record AiInput : Type := mkAiInput {
  ai_messages : json;
  ai_stream : bool
}.

(** The bindings of the worker. *)
Record Env : Type := mkEnv {
  AI : string -> AiInput -> Result ReadableStream;
  ASSETS : Request -> Result Response;
  GEMINI_API_KEY : string
}.

(** What the platform gives besides the bindings: the global [fetch]. *)
Record Runtime : Type := mkRuntime {
  global_fetch : string -> RequestInit -> Result Response
}.

Inductive Generator : Type := WorkersAi | Gemini.

(** The log of a run: every call that leaves the worker, and every entry
    into a stream generator with the messages it was given. *)
Inductive Event : Type :=
| EvRequestJson
| EvAssetsFetch (request : Request)
| EvEnter (g : Generator) (messages : json)
| EvAiRun (model : string) (input : AiInput)
| EvFetch (url : string) (init : RequestInit)
| EvConsoleError (text : string) (e : exn).

(** ** The monad of the handlers: platform in, log and result out *)

Definition M (A : Type) : Type := Runtime -> list Event * Result A.

Definition ret {A} (a : A) : M A := fun _ => ([], inr a).

Definition throw {A} (e : exn) : M A := fun _ => ([], inl e).

Definition bind {A B} (m : M A) (f : A -> M B) : M B :=
  fun rt =>
    match m rt with
    | (t, inl e) => (t, inl e)
    | (t, inr a) => ((t ++ fst (f a rt))%list, snd (f a rt))
    end.

Definition try_catch {A} (m : M A) (handler : exn -> M A) : M A :=
  fun rt =>
    match m rt with
    | (t, inl e) => ((t ++ fst (handler e rt))%list, snd (handler e rt))
    | (t, inr a) => (t, inr a)
    end.

Definition lift {A} (r : Result A) : M A := fun _ => ([], r).

(** A call that leaves the worker: logged, then settled by the platform. *)
Definition call {A} (ev : Event) (r : Result A) : M A := fun _ => ([ev], r).

Definition emit (ev : Event) : M unit := call ev (inr tt).

Declare Scope worker_scope.
Delimit Scope worker_scope with worker.
Notation "x <- m ;; k" := (bind m (fun x => k))
  (at level 61, m at next level, right associativity) : worker_scope.
Notation "m ;; k" := (bind m (fun _ => k))
  (at level 61, right associativity) : worker_scope.
Local Open Scope worker_scope.

(** The log and the result of a run. *)
Definition log_of {A} (m : M A) (rt : Runtime) : list Event := fst (m rt).
Definition result_of {A} (m : M A) (rt : Runtime) : Result A := snd (m rt).

(** The generator entries of a log, in order. *)
Fixpoint entered (t : list Event) : list (Generator * json) :=
  match t with
  | [] => []
  | EvEnter g messages :: rest => (g, messages) :: entered rest
  | _ :: rest => entered rest
  end.

(** The calls of a log that leave the worker for a model provider. *)
Fixpoint upstream_calls (t : list Event) : list Event :=
  match t with
  | [] => []
  | EvAiRun model input :: rest => EvAiRun model input :: upstream_calls rest
  | EvFetch u init :: rest => EvFetch u init :: upstream_calls rest
  | _ :: rest => upstream_calls rest
  end.

(** ** The worker *)

Definition SYSTEM_PROMPT : string :=
  "You are a helpful, friendly assistant. Provide concise and accurate responses.".

Definition WORKERS_AI_MODEL : string := "@cf/meta/llama-3.3-70b-instruct-fp8-fast".

Definition GEMINI_API_ENDPOINT : string :=
  "https://generativelanguage.googleapis.com/v1beta/models/gemini-2.0-flash:generateContent".

(** The calls that leave the worker. *)
Definition request_json (request : Request) : M json :=
  call EvRequestJson (json_body request).

Definition ASSETS_fetch (env : Env) (request : Request) : M Response :=
  call (EvAssetsFetch request) (ASSETS env request).

Definition fetch_global (u : string) (init : RequestInit) : M Response :=
  fun rt => call (EvFetch u init) (global_fetch rt u init) rt.

Definition console_error (text : string) (e : exn) : M unit :=
  emit (EvConsoleError text e).

(** [new Ai(env.AI)] and [ai.run]. *)
Record Ai : Type := new_Ai {
  binding : string -> AiInput -> Result ReadableStream
}.

Definition Ai_run (ai : Ai) (model : string) (input : AiInput) : M ReadableStream :=
  call (EvAiRun model input) (binding ai model input).

(** *** generateStreamingResponseUsingWorkersAi *)

Definition generateStreamingResponseUsingWorkersAi (messages : json) (ai : Ai)
  : M ReadableStream :=
  emit (EvEnter WorkersAi messages) ;;
  stream <- Ai_run ai WORKERS_AI_MODEL (mkAiInput messages true) ;;
  ret stream.

(** *** generateStreamingResponseUsingGemini *)

(** The template literal of the loop body. *)
Definition sse_frame (chunk : string) : string :=
  "data: " ++ chunk ++ Str.nl ++ Str.nl.

(** [new TextDecoder().decode(value)]: a decoder made for this one call. *)
Definition decode_value (value : option chunk) : Result string :=
  match value with
  | None => inr ""
  | Some (Bytes b) => inr (fst (TextDecoder.decode TextDecoder.new b false))
  | Some (Text _) =>
      inl (TypeError "Failed to execute 'decode' on 'TextDecoder': not a BufferSource")
  end.

(** The [while (true)] loop of [start], by what the reader still holds:
    the chunks to come, then the reader's final state.  An exception
    inside the asynchronous [start] puts the stream in the errored state. *)
Fixpoint pump (pending : list chunk) (final : StreamState)
  (controller : Stream.Controller) : Stream.Controller :=
  match pending with
  | value :: rest =>
      match decode_value (Some value) with
      | inl e => Stream.error controller e
      | inr chunk => pump rest final (Stream.enqueue controller (Text (sse_frame chunk)))
      end
  | [] =>
      match final with
      | Closed => Stream.close controller
      | Errored e => Stream.error controller e
      | Readable => controller
      end
  end.

Definition start (reader : Stream.Reader) (controller : Stream.Controller)
  : Stream.Controller :=
  pump (chunks reader) (state reader) controller.

Definition generateStreamingResponseUsingGemini (messages : json) (env : Env)
  : M ReadableStream :=
  emit (EvEnter Gemini messages) ;;
  contents <- lift (Js.map_ messages (fun msg => Js.get msg "content")) ;;
  prompt <- lift (Js.Array_join Str.nl contents) ;;
  let geminiRequest :=
    JObj [("contents", JArr [JObj [("parts", JArr [JObj [("text", JStr prompt)]])]])] in
  let headers :=
    [("Content-Type", "application/json"); ("X-goog-api-key", GEMINI_API_KEY env)] in
  response <- fetch_global GEMINI_API_ENDPOINT
                (mkRequestInit "POST" headers (JSON.stringify geminiRequest)) ;;
  match body_getReader response with
  | None => throw (Error "Failed to get reader from Gemini API response")
  | Some reader => ret (start reader Stream.fresh)
  end.

(** *** handleChatRequest *)

Definition system_message : json :=
  JObj [("role", JStr "system"); ("content", JStr SYSTEM_PROMPT)].

Definition is_system (msg : json) : Result bool :=
  match Js.get msg "role" with
  | inl e => inl e
  | inr role => inr (Js.strict_eq_string role "system")
  end.

Definition event_stream_headers : Headers :=
  [("content-type", "text/event-stream");
   ("cache-control", "no-cache");
   ("connection", "keep-alive")].

Definition error_response : Response :=
  new_Response
    (BodyString (JSON.stringify (JObj [("error", JStr "Failed to process request")])))
    (mkResponseInit (Some 500%Z) [("content-type", "application/json")]).

(** The body of the [try] block. *)
Definition handleChatRequest_try (request : Request) (env : Env) : M Response :=
  let ai := new_Ai (AI env) in
  parsed <- request_json request ;;
  messages0 <- lift (Js.get parsed "messages") ;;
  model0 <- lift (Js.get parsed "model") ;;
  let messages := Js.with_default messages0 (JArr []) in
  let model := Js.with_default model0 (JStr "workers-ai") in
  has_system <- lift (Js.some messages is_system) ;;
  messages <- (if negb has_system then lift (Js.unshift messages system_message)
               else ret messages) ;;
  responseStream <-
    (if Js.strict_eq_string (Some model) "gemini"
     then generateStreamingResponseUsingGemini messages env
     else generateStreamingResponseUsingWorkersAi messages ai) ;;
  ret (new_Response (BodyStream responseStream) (mkResponseInit None event_stream_headers)).

Definition handleChatRequest (request : Request) (env : Env) : M Response :=
  try_catch (handleChatRequest_try request env)
    (fun error =>
       console_error "Error processing chat request:" error ;;
       ret error_response).

(** *** fetch *)

Definition fetch (request : Request) (env : Env) : M Response :=
  let url := url request in
  if String.eqb (pathname url) "/" || negb (Str.startsWith (pathname url) "/api/")
  then ASSETS_fetch env request
  else if String.eqb (pathname url) "/api/chat" then
    if String.eqb (method request) "POST" then handleChatRequest request env
    else ret (new_Response (BodyString "Method not allowed") (mkResponseInit (Some 405%Z) []))
  else ret (new_Response (BodyString "Not found") (mkResponseInit (Some 404%Z) [])).

(** ** The declared types of the chat payload

    [ChatRole] and [ChatMessage] as [types.ts] declares them, and the JSON
    value a well-typed message is on the wire. *)

Inductive ChatRole : Type := system | user | assistant.

Record ChatMessage : Type := mkChatMessage {
  role : ChatRole;
  content : string
}.

Definition ChatRole_string (r : ChatRole) : string :=
  match r with
  | system => "system"
  | user => "user"
  | assistant => "assistant"
  end.

Definition ChatMessage_json (m : ChatMessage) : json :=
  JObj [("role", JStr (ChatRole_string (role m))); ("content", JStr (content m))].

Definition messages_json (ms : list ChatMessage) : json :=
  JArr (map ChatMessage_json ms).

Definition is_system_role (m : ChatMessage) : bool :=
  match role m with
  | system => true
  | _ => false
  end.

Definition default_system_message : ChatMessage := mkChatMessage system SYSTEM_PROMPT.

(** The generator the adapter picks for a [model] value. *)
Definition selected (model : value) : Generator :=
  if Js.strict_eq_string (Some (Js.with_default model (JStr "workers-ai"))) "gemini"
  then Gemini else WorkersAi.

Definition run_generator (g : Generator) (messages : json) (env : Env) : M ReadableStream :=
  match g with
  | Gemini => generateStreamingResponseUsingGemini messages env
  | WorkersAi => generateStreamingResponseUsingWorkersAi messages (new_Ai (AI env))
  end.

(** The property [k] of a value that is not [null]. *)
Definition prop (v : json) (k : string) : value :=
  match v with
  | JObj props => Js.lookup k props
  | _ => undefined
  end.

(** The request the secondary generator sends for a prompt. *)
Definition gemini_request (prompt : string) : json :=
  JObj [("contents", JArr [JObj [("parts", JArr [JObj [("text", JStr prompt)]])]])].

Definition gemini_init (key prompt : string) : RequestInit :=
  mkRequestInit "POST"
    [("Content-Type", "application/json"); ("X-goog-api-key", key)]
    (JSON.stringify (gemini_request prompt)).

(** The specification's words for the prompt, written out on their own:
    the contents one after the other, with [sep] between two of them. *)
Fixpoint spec_joined (sep : string) (contents : list string) : string :=
  match contents with
  | [] => ""
  | c :: rest =>
      match rest with
      | [] => c
      | _ :: _ => c ++ sep ++ spec_joined sep rest
      end
  end.

(** The text of the request body, character by character, around the
    prompt as it stands inside a JSON string. *)
Definition gemini_body (escaped_prompt : string) : string :=
  "{" ++ Str.dq ++ "contents" ++ Str.dq ++ ":[{" ++ Str.dq ++ "parts" ++ Str.dq
  ++ ":[{" ++ Str.dq ++ "text" ++ Str.dq ++ ":" ++ Str.dq ++ escaped_prompt ++ Str.dq
  ++ "}]}]}".

(** A character a JSON string holds as it is: no control character, no
    double quote, no backslash. *)
Definition plain_char (c : ascii) : bool :=
  let n := N_of_ascii c in
  ((32 <=? n) && negb (n =? 34) && negb (n =? 92))%N.

Fixpoint plain (s : string) : bool :=
  match s with
  | EmptyString => true
  | String c rest => plain_char c && plain rest
  end.

(** The frame the secondary generator emits for one upstream chunk. *)
Definition frame_of (b : list byte) : chunk :=
  Text (sse_frame (fst (TextDecoder.decode TextDecoder.new b false))).

(** How the output stream ends for a given end of the upstream reader. *)
Definition settle (final : StreamState) (c : Stream.Controller) : Stream.Controller :=
  match final with
  | Closed => Stream.close c
  | Errored e => Stream.error c e
  | Readable => c
  end.

(** ** Sample platform values, for the concrete runs below *)

Definition sample_stream : ReadableStream :=
  mkStream [Bytes (Str.to_bytes "Hello")] Closed.

Definition sample_env : Env :=
  mkEnv (fun _ _ => inr sample_stream)
        (fun _ => inr (mkResponse 200 [] (BodyString "index")))
        "KEY".

(** A platform whose [fetch] answers every call with the given body. *)
Definition runtime_with (b : Body) : Runtime :=
  mkRuntime (fun _ _ => inr (mkResponse 200 [] b)).

Definition sample_rt : Runtime := runtime_with (BodyStream sample_stream).

Definition chat_request (parsed : json) : Request :=
  mkRequest "POST" (mkURL "/api/chat") (inr parsed).

(** Collaborators that fail: a binding and a platform that reject. *)
Definition failing_env : Env :=
  mkEnv (fun _ _ => inl (Rejection "inference unavailable"))
        (fun _ => inl (Rejection "assets unavailable"))
        "KEY".

Definition failing_rt : Runtime :=
  mkRuntime (fun _ _ => inl (Rejection "network unreachable")).

(** ** Routing, as the specification words it *)

Inductive Route : Type :=
| ToAssets
| ToChat
| MethodNotAllowed
| NotFound.

Definition route_of (meth path : string) : Route :=
  if String.eqb path "/" then ToAssets
  else if negb (String.prefix "/api/" path) then ToAssets
  else if negb (String.eqb path "/api/chat") then NotFound
  else if String.eqb meth "POST" then ToChat
  else MethodNotAllowed.

Definition respond_to (r : Route) (request : Request) (env : Env) : M Response :=
  match r with
  | ToAssets => ASSETS_fetch env request
  | ToChat => handleChatRequest request env
  | MethodNotAllowed =>
      ret (mkResponse 405 [("content-type", "text/plain;charset=UTF-8")]
             (BodyString "Method not allowed"))
  | NotFound =>
      ret (mkResponse 404 [("content-type", "text/plain;charset=UTF-8")]
             (BodyString "Not found"))
  end.

(** ** [String.prototype.trim] *)

Module JsString.

(** The white space and line terminators [trim] removes, as UTF-8. *)
Definition whitespace : list string :=
  map TextDecoder.encode_code_point
    [0x9; 0xA; 0xB; 0xC; 0xD; 0x20; 0xA0; 0x1680;
     0x2000; 0x2001; 0x2002; 0x2003; 0x2004; 0x2005; 0x2006; 0x2007;
     0x2008; 0x2009; 0x200A; 0x2028; 0x2029; 0x202F; 0x205F; 0x3000; 0xFEFF]%N.

Fixpoint rev (s : string) : string :=
  match s with
  | EmptyString => ""
  | String c rest => rev rest ++ String c ""
  end.

(** [s] without the prefix [p], when it has it. *)
Fixpoint strip_prefix (p s : string) : option string :=
  match p with
  | EmptyString => Some s
  | String a p' =>
      match s with
      | EmptyString => None
      | String b s' => if Ascii.eqb a b then strip_prefix p' s' else None
      end
  end.

Fixpoint strip_first (ws : list string) (s : string) : option string :=
  match ws with
  | [] => None
  | w :: rest =>
      match strip_prefix w s with
      | Some s' => Some s'
      | None => strip_first rest s
      end
  end.

Fixpoint strip_all (ws : list string) (fuel : nat) (s : string) : string :=
  match fuel with
  | O => s
  | S fuel' =>
      match strip_first ws s with
      | Some s' => strip_all ws fuel' s'
      | None => s
      end
  end.

Definition trimStart (s : string) : string :=
  strip_all whitespace (String.length s) s.

Definition trimEnd (s : string) : string :=
  rev (strip_all (map rev whitespace) (String.length s) (rev s)).

Definition trim (s : string) : string := trimEnd (trimStart s).

End JsString.

(** ** The browser client: class [ChatApp]

    The page is the record of the element properties the class reads and
    writes.  What the browser computes (layout heights, number parsing,
    the network) is a record of oracles. *)

(** A child of [#chat-messages]: its class, the markup assigned to
    [innerHTML], and the text assigned to its [<p>] through
    [textContent], when one was. *)
Record MessageEl : Type := mkMessageEl {
  className : string;
  innerHTML : string;
  p_textContent : option string
}.

(** [#chat-messages]. *)
Record ChatMessagesEl : Type := mkChatMessagesEl {
  children : list MessageEl;
  scrollTop : Z
}.

(** [#user-input]. *)
Record UserInputEl : Type := mkUserInputEl {
  input_value : string;
  input_disabled : bool;
  style_height : string;
  input_focused : bool
}.

(** The controls the class only reads. *)
Record Settings : Type := mkSettings {
  modelSelect_value : string;
  temperatureInput_value : string;
  topKInput_value : string;
  topPInput_value : string
}.

Record ChatApp : Type := mkChatApp {
  chatMessages : ChatMessagesEl;
  userInput : UserInputEl;
  sendButton_disabled : bool;
  typingIndicator_visible : bool;
  settings : Settings;
  chatHistory : list ChatMessage;
  isProcessing : bool
}.

Record Browser : Type := mkBrowser {
  window_fetch : string -> RequestInit -> Result Response;
  (* [parseFloat] and [parseInt], by what [JSON.stringify] writes for
     the number: its digits, or [null] for [NaN] *)
  parseFloat : string -> json;
  parseInt : string -> json;
  (* layout: [scrollHeight] of the transcript and of the input *)
  chat_scrollHeight : list MessageEl -> Z;
  input_scrollHeight : string -> string
}.

Definition set_chatMessages (app : ChatApp) (v : ChatMessagesEl) : ChatApp :=
  mkChatApp v (userInput app) (sendButton_disabled app) (typingIndicator_visible app)
    (settings app) (chatHistory app) (isProcessing app).

Definition set_userInput (app : ChatApp) (v : UserInputEl) : ChatApp :=
  mkChatApp (chatMessages app) v (sendButton_disabled app) (typingIndicator_visible app)
    (settings app) (chatHistory app) (isProcessing app).

Definition set_sendButton_disabled (app : ChatApp) (v : bool) : ChatApp :=
  mkChatApp (chatMessages app) (userInput app) v (typingIndicator_visible app)
    (settings app) (chatHistory app) (isProcessing app).

Definition set_typingIndicator_visible (app : ChatApp) (v : bool) : ChatApp :=
  mkChatApp (chatMessages app) (userInput app) (sendButton_disabled app) v
    (settings app) (chatHistory app) (isProcessing app).

Definition set_chatHistory (app : ChatApp) (v : list ChatMessage) : ChatApp :=
  mkChatApp (chatMessages app) (userInput app) (sendButton_disabled app)
    (typingIndicator_visible app) (settings app) v (isProcessing app).

Definition set_isProcessing (app : ChatApp) (v : bool) : ChatApp :=
  mkChatApp (chatMessages app) (userInput app) (sendButton_disabled app)
    (typingIndicator_visible app) (settings app) (chatHistory app) v.

Definition set_input_value (u : UserInputEl) (v : string) : UserInputEl :=
  mkUserInputEl v (input_disabled u) (style_height u) (input_focused u).

Definition set_input_disabled (u : UserInputEl) (v : bool) : UserInputEl :=
  mkUserInputEl (input_value u) v (style_height u) (input_focused u).

Definition set_style_height (u : UserInputEl) (v : string) : UserInputEl :=
  mkUserInputEl (input_value u) (input_disabled u) v (input_focused u).

Definition set_input_focused (u : UserInputEl) (v : bool) : UserInputEl :=
  mkUserInputEl (input_value u) (input_disabled u) (style_height u) v.

(** [this.chatMessages.scrollTop = this.chatMessages.scrollHeight]. *)
Definition scroll_to_bottom (b : Browser) (app : ChatApp) : ChatApp :=
  set_chatMessages app
    (mkChatMessagesEl (children (chatMessages app))
       (chat_scrollHeight b (children (chatMessages app)))).

(** [this.chatMessages.appendChild(el)]. *)
Definition appendChild (app : ChatApp) (el : MessageEl) : ChatApp :=
  set_chatMessages app
    (mkChatMessagesEl (children (chatMessages app) ++ [el])%list
       (scrollTop (chatMessages app))).

(** *** addMessageToChat *)

Definition addMessageToChat (b : Browser) (app : ChatApp) (role_name content_text : string)
  : ChatApp :=
  let messageEl :=
    mkMessageEl ("message " ++ role_name ++ "-message")
                ("<p>" ++ content_text ++ "</p>") None in
  scroll_to_bottom b (appendChild app messageEl).

(** *** resizeInput *)

Definition resizeInput (b : Browser) (app : ChatApp) : ChatApp :=
  let app := set_userInput app (set_style_height (userInput app) "auto") in
  set_userInput app
    (set_style_height (userInput app)
       (input_scrollHeight b (input_value (userInput app)) ++ "px")).

(** *** displayInitialMessage and the constructor *)

Definition GREETING : string :=
  "Hello! I'm an LLM chat app powered by both Workers AI and the Gemini API. How can I help you today?".

Definition displayInitialMessage (b : Browser) (app : ChatApp) : ChatApp :=
  addMessageToChat b app "assistant" GREETING.

(** [new ChatApp()] on a page: the elements are the page's, the history
    is empty, nothing is in progress, and the greeting is displayed. *)
Definition constructor (b : Browser) (page : ChatApp) : ChatApp :=
  let app := set_chatHistory page [] in
  let app := set_isProcessing app false in
  displayInitialMessage b app.

(** *** sendMessage *)

(** How an asynchronous function ends: it returns, or it stays at an
    [await] that never settles. *)
Inductive Run (A : Type) : Type :=
| Returned (a : A)
| Suspended (a : A).
Arguments Returned {A} a.
Arguments Suspended {A} a.

(** [response.ok]. *)
Definition Response_ok (r : Response) : bool :=
  ((200 <=? status r) && (status r <=? 299))%Z.

(** [el.querySelector("p").textContent = text] on the child at [index]. *)
Fixpoint set_p_textContent (els : list MessageEl) (index : nat) (text : string)
  : list MessageEl :=
  match els, index with
  | [], _ => []
  | el :: rest, O => mkMessageEl (className el) (innerHTML el) (Some text) :: rest
  | el :: rest, S i => el :: set_p_textContent rest i text
  end.

(** How the [try] block of [sendMessage] ends. *)
Inductive TryEnd : Type :=
| TryDone (responseText : string) (app : ChatApp)
| TryThrew (e : exn) (app : ChatApp)
| TryPending (app : ChatApp).

(** The read loop of [sendMessage], by what the reader still holds. *)
Fixpoint read_loop (b : Browser) (pending : list chunk) (final : StreamState)
  (decoder : TextDecoder.t) (responseText : string) (index : nat) (app : ChatApp)
  : TryEnd :=
  match pending with
  | Bytes bs :: rest =>
      let '(chunk, decoder') := TextDecoder.decode decoder bs true in
      let responseText := responseText ++ chunk in
      let app :=
        set_chatMessages app
          (mkChatMessagesEl
             (set_p_textContent (children (chatMessages app)) index responseText)
             (scrollTop (chatMessages app))) in
      let app := scroll_to_bottom b app in
      read_loop b rest final decoder' responseText index app
  | Text _ :: _ =>
      TryThrew (TypeError "Failed to execute 'decode' on 'TextDecoder': not a BufferSource")
               app
  | [] =>
      match final with
      | Closed => TryDone responseText app
      | Errored e => TryThrew e app
      | Readable => TryPending app
      end
  end.

(** The object [sendMessage] serialises as the request body. *)
Definition request_params (b : Browser) (app : ChatApp) : json :=
  let selectedModel := modelSelect_value (settings app) in
  let apiMessages := filter (fun msg => negb (is_system_role msg)) (chatHistory app) in
  JObj [("model", JStr selectedModel);
        ("messages", messages_json apiMessages);
        ("temperature", parseFloat b (temperatureInput_value (settings app)));
        ("topK", parseInt b (topKInput_value (settings app)));
        ("topP", parseFloat b (topPInput_value (settings app)))].

Definition chat_fetch_init (b : Browser) (app : ChatApp) : RequestInit :=
  mkRequestInit "POST" [("Content-Type", "application/json")]
    (JSON.stringify (request_params b app)).

(** The statements of [sendMessage] before its [try]. *)
Definition sendMessage_begin (b : Browser) (app : ChatApp) (message : string) : ChatApp :=
  let app := set_isProcessing app true in
  let app := set_userInput app (set_input_disabled (userInput app) true) in
  let app := set_sendButton_disabled app true in
  let app := addMessageToChat b app "user" message in
  let app := set_chatHistory app (chatHistory app ++ [mkChatMessage user message])%list in
  let app := set_userInput app (set_input_value (userInput app) "") in
  let app := set_userInput app (set_style_height (userInput app) "auto") in
  set_typingIndicator_visible app true.

(** The [try] block. *)
Definition sendMessage_try (b : Browser) (app : ChatApp) : list Event * TryEnd :=
  let index := List.length (children (chatMessages app)) in
  let assistantMessageEl := mkMessageEl "message assistant-message" "<p></p>" None in
  let app := appendChild app assistantMessageEl in
  let app := scroll_to_bottom b app in
  let init := chat_fetch_init b app in
  ([EvFetch "/api/chat" init],
   match window_fetch b "/api/chat" init with
   | inl e => TryThrew e app
   | inr response =>
       if negb (Response_ok response) then TryThrew (Error "Failed to get response") app
       else
         match body_getReader response with
         | None =>
             TryThrew (TypeError "Cannot read properties of null (reading 'getReader')") app
         | Some reader =>
             match read_loop b (chunks reader) (state reader) TextDecoder.new "" index app with
             | TryDone responseText app =>
                 TryDone responseText
                   (set_chatHistory app
                      (chatHistory app ++ [mkChatMessage assistant responseText])%list)
             | other => other
             end
         end
   end).

Definition APOLOGY : string := "Sorry, there was an error processing your request.".

(** The [finally] block. *)
Definition sendMessage_finally (app : ChatApp) : ChatApp :=
  let app := set_typingIndicator_visible app false in
  let app := set_isProcessing app false in
  let app := set_userInput app (set_input_disabled (userInput app) false) in
  let app := set_sendButton_disabled app false in
  set_userInput app (set_input_focused (userInput app) true).

Definition sendMessage (b : Browser) (app : ChatApp) : list Event * Run ChatApp :=
  let message := JsString.trim (input_value (userInput app)) in
  if String.eqb message "" || isProcessing app then ([], Returned app)
  else
    let app := sendMessage_begin b app message in
    let '(t, r) := sendMessage_try b app in
    match r with
    | TryDone _ app => (t, Returned (sendMessage_finally app))
    | TryThrew e app =>
        ((t ++ [EvConsoleError "Error:" e])%list,
         Returned (sendMessage_finally (addMessageToChat b app "assistant" APOLOGY)))
    | TryPending app => (t, Suspended app)
    end.

(** *** initEventListeners *)

Inductive UiEvent : Type :=
| Click                                   (* on the send button *)
| Keydown (key : string) (shiftKey : bool) (* in the input *)
| InputChanged.                           (* the input's [input] event *)

(** What a listener does: the run, and whether it called
    [preventDefault]. *)
Definition listener (b : Browser) (app : ChatApp) (ev : UiEvent)
  : (list Event * Run ChatApp) * bool :=
  match ev with
  | Click => (sendMessage b app, false)
  | Keydown key shiftKey =>
      if String.eqb key "Enter" && negb shiftKey then (sendMessage b app, true)
      else (([], Returned app), false)
  | InputChanged => (([], Returned (resizeInput b app)), false)
  end.

(** What the user does between two runs: types into the input, or picks
    other settings.  Neither touches the transcript or the history. *)
Definition user_types (app : ChatApp) (text : string) : ChatApp :=
  set_userInput app (set_input_value (userInput app) text).

Definition user_sets (app : ChatApp) (s : Settings) : ChatApp :=
  mkChatApp (chatMessages app) (userInput app) (sendButton_disabled app)
    (typingIndicator_visible app) s (chatHistory app) (isProcessing app).

(** The states a page goes through, from the constructor on. *)
Inductive reachable (b : Browser) : ChatApp -> Prop :=
| reach_constructor (page : ChatApp) : reachable b (constructor b page)
| reach_types (app : ChatApp) (text : string) :
    reachable b app -> reachable b (user_types app text)
| reach_sets (app : ChatApp) (s : Settings) :
    reachable b app -> reachable b (user_sets app s)
| reach_listener (app app' : ChatApp) (ev : UiEvent) (t : list Event) (p : bool) :
    reachable b app ->
    listener b app ev = ((t, Returned app'), p) ->
    reachable b app'.

(** A browser for the concrete runs: the network answers with the given
    response, numbers are kept as typed, layout heights are counts. *)
Definition sample_browser (answer : Result Response) : Browser :=
  mkBrowser (fun _ _ => answer)
            (fun s => JNum s) (fun s => JNum s)
            (fun els => Z.of_nat (List.length els))
            (fun s => "20").

Definition sample_page (text : string) : ChatApp :=
  mkChatApp (mkChatMessagesEl [] 0) (mkUserInputEl text false "" false)
            false false (mkSettings "workers-ai" "0.7" "40" "0.9") [] false.

(** The body reads of a log. *)
Fixpoint body_reads (t : list Event) : nat :=
  match t with
  | [] => 0
  | EvRequestJson :: rest => S (body_reads rest)
  | _ :: rest => body_reads rest
  end.

(** The elements the class creates. *)
Definition message_el (role_name content_text : string) : MessageEl :=
  mkMessageEl ("message " ++ role_name ++ "-message") ("<p>" ++ content_text ++ "</p>") None.

Definition assistant_el (shown : option string) : MessageEl :=
  mkMessageEl "message assistant-message" "<p></p>" shown.

(** The page with the transcript [els], scrolled to its bottom. *)
Definition with_children (b : Browser) (app : ChatApp) (els : list MessageEl) : ChatApp :=
  set_chatMessages app (mkChatMessagesEl els (chat_scrollHeight b els)).

(** What one decoder kept over all the chunks gives, chunk after chunk. *)
Fixpoint decode_all (d : TextDecoder.t) (cs : list (list byte)) : string :=
  match cs with
  | [] => ""
  | bs :: rest =>
      let '(chunk, d') := TextDecoder.decode d bs true in
      chunk ++ decode_all d' rest
  end.

(** How the read loop ends for a given end of the stream. *)
Definition end_of (final : StreamState) (responseText : string) (app : ChatApp) : TryEnd :=
  match final with
  | Closed => TryDone responseText app
  | Errored e => TryThrew e app
  | Readable => TryPending app
  end.

(** The page on which [sendMessage] gets through its first test. *)
Definition sends (app : ChatApp) : Prop :=
  JsString.trim (input_value (userInput app)) <> "" /\ isProcessing app = false.

(** A decoder with its two flags replaced. *)
Definition with_flags (d : TextDecoder.t) (f1 f2 : bool) : TextDecoder.t :=
  TextDecoder.mk (TextDecoder.code_point d) (TextDecoder.bytes_seen d)
    (TextDecoder.bytes_needed d) (TextDecoder.lower d) (TextDecoder.upper d) f1 f2.

(** One streaming step of a decoder that is already in streaming mode:
    the code points it gives and the decoder after. *)
Definition sdecode (d : TextDecoder.t) (bs : list byte) : TextDecoder.t * list N :=
  let '(d2, out2) := TextDecoder.run d bs in
  TextDecoder.strip_bom d2 out2.

(** A string of spaces, tabs, line feeds and carriage returns only. *)
Fixpoint blank (s : string) : bool :=
  match s with
  | EmptyString => true
  | String c rest =>
      (Ascii.eqb c " " || Ascii.eqb c "009" || Ascii.eqb c "010" || Ascii.eqb c "013")%char
      && blank rest
  end.

(** A history made of exchanges: a user message alone (the exchange
    failed) or a user message followed by the reply. *)
Inductive exchanges : list ChatMessage -> Prop :=
| exchanges_nil : exchanges []
| exchanges_failed (h : list ChatMessage) (m : string) :
    exchanges h -> m <> "" -> exchanges (h ++ [mkChatMessage user m])
| exchanges_replied (h : list ChatMessage) (m text : string) :
    exchanges h -> m <> "" ->
    exchanges (h ++ [mkChatMessage user m; mkChatMessage assistant text]).

(** The [try] block of [handleChatRequest] from the two fields read out
    of the body on. *)
Definition handle_fields (messages0 model0 : value) (env : Env) : M Response :=
  let ai := new_Ai (AI env) in
  let messages := Js.with_default messages0 (JArr []) in
  let model := Js.with_default model0 (JStr "workers-ai") in
  has_system <- lift (Js.some messages is_system) ;;
  messages <- (if negb has_system then lift (Js.unshift messages system_message)
               else ret messages) ;;
  responseStream <-
    (if Js.strict_eq_string (Some model) "gemini"
     then generateStreamingResponseUsingGemini messages env
     else generateStreamingResponseUsingWorkersAi messages ai) ;;
  ret (new_Response (BodyStream responseStream) (mkResponseInit None event_stream_headers)).

(** ** Well-formed UTF-8

    A scalar value is a code point outside the surrogate range.  The
    decoder is checked on every prefix of an encoded scalar value by
    running it: the checks below are the runs, one per prefix. *)

Module Utf8.

Local Open Scope N_scope.

Definition scalar (c : N) : bool :=
  (c <? 0xD800) || ((0xE000 <=? c) && (c <? 0x110000)).

(** [f] holds on [fuel] consecutive numbers from [c] on. *)
Fixpoint all_from (fuel : nat) (c : N) (f : N -> bool) : bool :=
  match fuel with
  | O => true
  | S k => if f c then all_from k (N.succ c) f else false
  end.

(** The decoder is in the middle of a sequence: [cp] gathered so far,
    [seen] of [needed] continuation bytes read, any continuation byte
    expected next, both flags off. *)
Definition state_is (d : TextDecoder.t) (cp seen needed : N) : bool :=
  (TextDecoder.code_point d =? cp) && (TextDecoder.bytes_seen d =? seen)
  && (TextDecoder.bytes_needed d =? needed)
  && (TextDecoder.lower d =? 0x80) && (TextDecoder.upper d =? 0xBF)
  && negb (TextDecoder.bom_seen d) && negb (TextDecoder.do_not_flush d).

(** The decoder between two characters, both flags off. *)
Definition d00 : TextDecoder.t := TextDecoder.mk 0 0 0 0x80 0xBF false false.

Definition byte_at (n : N) : byte := byte_of_ascii (ascii_of_N n).

(** The decoder run from [d00] over the bytes [bs]. *)
Definition after (bs : list N) : TextDecoder.t * list N :=
  TextDecoder.run d00 (map byte_at bs).

(** A run that gave no code point and stopped in the given state. *)
Definition silent (r : TextDecoder.t * list N) (cp seen needed : N) : bool :=
  state_is (fst r) cp seen needed && match snd r with [] => true | _ => false end.

(** All but the last byte of a two-byte, three-byte and four-byte
    character whose code point without its last six bits is [p]; three
    bytes are not checked where they would encode a surrogate. *)
Definition check_prefix2 (p : N) : bool :=
  silent (after [N.lor 0xC0 p]) p 0 1.

Definition check_prefix3 (p : N) : bool :=
  ((0x360 <=? p) && (p <? 0x380))
  || silent (after [N.lor 0xE0 (N.shiftr p 6); N.lor 0x80 (N.land p 0x3F)]) p 1 2.

Definition check_prefix4 (p : N) : bool :=
  silent (after [N.lor 0xF0 (N.shiftr p 12); N.lor 0x80 (N.land (N.shiftr p 6) 0x3F);
                 N.lor 0x80 (N.land p 0x3F)]) p 2 3.

(** The last byte of a character, carrying the six bits [l]. *)
Definition check_last (l : N) : bool :=
  let b := Byte.to_N (byte_at (N.lor 0x80 l)) in
  (N.land b 0x3F =? l) && (0x80 <=? b) && (b <=? 0xBF).

End Utf8.

(** ** Basic facts *)

Lemma bind_call {A B} (ev : Event) (r : Result A) (f : A -> M B) (rt : Runtime) :
  bind (call ev r) f rt
  = match r with
    | inl e => ([ev], inl e)
    | inr a => (ev :: fst (f a rt), snd (f a rt))
    end.
Proof. unfold bind, call. destruct r; reflexivity. Qed.

Lemma bind_fetch_global {B} (u : string) (init : RequestInit)
  (f : Response -> M B) (rt : Runtime) :
  bind (fetch_global u init) f rt
  = match global_fetch rt u init with
    | inl e => ([EvFetch u init], inl e)
    | inr a => (EvFetch u init :: fst (f a rt), snd (f a rt))
    end.
Proof. unfold bind, fetch_global, call. destruct (global_fetch rt u init); reflexivity. Qed.

Lemma bind_lift {A B} (r : Result A) (f : A -> M B) (rt : Runtime) :
  bind (lift r) f rt
  = match r with
    | inl e => ([], inl e)
    | inr a => f a rt
    end.
Proof. unfold bind, lift. destruct r; [reflexivity|]. now destruct (f a rt). Qed.

Lemma bind_ret {A B} (a : A) (f : A -> M B) (rt : Runtime) :
  bind (ret a) f rt = f a rt.
Proof. unfold bind, ret. now destruct (f a rt). Qed.

Lemma bind_then_ret {A B} (m : M A) (f : A -> B) (rt : Runtime) :
  bind m (fun a => ret (f a)) rt
  = (fst (m rt), match snd (m rt) with inl e => inl e | inr a => inr (f a) end).
Proof.
  unfold bind, ret. destruct (m rt) as [t [e|a]]; cbn [fst snd]; [reflexivity|].
  now rewrite app_nil_r.
Qed.

Lemma get_prop (v : json) (k : string) : v <> JNull -> Js.get v k = inr (prop v k).
Proof. destruct v; intros H; try reflexivity. now contradiction H. Qed.

Lemma get_null_throws (k : string) : exists e, Js.get JNull k = inl e.
Proof. eexists; reflexivity. Qed.

Lemma get_inr_not_null (v : json) (k : string) (x : value) :
  Js.get v k = inr x -> v <> JNull /\ x = prop v k.
Proof. destruct v; simpl; intros H; inversion H; split; congruence. Qed.

Lemma is_system_typed (m : ChatMessage) :
  is_system (ChatMessage_json m) = inr (is_system_role m).
Proof. destruct m as [[] c]; reflexivity. Qed.

Lemma some_typed (ms : list ChatMessage) :
  Js.Array_some is_system (map ChatMessage_json ms) = inr (existsb is_system_role ms).
Proof.
  induction ms as [|m ms IH]; cbn [map Js.Array_some existsb]; [reflexivity|].
  rewrite is_system_typed. destruct (is_system_role m); [reflexivity|exact IH].
Qed.

Lemma map_content_typed (ms : list ChatMessage) :
  Js.Array_map (fun msg => Js.get msg "content") (map ChatMessage_json ms)
  = inr (map (fun m => Some (JStr (content m))) ms).
Proof.
  induction ms as [|m ms IH]; cbn [map Js.Array_map]; [reflexivity|].
  rewrite IH. reflexivity.
Qed.

Lemma join_items_typed (ms : list ChatMessage) :
  Js.join_items (map (fun m => Some (JStr (content m))) ms) = inr (map content ms).
Proof.
  induction ms as [|m ms IH]; [reflexivity|].
  cbn [map Js.join_items Js.join_item Js.toString]. now rewrite IH.
Qed.

Lemma join_content_typed (sep : string) (ms : list ChatMessage) :
  Js.Array_join sep (map (fun m => Some (JStr (content m))) ms)
  = inr (Str.join sep (map content ms)).
Proof. unfold Js.Array_join. now rewrite join_items_typed. Qed.

(** The adapter, once the body is parsed, its two fields are read and
    [some] has run over the messages: one generator is entered, with the
    messages as they are or with the system message put in front. *)
Lemma try_selects (request : Request) (env : Env) (rt : Runtime)
  (parsed : json) (items : list json) (b : bool) :
  json_body request = inr parsed ->
  parsed <> JNull ->
  Js.with_default (prop parsed "messages") (JArr []) = JArr items ->
  Js.Array_some is_system items = inr b ->
  let messages := JArr (if b then items else system_message :: items) in
  let run := run_generator (selected (prop parsed "model")) messages env rt in
  handleChatRequest_try request env rt
  = (EvRequestJson :: fst run,
     match snd run with
     | inl e => inl e
     | inr stream => inr (mkResponse 200 event_stream_headers (BodyStream stream))
     end).
Proof.
  intros Hbody Hnn Hmsgs Hsome messages run.
  unfold handleChatRequest_try, request_json.
  rewrite bind_call, Hbody, bind_lift, (get_prop _ _ Hnn), bind_lift, (get_prop _ _ Hnn).
  rewrite Hmsgs, bind_lift. cbn [Js.some]. rewrite Hsome.
  assert (Hm : (if negb b then lift (Js.unshift (JArr items) system_message)
                else ret (JArr items)) = ret messages)
    by (subst messages; destruct b; reflexivity).
  rewrite Hm, bind_ret, bind_then_ret.
  subst run. unfold selected, run_generator.
  destruct (Js.strict_eq_string _ "gemini"); reflexivity.
Qed.

(** ** The generators, run *)

Lemma workers_ai_run (messages : json) (ai : Ai) (rt : Runtime) :
  generateStreamingResponseUsingWorkersAi messages ai rt
  = ([EvEnter WorkersAi messages; EvAiRun WORKERS_AI_MODEL (mkAiInput messages true)],
     binding ai WORKERS_AI_MODEL (mkAiInput messages true)).
Proof.
  unfold generateStreamingResponseUsingWorkersAi, emit, Ai_run.
  rewrite bind_call. cbn [fst snd].
  rewrite (bind_then_ret _ (fun x => x)). unfold call. cbn [fst snd].
  now destruct (binding ai _ _).
Qed.

Lemma gemini_run (messages : json) (env : Env) (rt : Runtime) :
  generateStreamingResponseUsingGemini messages env rt
  = match Js.map_ messages (fun msg => Js.get msg "content") with
    | inl e => ([EvEnter Gemini messages], inl e)
    | inr contents =>
        match Js.Array_join Str.nl contents with
        | inl e => ([EvEnter Gemini messages], inl e)
        | inr prompt =>
            let init := gemini_init (GEMINI_API_KEY env) prompt in
            ([EvEnter Gemini messages; EvFetch GEMINI_API_ENDPOINT init],
             match global_fetch rt GEMINI_API_ENDPOINT init with
             | inl e => inl e
             | inr response =>
                 match body_getReader response with
                 | None => inl (Error "Failed to get reader from Gemini API response")
                 | Some reader => inr (start reader Stream.fresh)
                 end
             end)
        end
    end.
Proof.
  unfold generateStreamingResponseUsingGemini, emit.
  rewrite bind_call. cbn [fst snd]. rewrite bind_lift.
  destruct (Js.map_ messages _) as [e|contents]; [reflexivity|].
  rewrite bind_lift.
  destruct (Js.Array_join Str.nl contents) as [e|prompt]; [reflexivity|].
  rewrite bind_fetch_global. fold (gemini_request prompt).
  fold (gemini_init (GEMINI_API_KEY env) prompt).
  cbv zeta. destruct (global_fetch rt _ _) as [e|response]; [reflexivity|].
  destruct (body_getReader response); reflexivity.
Qed.

Lemma entered_run_generator (g : Generator) (messages : json) (env : Env) (rt : Runtime) :
  entered (fst (run_generator g messages env rt)) = [(g, messages)].
Proof.
  destruct g; cbn [run_generator].
  - now rewrite workers_ai_run.
  - rewrite gemini_run. destruct (Js.map_ messages _) as [e|contents]; [reflexivity|].
    now destruct (Js.Array_join Str.nl contents).
Qed.

(** ** The loop of the secondary generator *)

(** [start] is the loop of the source, one [read] at a time. *)
Lemma start_step (reader : Stream.Reader) (controller : Stream.Controller) :
  start reader controller
  = match Stream.read reader with
    | (Stream.Settled true _, _) => Stream.close controller
    | (Stream.Settled false value, reader') =>
        match decode_value value with
        | inl e => Stream.error controller e
        | inr chunk => start reader' (Stream.enqueue controller (Text (sse_frame chunk)))
        end
    | (Stream.Rejected e, _) => Stream.error controller e
    | (Stream.Pending, _) => controller
    end.
Proof.
  destruct reader as [[|c rest] [| |e]]; reflexivity.
Qed.

Lemma pump_bytes (cs : list (list byte)) (final : StreamState) (c : Stream.Controller) :
  pump (map Bytes cs) final c
  = settle final (mkStream (chunks c ++ map frame_of cs)%list (state c)).
Proof.
  revert c. induction cs as [|b cs IH]; intros c; cbn [map pump].
  - rewrite app_nil_r. now destruct c, final.
  - cbn [decode_value]. rewrite IH. cbn [Stream.enqueue chunks state].
    now rewrite <- app_assoc.
Qed.

Lemma start_bytes (cs : list (list byte)) (final : StreamState) :
  start (mkStream (map Bytes cs) final) Stream.fresh
  = settle final (mkStream (map frame_of cs) Readable).
Proof. unfold start. cbn [chunks state]. now rewrite pump_bytes. Qed.

(** ** The adapter, inverted *)

Lemma try_reaches_selection (request : Request) (env : Env) (rt : Runtime)
  (resp : Response) :
  result_of (handleChatRequest_try request env) rt = inr resp ->
  exists parsed items b,
    json_body request = inr parsed /\ parsed <> JNull /\
    Js.with_default (prop parsed "messages") (JArr []) = JArr items /\
    Js.Array_some is_system items = inr b.
Proof.
  unfold result_of, handleChatRequest_try, request_json.
  rewrite bind_call. destruct (json_body request) as [e|parsed]; [discriminate|].
  cbn [snd]. rewrite bind_lift.
  destruct (Js.get parsed "messages") as [e|m0] eqn:Hm; [discriminate|].
  apply get_inr_not_null in Hm. destruct Hm as [Hnn ->].
  rewrite bind_lift, (get_prop _ _ Hnn), bind_lift.
  destruct (Js.with_default (prop parsed "messages") (JArr [])) as [| | | |items|] eqn:Hd;
    try discriminate.
  cbn [Js.some]. destruct (Js.Array_some is_system items) as [e|b] eqn:Hs; [discriminate|].
  intros _. now exists parsed, items, b.
Qed.

(** ** The adapter, run *)

Lemma handleChatRequest_run (request : Request) (env : Env) (rt : Runtime) :
  handleChatRequest request env rt
  = match snd (handleChatRequest_try request env rt) with
    | inl e =>
        ((fst (handleChatRequest_try request env rt)
          ++ [EvConsoleError "Error processing chat request:" e])%list,
         inr error_response)
    | inr resp => (fst (handleChatRequest_try request env rt), inr resp)
    end.
Proof.
  unfold handleChatRequest, try_catch.
  destruct (handleChatRequest_try request env rt) as [t [e|resp]]; reflexivity.
Qed.

Lemma entered_app (t1 t2 : list Event) :
  entered (t1 ++ t2) = (entered t1 ++ entered t2)%list.
Proof.
  induction t1 as [|ev t1 IH]; [reflexivity|].
  destruct ev; cbn [app entered]; now rewrite IH.
Qed.

Lemma upstream_calls_app (t1 t2 : list Event) :
  upstream_calls (t1 ++ t2) = (upstream_calls t1 ++ upstream_calls t2)%list.
Proof.
  induction t1 as [|ev t1 IH]; [reflexivity|].
  destruct ev; cbn [app upstream_calls]; now rewrite IH.
Qed.

Lemma entered_handleChatRequest (request : Request) (env : Env) (rt : Runtime) :
  entered (log_of (handleChatRequest request env) rt)
  = entered (log_of (handleChatRequest_try request env) rt).
Proof.
  unfold log_of. rewrite handleChatRequest_run.
  destruct (snd (handleChatRequest_try request env rt)); cbn [fst]; [|reflexivity].
  rewrite entered_app. cbn [entered]. now rewrite app_nil_r.
Qed.

Lemma upstream_calls_handleChatRequest (request : Request) (env : Env) (rt : Runtime) :
  upstream_calls (log_of (handleChatRequest request env) rt)
  = upstream_calls (log_of (handleChatRequest_try request env) rt).
Proof.
  unfold log_of. rewrite handleChatRequest_run.
  destruct (snd (handleChatRequest_try request env rt)); cbn [fst]; [|reflexivity].
  rewrite upstream_calls_app. cbn [upstream_calls]. now rewrite app_nil_r.
Qed.

(** What is dispatched once selection is reached. *)
Lemma dispatch_after_selection (request : Request) (env : Env) (rt : Runtime)
  (parsed : json) (items : list json) (b : bool) :
  json_body request = inr parsed ->
  parsed <> JNull ->
  Js.with_default (prop parsed "messages") (JArr []) = JArr items ->
  Js.Array_some is_system items = inr b ->
  entered (log_of (handleChatRequest request env) rt)
  = [(selected (prop parsed "model"),
      JArr (if b then items else system_message :: items))].
Proof.
  intros Hbody Hnn Hmsgs Hsome.
  rewrite entered_handleChatRequest. unfold log_of.
  rewrite (try_selects request env rt parsed items b Hbody Hnn Hmsgs Hsome).
  cbn [fst entered]. apply entered_run_generator.
Qed.

Lemma selected_gemini (model : value) :
  selected model = Gemini <-> model = Some (JStr "gemini").
Proof.
  unfold selected. destruct model as [[| | |s| |]|]; cbn; split; try discriminate;
    try (intros H; inversion H; fail).
  - destruct (String.eqb s "gemini") eqn:E; [|discriminate].
    apply String.eqb_eq in E. now subst.
  - intros H. inversion H. reflexivity.
Qed.

Lemma selected_cases (model : value) :
  model <> Some (JStr "gemini") -> selected model = WorkersAi.
Proof.
  intros H. destruct (selected model) eqn:E; [reflexivity|].
  apply selected_gemini in E. contradiction.
Qed.

Lemma typed_messages_not_null (parsed : json) (x : json) :
  prop parsed "messages" = Some x -> parsed <> JNull.
Proof. intros H ->. discriminate. Qed.

Lemma no_system_existsb (ms : list ChatMessage) :
  (forall m, In m ms -> role m <> system) -> existsb is_system_role ms = false.
Proof.
  intros H. destruct (existsb is_system_role ms) eqn:E; [|reflexivity].
  apply existsb_exists in E. destruct E as [m [Hin Hr]].
  specialize (H m Hin). unfold is_system_role in Hr. destruct (role m); congruence.
Qed.

Lemma some_system_existsb (ms : list ChatMessage) :
  (exists m, In m ms /\ role m = system) -> existsb is_system_role ms = true.
Proof.
  intros [m [Hin Hr]]. apply existsb_exists. exists m. split; [exact Hin|].
  unfold is_system_role. now rewrite Hr.
Qed.

(** ** Concrete runs *)

Example run_workers_ai_scenario :
  handleChatRequest
    (chat_request (JObj [("messages", messages_json [mkChatMessage user "Hi"]);
                         ("model", JStr "workers-ai")]))
    sample_env sample_rt
  = ([EvRequestJson;
      EvEnter WorkersAi (messages_json [default_system_message; mkChatMessage user "Hi"]);
      EvAiRun WORKERS_AI_MODEL
        (mkAiInput (messages_json [default_system_message; mkChatMessage user "Hi"]) true)],
     inr (mkResponse 200 event_stream_headers (BodyStream sample_stream))).
Proof. reflexivity. Qed.

Example run_messages_not_an_array :
  handleChatRequest (chat_request (JObj [("messages", JStr "Hi")])) sample_env sample_rt
  = ([EvRequestJson;
      EvConsoleError "Error processing chat request:"
        (TypeError "messages.some is not a function")],
     inr error_response).
Proof. reflexivity. Qed.

Example run_null_message_element :
  result_of (handleChatRequest (chat_request (JObj [("messages", JArr [JNull])]))
               sample_env) sample_rt
  = inr error_response.
Proof. reflexivity. Qed.

Example run_inference_rejects :
  result_of (handleChatRequest (chat_request (JObj [])) failing_env) sample_rt
  = inr error_response.
Proof. reflexivity. Qed.

Example run_network_rejects :
  handleChatRequest (chat_request (JObj [("model", JStr "gemini")])) sample_env failing_rt
  = ([EvRequestJson;
      EvEnter Gemini (messages_json [default_system_message]);
      EvFetch GEMINI_API_ENDPOINT (gemini_init "KEY" SYSTEM_PROMPT);
      EvConsoleError "Error processing chat request:" (Rejection "network unreachable")],
     inr error_response).
Proof. reflexivity. Qed.

Example run_content_not_convertible :
  handleChatRequest
    (chat_request (JObj [("model", JStr "gemini");
                         ("messages",
                          JArr [JObj [("role", JStr "user");
                                      ("content", JObj [("toString", JNum "1")])]])]))
    sample_env sample_rt
  = ([EvRequestJson;
      EvEnter Gemini
        (JArr [system_message;
               JObj [("role", JStr "user");
                     ("content", JObj [("toString", JNum "1")])]]);
      EvConsoleError "Error processing chat request:"
        (TypeError "Cannot convert object to primitive value")],
     inr error_response).
Proof. reflexivity. Qed.

Example run_content_is_an_array :
  Js.Array_join Str.nl
    [Some (JStr "A"); None; Some (JArr [JNull; JNum "1"; JArr [JStr "a"; JObj []]])]
  = inr ("A" ++ Str.nl ++ Str.nl ++ ",1,a,[object Object]").
Proof. reflexivity. Qed.

Example run_primitive_body_takes_defaults :
  entered (log_of (handleChatRequest (chat_request (JNum "5")) sample_env) sample_rt)
  = [(WorkersAi, messages_json [default_system_message])].
Proof. reflexivity. Qed.

Example run_unknown_api_path :
  fetch (mkRequest "GET" (mkURL "/api/unknown") (inr JNull)) sample_env sample_rt
  = ([], inr (mkResponse 404 [("content-type", "text/plain;charset=UTF-8")]
                (BodyString "Not found"))).
Proof. reflexivity. Qed.

Example run_static_asset :
  fetch (mkRequest "GET" (mkURL "/index.html") (inr JNull)) sample_env sample_rt
  = ([EvAssetsFetch (mkRequest "GET" (mkURL "/index.html") (inr JNull))],
     inr (mkResponse 200 [] (BodyString "index"))).
Proof. reflexivity. Qed.

Example decode_replaces_and_strips :
  fst (TextDecoder.decode TextDecoder.new [xef; xbb; xbf; x41; xe2; x41] false)
  = "A" ++ Str.of_bytes [xef; xbf; xbd] ++ "A".
Proof. reflexivity. Qed.

Example stringify_escapes :
  JSON.stringify (JObj [("text", JStr ("a" ++ Str.nl ++ Str.dq ++ "b"))])
  = "{" ++ Str.dq ++ "text" ++ Str.dq ++ ":" ++ Str.dq
    ++ "a\n\" ++ Str.dq ++ "b" ++ Str.dq ++ "}".
Proof. reflexivity. Qed.

(** ** The claims *)

(** C1. For every message list without a [system]-role element, the chat
    adapter hands the generator the list with exactly one default system
    message put at index 0; for every message list that has a
    [system]-role element, it hands the generator the same list, in the
    same order. *)
Theorem system_prompt_inserted_at_front_iff_absent
  (request : Request) (env : Env) (rt : Runtime) (parsed : json)
  (ms : list ChatMessage) :
  json_body request = inr parsed ->
  prop parsed "messages" = Some (messages_json ms) ->
  let dispatched := entered (log_of (handleChatRequest request env) rt) in
  ((forall m, In m ms -> role m <> system) ->
     dispatched = [(selected (prop parsed "model"),
                    messages_json (default_system_message :: ms))]
     /\ nth_error (default_system_message :: ms) 0 = Some default_system_message
     /\ filter is_system_role (default_system_message :: ms) = [default_system_message])
  /\ ((exists m, In m ms /\ role m = system) ->
     dispatched = [(selected (prop parsed "model"), messages_json ms)]).
Proof.
  intros Hbody Hmsgs dispatched.
  pose proof (typed_messages_not_null _ _ Hmsgs) as Hnn.
  assert (Hd : Js.with_default (prop parsed "messages") (JArr [])
               = JArr (map ChatMessage_json ms)) by now rewrite Hmsgs.
  pose proof (dispatch_after_selection request env rt parsed _ _ Hbody Hnn Hd
                (some_typed ms)) as Hrun.
  split; intros H.
  - apply no_system_existsb in H. subst dispatched. rewrite Hrun, H.
    split; [reflexivity|]. split; [reflexivity|].
    cbn [filter is_system_role default_system_message role]. f_equal.
    clear - H. induction ms as [|m ms IH]; [reflexivity|].
    cbn [existsb] in H. apply orb_false_iff in H. destruct H as [Hm Hms].
    cbn [filter]. rewrite Hm. now apply IH.
  - apply some_system_existsb in H. subst dispatched. now rewrite Hrun, H.
Qed.

Lemma system_prompt_inserted_at_front_iff_absent_witness :
  entered (log_of (handleChatRequest
                     (chat_request (JObj [("messages",
                        messages_json [mkChatMessage user "Hi"])]))
                     sample_env) sample_rt)
  = [(WorkersAi, messages_json [default_system_message; mkChatMessage user "Hi"])].
Proof.
  refine (proj1 (proj1 (system_prompt_inserted_at_front_iff_absent
            (chat_request (JObj [("messages", messages_json [mkChatMessage user "Hi"])]))
            sample_env sample_rt _ [mkChatMessage user "Hi"] eq_refl eq_refl) _)).
  intros m [<-|[]]. discriminate.
Defined.

Lemma model_gemini_null_messages_enters_no_generator :
  let parsed := JObj [("model", JStr "gemini"); ("messages", JNull)] in
  let request := chat_request parsed in
  json_body request = inr parsed
  /\ ~ ((exists m, In (Gemini, m)
                     (entered (log_of (handleChatRequest request sample_env) sample_rt)))
        <-> prop parsed "model" = Some (JStr "gemini")).
Proof.
  split; [reflexivity|].
  intros [_ H]. destruct (H eq_refl) as [m Hin]. exact Hin.
Qed.

(** C2 (amended). For every parsed request body on which handling reaches
    generator selection (the body is not [null], and [messages] is absent
    or an array over which the system-role test does not throw), the
    secondary generator is entered if and only if [model] is exactly the
    string "gemini"; for every other [model], the default "workers-ai" of
    an absent field included, the primary generator is entered. *)
Theorem generator_selected_by_model
  (request : Request) (env : Env) (rt : Runtime) (parsed : json)
  (items : list json) (b : bool) :
  json_body request = inr parsed ->
  parsed <> JNull ->
  Js.with_default (prop parsed "messages") (JArr []) = JArr items ->
  Js.Array_some is_system items = inr b ->
  let dispatched := entered (log_of (handleChatRequest request env) rt) in
  ((exists m, In (Gemini, m) dispatched) <-> prop parsed "model" = Some (JStr "gemini"))
  /\ (prop parsed "model" = Some (JStr "gemini") -> exists m, dispatched = [(Gemini, m)])
  /\ (prop parsed "model" <> Some (JStr "gemini") -> exists m, dispatched = [(WorkersAi, m)])
  /\ (prop parsed "model" = None -> exists m, dispatched = [(WorkersAi, m)]).
Proof.
  intros Hbody Hnn Hmsgs Hsome dispatched.
  pose proof (dispatch_after_selection request env rt parsed items b
                Hbody Hnn Hmsgs Hsome) as Hrun.
  fold dispatched in Hrun.
  assert (Hother : prop parsed "model" <> Some (JStr "gemini") ->
                   exists m, dispatched = [(WorkersAi, m)]).
  { intros Hne. rewrite Hrun, (selected_cases _ Hne). eauto. }
  repeat split.
  - intros [m Hin]. rewrite Hrun in Hin. destruct Hin as [Heq|[]].
    apply selected_gemini. congruence.
  - intros Hg. apply selected_gemini in Hg. rewrite Hrun, Hg. eexists. now left.
  - intros Hg. apply selected_gemini in Hg. rewrite Hrun, Hg. eauto.
  - exact Hother.
  - intros Hnone. apply Hother. rewrite Hnone. discriminate.
Qed.

Lemma generator_selected_by_model_witness :
  let parsed := JObj [("model", JStr "gemini");
                      ("messages", messages_json [mkChatMessage user "Hi"])] in
  exists m, entered (log_of (handleChatRequest (chat_request parsed) sample_env) sample_rt)
            = [(Gemini, m)].
Proof.
  intros parsed.
  refine (proj1 (proj2 (generator_selected_by_model (chat_request parsed)
            sample_env sample_rt parsed _ false eq_refl _ eq_refl eq_refl)) eq_refl).
  discriminate.
Defined.

Lemma null_body_enters_no_generator :
  let request := chat_request JNull in
  json_body request = inr JNull
  /\ prop JNull "messages" = None
  /\ prop JNull "model" <> Some (JStr "gemini")
  /\ entered (log_of (handleChatRequest request sample_env) sample_rt)
     <> [(WorkersAi, JArr [system_message])]
  /\ result_of (handleChatRequest request sample_env) sample_rt = inr error_response.
Proof.
  repeat split; try reflexivity; intros H; discriminate H.
Qed.

(** C9 (amended). For every request body that parses to a JSON value other
    than [null], has no [messages] field (or an empty [messages] array) and
    a [model] that is not "gemini", the primary generator is entered with
    exactly the one-element list holding the default system message, and
    that list is what [ai.run] receives. *)
Theorem empty_messages_give_system_prompt_only
  (request : Request) (env : Env) (rt : Runtime) (parsed : json) :
  json_body request = inr parsed ->
  parsed <> JNull ->
  prop parsed "messages" = None \/ prop parsed "messages" = Some (JArr []) ->
  prop parsed "model" <> Some (JStr "gemini") ->
  let t := log_of (handleChatRequest request env) rt in
  entered t = [(WorkersAi, messages_json [default_system_message])]
  /\ upstream_calls t
     = [EvAiRun WORKERS_AI_MODEL
          (mkAiInput (messages_json [default_system_message]) true)].
Proof.
  intros Hbody Hnn Hmsgs Hmodel t.
  assert (Hd : Js.with_default (prop parsed "messages") (JArr []) = JArr [])
    by (destruct Hmsgs as [-> | ->]; reflexivity).
  split.
  - subst t.
    rewrite (dispatch_after_selection request env rt parsed [] false Hbody Hnn Hd eq_refl).
    now rewrite (selected_cases _ Hmodel).
  - subst t. rewrite upstream_calls_handleChatRequest. unfold log_of.
    rewrite (try_selects request env rt parsed [] false Hbody Hnn Hd eq_refl).
    rewrite (selected_cases _ Hmodel). cbn [run_generator fst].
    now rewrite workers_ai_run.
Qed.

Lemma empty_messages_give_system_prompt_only_witness :
  upstream_calls (log_of (handleChatRequest (chat_request (JObj [("temperature", JNum "0.7")]))
                            sample_env) sample_rt)
  = [EvAiRun WORKERS_AI_MODEL (mkAiInput (messages_json [default_system_message]) true)].
Proof.
  refine (proj2 (empty_messages_give_system_prompt_only
            (chat_request (JObj [("temperature", JNum "0.7")])) sample_env sample_rt
            _ eq_refl _ (or_introl eq_refl) _)); discriminate.
Defined.

(** ** Routing *)

Lemma prefix_iff (a s : string) :
  String.prefix a s = true <-> exists rest, s = a ++ rest.
Proof.
  revert s. induction a as [|c a IH]; intros s.
  - split; [intros _; now exists s | intros _; now destruct s].
  - destruct s as [|c' s]; cbn [String.prefix append].
    + split; [discriminate | intros [rest H]; discriminate H].
    + destruct (Ascii.ascii_dec c c') as [->|Hne].
      * rewrite IH. split; intros [rest H]; exists rest; congruence.
      * split; [discriminate | intros [rest H]; congruence].
Qed.

(** C4. Routing is a total function of the request's method and path: a
    path equal to "/" or not beginning with "/api/" gives exactly what the
    static-asset collaborator answers; "/api/chat" with POST goes to the
    chat handler; "/api/chat" with any other method gives status 405 with
    an empty log (no body read, no upstream call); any other path
    beginning with "/api/" gives status 404. *)
Theorem routing_by_method_and_path (request : Request) (env : Env) (rt : Runtime) :
  let p := pathname (url request) in
  let m := method request in
  fetch request env = respond_to (route_of m p) request env
  /\ ((p = "/" \/ ~ (exists rest, p = "/api/" ++ rest)) ->
      fetch request env rt = ([EvAssetsFetch request], ASSETS env request))
  /\ (p = "/api/chat" -> m = "POST" ->
      fetch request env = handleChatRequest request env)
  /\ (p = "/api/chat" -> m <> "POST" ->
      exists resp, fetch request env rt = ([], inr resp)
                   /\ status resp = 405%Z /\ body resp = BodyString "Method not allowed")
  /\ ((exists rest, p = "/api/" ++ rest) -> p <> "/api/chat" ->
      exists resp, fetch request env rt = ([], inr resp)
                   /\ status resp = 404%Z /\ body resp = BodyString "Not found").
Proof.
  intros p m. unfold fetch, route_of, Str.startsWith. fold p m.
  split; [|split; [|split; [|split]]].
  - destruct (String.eqb p "/"); [reflexivity|].
    destruct (String.prefix "/api/" p); [|reflexivity]. cbn [negb orb].
    destruct (String.eqb p "/api/chat"); [|reflexivity]. cbn [negb].
    destruct (String.eqb m "POST"); reflexivity.
  - intros [Hroot | Hnot].
    + rewrite Hroot. reflexivity.
    + destruct (String.prefix "/api/" p) eqn:E.
      * apply prefix_iff in E. contradiction.
      * now rewrite orb_true_r.
  - intros -> ->. reflexivity.
  - intros -> Hm. apply String.eqb_neq in Hm. cbn. rewrite Hm.
    eexists. split; [reflexivity|]. split; reflexivity.
  - intros Hapi Hne. apply prefix_iff in Hapi. apply String.eqb_neq in Hne.
    rewrite Hapi, Hne.
    destruct (String.eqb p "/") eqn:E.
    + apply String.eqb_eq in E. rewrite E in Hapi. discriminate Hapi.
    + cbn. eexists. split; [reflexivity|]. split; reflexivity.
Qed.

Lemma routing_by_method_and_path_witness :
  exists resp,
    fetch (mkRequest "GET" (mkURL "/api/chat") (inr JNull)) sample_env sample_rt
    = ([], inr resp)
    /\ status resp = 405%Z /\ body resp = BodyString "Method not allowed".
Proof.
  refine (proj1 (proj2 (proj2 (proj2 (routing_by_method_and_path
            (mkRequest "GET" (mkURL "/api/chat") (inr JNull)) sample_env sample_rt))))
            eq_refl _).
  discriminate.
Defined.

(** ** The error boundary *)

(** C5. Every exception raised inside the [try] block of the chat handler
    (reading and parsing the body, malformed JSON included, the defaults,
    the choice of generator, the generator up to the construction of its
    stream) is caught by the one [catch] and becomes the response with
    status 500 and body [{"error":"Failed to process request"}]; the
    response is the same whatever the exception was, and the handler
    itself never throws. *)
Theorem exceptions_become_generic_500 (request : Request) (env : Env) (rt : Runtime) :
  (forall e, result_of (handleChatRequest_try request env) rt = inl e ->
     handleChatRequest request env rt
     = ((log_of (handleChatRequest_try request env) rt
         ++ [EvConsoleError "Error processing chat request:" e])%list,
        inr error_response))
  /\ (forall e, json_body request = inl e ->
        result_of (handleChatRequest request env) rt = inr error_response)
  /\ (forall parsed items b e,
        json_body request = inr parsed ->
        parsed <> JNull ->
        Js.with_default (prop parsed "messages") (JArr []) = JArr items ->
        Js.Array_some is_system items = inr b ->
        result_of (run_generator (selected (prop parsed "model"))
                     (JArr (if b then items else system_message :: items)) env) rt
        = inl e ->
        result_of (handleChatRequest request env) rt = inr error_response)
  /\ (exists resp, result_of (handleChatRequest request env) rt = inr resp)
  /\ error_response
     = mkResponse 500 [("content-type", "application/json")]
         (BodyString ("{" ++ Str.dq ++ "error" ++ Str.dq ++ ":"
                      ++ Str.dq ++ "Failed to process request" ++ Str.dq ++ "}")).
Proof.
  assert (Hcatch : forall e, result_of (handleChatRequest_try request env) rt = inl e ->
            handleChatRequest request env rt
            = ((log_of (handleChatRequest_try request env) rt
                ++ [EvConsoleError "Error processing chat request:" e])%list,
               inr error_response)).
  { intros e He. rewrite handleChatRequest_run.
    unfold result_of in He. now rewrite He. }
  split; [exact Hcatch|]. split; [|split; [|split]].
  - intros e He. unfold result_of at 1. rewrite (Hcatch e); [reflexivity|].
    unfold result_of, handleChatRequest_try, request_json.
    now rewrite bind_call, He.
  - intros parsed items b e Hbody Hnn Hmsgs Hsome Hgen.
    unfold result_of at 1. rewrite (Hcatch e); [reflexivity|].
    unfold result_of.
    rewrite (try_selects request env rt parsed items b Hbody Hnn Hmsgs Hsome).
    cbn [snd]. unfold result_of in Hgen. now rewrite Hgen.
  - unfold result_of. rewrite handleChatRequest_run.
    destruct (snd (handleChatRequest_try request env rt)); eexists; reflexivity.
  - reflexivity.
Qed.

Lemma exceptions_become_generic_500_witness :
  result_of (handleChatRequest
               (mkRequest "POST" (mkURL "/api/chat")
                  (inl (SyntaxError "Unexpected token")))
               sample_env) sample_rt
  = inr error_response.
Proof.
  exact (proj1 (proj2 (exceptions_become_generic_500
           (mkRequest "POST" (mkURL "/api/chat") (inl (SyntaxError "Unexpected token")))
           sample_env sample_rt)) (SyntaxError "Unexpected token") eq_refl).
Defined.

(** ** The streamed response *)

(** C8. For every chat request whose handling gets through the [try]
    block without an exception, the response has status 200, exactly the
    headers content-type: text/event-stream, cache-control: no-cache and
    connection: keep-alive, and as its body the stream the one generator
    that was entered gave back. *)
Theorem streamed_response_status_and_headers
  (request : Request) (env : Env) (rt : Runtime) (resp : Response) :
  result_of (handleChatRequest_try request env) rt = inr resp ->
  result_of (handleChatRequest request env) rt = inr resp
  /\ status resp = 200%Z
  /\ headers resp = [("content-type", "text/event-stream");
                     ("cache-control", "no-cache");
                     ("connection", "keep-alive")]
  /\ exists g messages stream,
       entered (log_of (handleChatRequest request env) rt) = [(g, messages)]
       /\ result_of (run_generator g messages env) rt = inr stream
       /\ body resp = BodyStream stream.
Proof.
  intros Hok.
  destruct (try_reaches_selection request env rt resp Hok)
    as (parsed & items & b & Hbody & Hnn & Hmsgs & Hsome).
  assert (Hrun : result_of (handleChatRequest request env) rt = inr resp).
  { unfold result_of. rewrite handleChatRequest_run.
    unfold result_of in Hok. now rewrite Hok. }
  pose proof (dispatch_after_selection request env rt parsed items b
                Hbody Hnn Hmsgs Hsome) as Hent.
  unfold result_of in Hok.
  rewrite (try_selects request env rt parsed items b Hbody Hnn Hmsgs Hsome) in Hok.
  cbn [snd] in Hok.
  destruct (snd (run_generator (selected (prop parsed "model"))
                   (JArr (if b then items else system_message :: items)) env rt))
    as [e|stream] eqn:Hgen; [discriminate|].
  inversion Hok; subst resp.
  split; [exact Hrun|]. split; [reflexivity|]. split; [reflexivity|].
  exists (selected (prop parsed "model")),
         (JArr (if b then items else system_message :: items)), stream.
  split; [exact Hent|]. split; [exact Hgen|reflexivity].
Qed.

Lemma streamed_response_status_and_headers_witness :
  result_of (handleChatRequest
               (chat_request (JObj [("messages", messages_json [mkChatMessage user "Hi"])]))
               sample_env) sample_rt
  = inr (mkResponse 200 event_stream_headers (BodyStream sample_stream)).
Proof.
  exact (proj1 (streamed_response_status_and_headers
           (chat_request (JObj [("messages", messages_json [mkChatMessage user "Hi"])]))
           sample_env sample_rt
           (mkResponse 200 event_stream_headers (BodyStream sample_stream)) eq_refl)).
Defined.

(** ** The secondary generator *)

Lemma gemini_run_typed (ms : list ChatMessage) (env : Env) (rt : Runtime) :
  generateStreamingResponseUsingGemini (messages_json ms) env rt
  = let init := gemini_init (GEMINI_API_KEY env) (Str.join Str.nl (map content ms)) in
    ([EvEnter Gemini (messages_json ms); EvFetch GEMINI_API_ENDPOINT init],
     match global_fetch rt GEMINI_API_ENDPOINT init with
     | inl e => inl e
     | inr response =>
         match body_getReader response with
         | None => inl (Error "Failed to get reader from Gemini API response")
         | Some reader => inr (start reader Stream.fresh)
         end
     end).
Proof.
  rewrite gemini_run. unfold messages_json. cbn [Js.map_].
  now rewrite map_content_typed, join_content_typed.
Qed.

Lemma append_nil_r (s : string) : s ++ "" = s.
Proof. induction s as [|c s IH]; cbn; [reflexivity|now rewrite IH]. Qed.

Lemma append_assoc (a b c : string) : (a ++ b) ++ c = a ++ (b ++ c).
Proof. induction a as [|x a IH]; cbn; [reflexivity|now rewrite IH]. Qed.

Lemma join_spec_joined (sep : string) (l : list string) :
  Str.join sep l = spec_joined sep l.
Proof.
  unfold Str.join. induction l as [|x l IH]; [reflexivity|].
  destruct l as [|y l]; [reflexivity|].
  cbn [String.concat spec_joined] in *. now rewrite IH.
Qed.

Lemma quote_body_app (a b : string) :
  JSON.quote_body (a ++ b) = JSON.quote_body a ++ JSON.quote_body b.
Proof.
  induction a as [|x a IH]; [reflexivity|].
  cbn [append JSON.quote_body]. now rewrite IH, append_assoc.
Qed.

Lemma quote_char_plain (c : ascii) :
  plain_char c = true -> JSON.quote_char c = String c "".
Proof.
  unfold plain_char, JSON.quote_char. cbv zeta. intros H.
  apply andb_true_iff in H. destruct H as [H H92].
  apply andb_true_iff in H. destruct H as [H32 H34].
  apply negb_true_iff in H34, H92. apply N.leb_le in H32.
  rewrite H34, H92.
  assert (E : forall k, (k < 32)%N -> (N_of_ascii c =? k)%N = false)
    by (intros k Hk; apply N.eqb_neq; lia).
  rewrite !E by lia.
  assert (L : (N_of_ascii c <? 32)%N = false) by (apply N.ltb_ge; exact H32).
  now rewrite L.
Qed.

Lemma quote_body_plain (s : string) : plain s = true -> JSON.quote_body s = s.
Proof.
  induction s as [|c s IH]; intros H; [reflexivity|].
  cbn [plain] in H. apply andb_true_iff in H. destruct H as [Hc Hs].
  cbn [JSON.quote_body]. now rewrite (quote_char_plain c Hc), (IH Hs).
Qed.

Lemma quote_body_joined (l : list string) :
  JSON.quote_body (spec_joined Str.nl l) = spec_joined "\n" (map JSON.quote_body l).
Proof.
  induction l as [|x l IH]; [reflexivity|].
  destruct l as [|y l]; [reflexivity|].
  cbn [spec_joined map] in *. rewrite !quote_body_app, IH. reflexivity.
Qed.

Lemma map_quote_body_plain (l : list string) :
  forallb plain l = true -> map JSON.quote_body l = l.
Proof.
  induction l as [|x l IH]; intros H; [reflexivity|].
  cbn [forallb] in H. apply andb_true_iff in H. destruct H as [Hx Hl].
  cbn [map]. now rewrite (quote_body_plain x Hx), (IH Hl).
Qed.

Lemma stringify_gemini_request (prompt : string) :
  JSON.stringify (gemini_request prompt) = gemini_body (JSON.quote_body prompt).
Proof.
  unfold gemini_request, gemini_body, Str.dq.
  cbn [JSON.stringify map Str.join String.concat JSON.quote].
  unfold JSON.quote, Str.dq. cbn [JSON.quote_body JSON.quote_char].
  cbn. rewrite !append_assoc. reflexivity.
Qed.

(** C6. The secondary generator sends upstream the contents of all the
    messages, in message order, joined with one newline between them, the
    roles dropped.  The body of its one request is written out here
    character by character: around the prompt as a JSON string in
    general, and in full when the contents hold only characters a JSON
    string takes as they are (the newlines between them then read
    backslash, n).  For the messages [user "A", assistant "B"] with model
    "gemini" and no system message, the prompt sent is the default system
    prompt, then "A", then "B", newline-joined. *)
Theorem gemini_prompt_joins_contents (ms : list ChatMessage) (env : Env) (rt : Runtime) :
  let sent (body_text : string) :=
    [EvFetch GEMINI_API_ENDPOINT
       (mkRequestInit "POST"
          [("Content-Type", "application/json");
           ("X-goog-api-key", GEMINI_API_KEY env)]
          body_text)] in
  upstream_calls (log_of (generateStreamingResponseUsingGemini (messages_json ms) env) rt)
  = sent (gemini_body (JSON.quote_body (spec_joined Str.nl (map content ms))))
  /\ (forallb plain (map content ms) = true ->
      upstream_calls
        (log_of (generateStreamingResponseUsingGemini (messages_json ms) env) rt)
      = sent (gemini_body (spec_joined "\n" (map content ms))))
  /\ (forall ms', map content ms' = map content ms ->
        upstream_calls
          (log_of (generateStreamingResponseUsingGemini (messages_json ms') env) rt)
        = upstream_calls
            (log_of (generateStreamingResponseUsingGemini (messages_json ms) env) rt))
  /\ (forall meth u,
        upstream_calls
          (log_of (handleChatRequest
                     (mkRequest meth u
                        (inr (JObj [("messages",
                                     messages_json [mkChatMessage user "A";
                                                    mkChatMessage assistant "B"]);
                                    ("model", JStr "gemini")])))
                     env) rt)
        = sent (gemini_body
                  "You are a helpful, friendly assistant. Provide concise and accurate responses.\nA\nB")).
Proof.
  intros sent.
  assert (Hcalls : forall l, upstream_calls
            (log_of (generateStreamingResponseUsingGemini (messages_json l) env) rt)
          = sent (gemini_body (JSON.quote_body (spec_joined Str.nl (map content l))))).
  { intros l. unfold log_of. rewrite gemini_run_typed. cbn [fst upstream_calls].
    unfold gemini_init. now rewrite stringify_gemini_request, join_spec_joined. }
  split; [apply Hcalls|]. split; [|split].
  - intros Hplain. rewrite Hcalls, quote_body_joined.
    now rewrite (map_quote_body_plain _ Hplain).
  - intros ms' Heq. now rewrite !Hcalls, Heq.
  - intros meth u. rewrite upstream_calls_handleChatRequest. unfold log_of.
    set (two := [mkChatMessage user "A"; mkChatMessage assistant "B"]).
    set (parsed := JObj [("messages", messages_json two); ("model", JStr "gemini")]).
    rewrite (try_selects (mkRequest meth u (inr parsed)) env rt parsed
               (map ChatMessage_json two) false eq_refl
               ltac:(discriminate) eq_refl eq_refl).
    change (selected _) with Gemini. cbn [run_generator fst upstream_calls].
    exact (Hcalls [default_system_message; mkChatMessage user "A";
                   mkChatMessage assistant "B"]).
Qed.

Lemma gemini_prompt_joins_contents_witness :
  upstream_calls
    (log_of (generateStreamingResponseUsingGemini
               (messages_json [mkChatMessage user "A"; mkChatMessage assistant "B"])
               sample_env) sample_rt)
  = [EvFetch
       "https://generativelanguage.googleapis.com/v1beta/models/gemini-2.0-flash:generateContent"
       (mkRequestInit "POST"
          [("Content-Type", "application/json"); ("X-goog-api-key", "KEY")]
          ("{" ++ Str.dq ++ "contents" ++ Str.dq ++ ":[{" ++ Str.dq ++ "parts" ++ Str.dq
           ++ ":[{" ++ Str.dq ++ "text" ++ Str.dq ++ ":" ++ Str.dq ++ "A\nB" ++ Str.dq
           ++ "}]}]}"))].
Proof.
  exact (proj1 (proj2 (gemini_prompt_joins_contents
           [mkChatMessage user "A"; mkChatMessage assistant "B"] sample_env sample_rt))
           eq_refl).
Defined.

(** C7. When the response of the secondary provider has no body to read,
    the secondary generator throws its "no reader" error instead of giving
    a stream, so no chunk is ever emitted, and the chat handler's [catch]
    turns that error into the generic 500 response. *)
Theorem missing_body_becomes_generic_500
  (request : Request) (env : Env) (rt : Runtime) (parsed : json)
  (ms : list ChatMessage) (response : Response) :
  json_body request = inr parsed ->
  prop parsed "messages" = Some (messages_json ms) ->
  prop parsed "model" = Some (JStr "gemini") ->
  (forall init, global_fetch rt GEMINI_API_ENDPOINT init = inr response) ->
  body response = BodyNull ->
  (forall ms0,
     result_of (generateStreamingResponseUsingGemini (messages_json ms0) env) rt
     = inl (Error "Failed to get reader from Gemini API response"))
  /\ result_of (handleChatRequest request env) rt = inr error_response
  /\ In (EvConsoleError "Error processing chat request:"
           (Error "Failed to get reader from Gemini API response"))
        (log_of (handleChatRequest request env) rt).
Proof.
  intros Hbody Hmsgs Hmodel Hfetch Hnull.
  assert (Hgen : forall ms0,
            result_of (generateStreamingResponseUsingGemini (messages_json ms0) env) rt
            = inl (Error "Failed to get reader from Gemini API response")).
  { intros ms0. unfold result_of. rewrite gemini_run_typed. cbn [snd].
    rewrite Hfetch. unfold body_getReader. now rewrite Hnull. }
  split; [exact Hgen|].
  pose proof (typed_messages_not_null _ _ Hmsgs) as Hnn.
  assert (Hd : Js.with_default (prop parsed "messages") (JArr [])
               = JArr (map ChatMessage_json ms)) by now rewrite Hmsgs.
  pose proof (try_selects request env rt parsed _ _ Hbody Hnn Hd (some_typed ms)) as Htry.
  cbv zeta in Htry. rewrite Hmodel in Htry. change (selected _) with Gemini in Htry.
  cbn [run_generator] in Htry.
  set (sent := if existsb is_system_role ms then ms else default_system_message :: ms).
  assert (Hsent : JArr (if existsb is_system_role ms then map ChatMessage_json ms
                        else system_message :: map ChatMessage_json ms)
                  = messages_json sent)
    by (subst sent; destruct (existsb is_system_role ms); reflexivity).
  rewrite Hsent in Htry. specialize (Hgen sent). unfold result_of in Hgen.
  rewrite Hgen in Htry.
  unfold result_of, log_of. rewrite handleChatRequest_run, Htry. cbn [fst snd].
  split; [reflexivity|]. apply in_or_app. right. now left.
Qed.

Lemma missing_body_becomes_generic_500_witness :
  result_of (handleChatRequest
               (chat_request (JObj [("messages", messages_json [mkChatMessage user "Hi"]);
                                    ("model", JStr "gemini")]))
               sample_env) (runtime_with BodyNull)
  = inr error_response.
Proof.
  exact (proj1 (proj2 (missing_body_becomes_generic_500
           (chat_request (JObj [("messages", messages_json [mkChatMessage user "Hi"]);
                                ("model", JStr "gemini")]))
           sample_env (runtime_with BodyNull) _ [mkChatMessage user "Hi"]
           (mkResponse 200 [] BodyNull)
           eq_refl eq_refl eq_refl (fun _ => eq_refl) eq_refl))).
Defined.

Lemma chunks_settle (final : StreamState) (c : Stream.Controller) :
  chunks (settle final c) = chunks c.
Proof. now destruct final. Qed.

(** C3. For every finite sequence of upstream chunks followed by the
    reader's completion, the secondary generator emits one frame per
    upstream chunk, in arrival order, each being "data: " followed by the
    decoded chunk and two newlines; the text of the whole output is the
    concatenation of these frames, and the output stream is closed once
    the upstream reader has signalled completion (and not before). *)
Theorem sse_frames_follow_upstream (cs : list (list byte)) :
  let out := start (mkStream (map Bytes cs) Closed) Stream.fresh in
  chunks out = map frame_of cs
  /\ length (chunks out) = length cs
  /\ Stream.text out
     = Str.cat (map (fun b => "data: " ++ fst (TextDecoder.decode TextDecoder.new b false)
                                ++ Str.nl ++ Str.nl) cs)
  /\ state out = Closed
  /\ state (start (mkStream (map Bytes cs) Readable) Stream.fresh) = Readable
  /\ (forall ms env rt response,
        global_fetch rt GEMINI_API_ENDPOINT
          (gemini_init (GEMINI_API_KEY env) (Str.join Str.nl (map content ms)))
        = inr response ->
        body response = BodyStream (mkStream (map Bytes cs) Closed) ->
        result_of (generateStreamingResponseUsingGemini (messages_json ms) env) rt
        = inr out).
Proof.
  intros out. subst out. rewrite !start_bytes.
  unfold settle, Stream.close. cbn [chunks state].
  split; [reflexivity|]. split; [now rewrite length_map|].
  split; [unfold Stream.text; cbn [chunks]; now rewrite map_map|].
  split; [reflexivity|]. split; [reflexivity|].
  intros ms env rt response Hfetch Hbody.
  unfold result_of. rewrite gemini_run_typed. cbn [snd]. rewrite Hfetch.
  unfold body_getReader. rewrite Hbody. unfold Stream.getReader.
  now rewrite start_bytes.
Qed.

Lemma sse_frames_follow_upstream_witness :
  result_of (generateStreamingResponseUsingGemini
               (messages_json [mkChatMessage user "Hi"]) sample_env)
            (runtime_with (BodyStream (mkStream (map Bytes [[x48; x69]; [x21]]) Closed)))
  = inr (mkStream [Text ("data: Hi" ++ Str.nl ++ Str.nl);
                   Text ("data: !" ++ Str.nl ++ Str.nl)] Closed).
Proof.
  exact (proj2 (proj2 (proj2 (proj2 (proj2
           (sse_frames_follow_upstream [[x48; x69]; [x21]])))))
           [mkChatMessage user "Hi"] sample_env
           (runtime_with (BodyStream (mkStream (map Bytes [[x48; x69]; [x21]]) Closed)))
           (mkResponse 200 [] (BodyStream (mkStream (map Bytes [[x48; x69]; [x21]]) Closed)))
           eq_refl eq_refl).
Defined.

(** C10. In the secondary generator every upstream chunk is decoded by a
    decoder made for that chunk alone, so the frame emitted for chunk [i]
    is a function of the bytes of chunk [i] only, whatever the other
    chunks are; a two-byte character split over two chunks comes out as
    two replacement characters, whereas one decoder kept over both chunks
    would put it together again. *)
Theorem chunks_decoded_independently
  (cs cs' : list (list byte)) (final final' : StreamState) (i : nat) (b : list byte) :
  nth_error cs i = Some b ->
  nth_error (chunks (start (mkStream (map Bytes cs) final) Stream.fresh)) i
  = Some (Text (sse_frame (fst (TextDecoder.decode TextDecoder.new b false))))
  /\ (nth_error cs' i = Some b ->
      nth_error (chunks (start (mkStream (map Bytes cs') final') Stream.fresh)) i
      = nth_error (chunks (start (mkStream (map Bytes cs) final) Stream.fresh)) i)
  /\ chunks (start (mkStream [Bytes [xc3]; Bytes [xa9]] Closed) Stream.fresh)
     = [Text (sse_frame (Str.of_bytes [xef; xbf; xbd]));
        Text (sse_frame (Str.of_bytes [xef; xbf; xbd]))]
  /\ chunks (start (mkStream [Bytes [xc3; xa9]] Closed) Stream.fresh)
     = [Text (sse_frame (Str.of_bytes [xc3; xa9]))]
  /\ (let '(s1, d) := TextDecoder.decode TextDecoder.new [xc3] true in
      let '(s2, _) := TextDecoder.decode d [xa9] true in
      s1 ++ s2) = Str.of_bytes [xc3; xa9].
Proof.
  intros Hi.
  assert (Hframe : forall l fin, nth_error l i = Some b ->
            nth_error (chunks (start (mkStream (map Bytes l) fin) Stream.fresh)) i
            = Some (frame_of b)).
  { intros l fin Hl. rewrite start_bytes, chunks_settle. cbn [chunks].
    now apply map_nth_error. }
  split; [exact (Hframe cs final Hi)|]. split.
  - intros Hi'. now rewrite (Hframe cs' final' Hi'), (Hframe cs final Hi).
  - repeat split; vm_compute; reflexivity.
Qed.

Lemma chunks_decoded_independently_witness :
  nth_error (chunks (start (mkStream (map Bytes [[xc3]; [xa9]]) Closed) Stream.fresh)) 1
  = Some (Text (sse_frame (fst (TextDecoder.decode TextDecoder.new [xa9] false)))).
Proof.
  exact (proj1 (chunks_decoded_independently [[xc3]; [xa9]] [] Closed Closed 1 [xa9]
                  eq_refl)).
Defined.

(** * Further properties of the worker *)

(** ** What one chat request may do *)

Lemma try_cases (request : Request) (env : Env) (rt : Runtime) :
  (exists parsed items b,
     json_body request = inr parsed /\ parsed <> JNull /\
     Js.with_default (prop parsed "messages") (JArr []) = JArr items /\
     Js.Array_some is_system items = inr b)
  \/ (exists e, handleChatRequest_try request env rt = ([EvRequestJson], inl e)).
Proof.
  unfold handleChatRequest_try, request_json.
  rewrite bind_call. destruct (json_body request) as [e|parsed]; [right; eexists; reflexivity|].
  rewrite bind_lift.
  destruct (Js.get parsed "messages") as [e|m0] eqn:Hm; [right; eexists; reflexivity|].
  apply get_inr_not_null in Hm. destruct Hm as [Hnn ->].
  rewrite bind_lift, (get_prop _ _ Hnn), bind_lift.
  destruct (Js.with_default (prop parsed "messages") (JArr [])) as [| | | |items|] eqn:Hd;
    try (right; eexists; reflexivity).
  cbn [Js.some]. destruct (Js.Array_some is_system items) as [e|b] eqn:Hs;
    [right; eexists; reflexivity|].
  left. now exists parsed, items, b.
Qed.

Lemma run_generator_log (g : Generator) (messages : json) (env : Env) (rt : Runtime) :
  exists rest,
    fst (run_generator g messages env rt) = EvEnter g messages :: rest
    /\ body_reads rest = 0 /\ entered rest = []
    /\ length (upstream_calls rest) <= 1.
Proof.
  destruct g; cbn [run_generator].
  - rewrite workers_ai_run. eexists. split; [reflexivity|]. cbn. auto.
  - rewrite gemini_run. destruct (Js.map_ messages _) as [e|contents].
    + eexists. split; [reflexivity|]. cbn. auto.
    + destruct (Js.Array_join Str.nl contents).
      * eexists. split; [reflexivity|]. cbn. auto.
      * eexists. split; [reflexivity|]. cbn. auto.
Qed.

Lemma body_reads_app (t1 t2 : list Event) :
  body_reads (t1 ++ t2) = body_reads t1 + body_reads t2.
Proof.
  induction t1 as [|ev t1 IH]; [reflexivity|].
  destruct ev; cbn [app body_reads]; rewrite IH; reflexivity.
Qed.

(** X1. Whatever the request, the chat handler reads the body exactly
    once, enters at most one generator and makes at most one call to a
    model provider. *)
Theorem chat_request_effects_bounded (request : Request) (env : Env) (rt : Runtime) :
  let t := log_of (handleChatRequest request env) rt in
  body_reads t = 1
  /\ length (entered t) <= 1
  /\ length (upstream_calls t) <= 1.
Proof.
  intros t. subst t. unfold log_of. rewrite handleChatRequest_run.
  assert (Htry : body_reads (fst (handleChatRequest_try request env rt)) = 1
                 /\ length (entered (fst (handleChatRequest_try request env rt))) <= 1
                 /\ length (upstream_calls (fst (handleChatRequest_try request env rt))) <= 1).
  { destruct (try_cases request env rt)
      as [(parsed & items & b & Hbody & Hnn & Hmsgs & Hsome) | [e He]].
    - rewrite (try_selects request env rt parsed items b Hbody Hnn Hmsgs Hsome).
      cbn [fst].
      destruct (run_generator_log (selected (prop parsed "model"))
                  (JArr (if b then items else system_message :: items)) env rt)
        as (rest & -> & Hr & He & Hu).
      cbn [body_reads entered upstream_calls length]. rewrite Hr, He. cbn [length].
      repeat split; auto.
    - rewrite He. cbn. auto. }
  destruct Htry as (Hr & He & Hu).
  destruct (snd (handleChatRequest_try request env rt)); cbn [fst]; [|auto].
  rewrite body_reads_app, entered_app, upstream_calls_app. cbn.
  rewrite !app_nil_r, Nat.add_0_r. auto.
Qed.

(** ** The primary path *)

(** X2. On the primary path the stream [ai.run] gives is the body of the
    response as it is, and [ai.run] is called once, with the fixed model,
    the dispatched messages and [stream: true]. *)
Theorem primary_stream_passed_through
  (request : Request) (env : Env) (rt : Runtime) (parsed : json)
  (items : list json) (b : bool) (stream : ReadableStream) :
  json_body request = inr parsed ->
  parsed <> JNull ->
  Js.with_default (prop parsed "messages") (JArr []) = JArr items ->
  Js.Array_some is_system items = inr b ->
  prop parsed "model" <> Some (JStr "gemini") ->
  let messages := JArr (if b then items else system_message :: items) in
  AI env WORKERS_AI_MODEL (mkAiInput messages true) = inr stream ->
  handleChatRequest request env rt
  = ([EvRequestJson; EvEnter WorkersAi messages;
      EvAiRun WORKERS_AI_MODEL (mkAiInput messages true)],
     inr (mkResponse 200 event_stream_headers (BodyStream stream))).
Proof.
  intros Hbody Hnn Hmsgs Hsome Hmodel messages Hai.
  rewrite handleChatRequest_run.
  rewrite (try_selects request env rt parsed items b Hbody Hnn Hmsgs Hsome).
  rewrite (selected_cases _ Hmodel). cbn [run_generator].
  rewrite workers_ai_run. cbn [fst snd binding]. fold messages. now rewrite Hai.
Qed.

Lemma primary_stream_passed_through_witness :
  handleChatRequest
    (chat_request (JObj [("messages", messages_json [mkChatMessage system "Be brief"])]))
    sample_env sample_rt
  = ([EvRequestJson;
      EvEnter WorkersAi (messages_json [mkChatMessage system "Be brief"]);
      EvAiRun WORKERS_AI_MODEL
        (mkAiInput (messages_json [mkChatMessage system "Be brief"]) true)],
     inr (mkResponse 200 event_stream_headers (BodyStream sample_stream))).
Proof.
  refine (primary_stream_passed_through
            (chat_request (JObj [("messages",
               messages_json [mkChatMessage system "Be brief"])]))
            sample_env sample_rt _ _ true sample_stream
            eq_refl _ eq_refl eq_refl _ eq_refl); discriminate.
Defined.

(** ** The secondary path, whatever the provider answers *)

Lemma gemini_handler_run
  (request : Request) (env : Env) (rt : Runtime) (parsed : json)
  (ms : list ChatMessage) (upstream : Response)
  (cs : list (list byte)) (final : StreamState) :
  json_body request = inr parsed ->
  prop parsed "messages" = Some (messages_json ms) ->
  prop parsed "model" = Some (JStr "gemini") ->
  (forall init, global_fetch rt GEMINI_API_ENDPOINT init = inr upstream) ->
  body upstream = BodyStream (mkStream (map Bytes cs) final) ->
  result_of (handleChatRequest request env) rt
  = inr (mkResponse 200 event_stream_headers
           (BodyStream (settle final (mkStream (map frame_of cs) Readable)))).
Proof.
  intros Hbody Hmsgs Hmodel Hfetch Hup.
  pose proof (typed_messages_not_null _ _ Hmsgs) as Hnn.
  assert (Hd : Js.with_default (prop parsed "messages") (JArr [])
               = JArr (map ChatMessage_json ms)) by now rewrite Hmsgs.
  pose proof (try_selects request env rt parsed _ _ Hbody Hnn Hd (some_typed ms)) as Htry.
  cbv zeta in Htry. rewrite Hmodel in Htry. change (selected _) with Gemini in Htry.
  cbn [run_generator] in Htry.
  set (sent := if existsb is_system_role ms then ms else default_system_message :: ms).
  assert (Hsent : JArr (if existsb is_system_role ms then map ChatMessage_json ms
                        else system_message :: map ChatMessage_json ms)
                  = messages_json sent)
    by (subst sent; destruct (existsb is_system_role ms); reflexivity).
  rewrite Hsent, gemini_run_typed in Htry. cbv zeta in Htry. cbn [fst snd] in Htry.
  rewrite Hfetch in Htry. unfold body_getReader in Htry. rewrite Hup in Htry.
  unfold Stream.getReader in Htry. rewrite start_bytes in Htry.
  unfold result_of. rewrite handleChatRequest_run, Htry. reflexivity.
Qed.

(** X3. The secondary generator never looks at the status or the headers
    of the provider's response: whatever they are, a response with a body
    is relayed as frames under status 200. *)
Theorem upstream_status_not_checked
  (request : Request) (env : Env) (rt : Runtime) (parsed : json)
  (ms : list ChatMessage) (upstream_status : Z) (upstream_headers : Headers)
  (cs : list (list byte)) :
  json_body request = inr parsed ->
  prop parsed "messages" = Some (messages_json ms) ->
  prop parsed "model" = Some (JStr "gemini") ->
  (forall init,
     global_fetch rt GEMINI_API_ENDPOINT init
     = inr (mkResponse upstream_status upstream_headers
              (BodyStream (mkStream (map Bytes cs) Closed)))) ->
  result_of (handleChatRequest request env) rt
  = inr (mkResponse 200 event_stream_headers
           (BodyStream (mkStream (map frame_of cs) Closed))).
Proof.
  intros Hbody Hmsgs Hmodel Hfetch.
  exact (gemini_handler_run request env rt parsed ms _ cs Closed
           Hbody Hmsgs Hmodel Hfetch eq_refl).
Qed.

Lemma upstream_status_not_checked_witness :
  result_of
    (handleChatRequest
       (chat_request (JObj [("messages", messages_json [mkChatMessage user "Hi"]);
                            ("model", JStr "gemini")]))
       sample_env)
    (mkRuntime (fun _ _ =>
       inr (mkResponse 401 [("content-type", "application/json")]
              (BodyStream (mkStream (map Bytes [[x7b; x7d]]) Closed)))))
  = inr (mkResponse 200 event_stream_headers
           (BodyStream (mkStream [Text ("data: {}" ++ Str.nl ++ Str.nl)] Closed))).
Proof.
  exact (upstream_status_not_checked
           (chat_request (JObj [("messages", messages_json [mkChatMessage user "Hi"]);
                                ("model", JStr "gemini")]))
           sample_env
           (mkRuntime (fun _ _ =>
              inr (mkResponse 401 [("content-type", "application/json")]
                     (BodyStream (mkStream (map Bytes [[x7b; x7d]]) Closed)))))
           _ [mkChatMessage user "Hi"] 401
           [("content-type", "application/json")] [[x7b; x7d]]
           eq_refl eq_refl eq_refl (fun _ => eq_refl)).
Defined.

(** X4. When the provider's body fails after some chunks, the handler has
    still answered with status 200 and the event-stream headers, and the
    output stream ends errored with the reader's exception instead of
    closed.  The failure drops the frames not yet read: a consumer that
    had taken [taken] frames by then has the frames of the first [taken]
    upstream chunks and then gets the error; one that had read nothing
    gets the error alone. *)
Theorem failure_after_start_is_not_a_500
  (request : Request) (env : Env) (rt : Runtime) (parsed : json)
  (ms : list ChatMessage) (upstream : Response)
  (cs : list (list byte)) (e : exn) :
  json_body request = inr parsed ->
  prop parsed "messages" = Some (messages_json ms) ->
  prop parsed "model" = Some (JStr "gemini") ->
  (forall init, global_fetch rt GEMINI_API_ENDPOINT init = inr upstream) ->
  body upstream = BodyStream (mkStream (map Bytes cs) (Errored e)) ->
  exists out,
    result_of (handleChatRequest request env) rt
    = inr (mkResponse 200 event_stream_headers (BodyStream out))
    /\ state out = Errored e
    /\ (forall taken,
          Stream.received out taken = (firstn taken (map frame_of cs), Errored e))
    /\ Stream.received out 0 = ([], Errored e).
Proof.
  intros Hbody Hmsgs Hmodel Hfetch Hup.
  eexists. split.
  - exact (gemini_handler_run request env rt parsed ms upstream cs (Errored e)
             Hbody Hmsgs Hmodel Hfetch Hup).
  - split; [reflexivity|]. split; [intros taken|]; reflexivity.
Qed.

Lemma failure_after_start_is_not_a_500_witness :
  exists out,
    result_of
      (handleChatRequest
         (chat_request (JObj [("messages", messages_json [mkChatMessage user "Hi"]);
                              ("model", JStr "gemini")]))
         sample_env)
      (runtime_with (BodyStream (mkStream (map Bytes [[x48; x69]; [x21]])
                                   (Errored (Rejection "connection reset")))))
    = inr (mkResponse 200 event_stream_headers (BodyStream out))
    /\ Stream.received out 1
       = ([Text ("data: Hi" ++ Str.nl ++ Str.nl)], Errored (Rejection "connection reset")).
Proof.
  destruct (failure_after_start_is_not_a_500
              (chat_request (JObj [("messages", messages_json [mkChatMessage user "Hi"]);
                                   ("model", JStr "gemini")]))
              sample_env
              (runtime_with (BodyStream (mkStream (map Bytes [[x48; x69]; [x21]])
                                           (Errored (Rejection "connection reset")))))
              (JObj [("messages", messages_json [mkChatMessage user "Hi"]);
                     ("model", JStr "gemini")])
              [mkChatMessage user "Hi"]
              (mkResponse 200 []
                 (BodyStream (mkStream (map Bytes [[x48; x69]; [x21]])
                                (Errored (Rejection "connection reset")))))
              [[x48; x69]; [x21]]
              (Rejection "connection reset")
              eq_refl eq_refl eq_refl (fun _ => eq_refl) eq_refl)
    as [out [H1 [_ [H2 _]]]].
  exists out. split; [exact H1|exact (H2 1%nat)].
Defined.

(** ** What of the body matters *)

Lemma try_by_props (request : Request) (env : Env) (rt : Runtime) (parsed : json) :
  json_body request = inr parsed ->
  parsed <> JNull ->
  handleChatRequest_try request env rt
  = (EvRequestJson
       :: fst (handle_fields (prop parsed "messages") (prop parsed "model") env rt),
     snd (handle_fields (prop parsed "messages") (prop parsed "model") env rt)).
Proof.
  intros Hbody Hnn. unfold handleChatRequest_try, request_json.
  rewrite bind_call, Hbody, bind_lift, (get_prop _ _ Hnn), bind_lift, (get_prop _ _ Hnn).
  reflexivity.
Qed.

(** X5. Of a parsed body the chat handler uses the [messages] and
    [model] fields and nothing else: two bodies that agree on these two
    give the same calls and the same response, whatever other fields
    (temperature, topK, topP) they carry. *)
Theorem only_messages_and_model_matter
  (r1 r2 : Request) (env : Env) (rt : Runtime) (p1 p2 : json) :
  json_body r1 = inr p1 ->
  json_body r2 = inr p2 ->
  p1 <> JNull ->
  p2 <> JNull ->
  prop p1 "messages" = prop p2 "messages" ->
  prop p1 "model" = prop p2 "model" ->
  handleChatRequest r1 env rt = handleChatRequest r2 env rt.
Proof.
  intros H1 H2 N1 N2 Hm Hmodel.
  rewrite !handleChatRequest_run.
  rewrite (try_by_props r1 env rt p1 H1 N1), (try_by_props r2 env rt p2 H2 N2).
  now rewrite Hm, Hmodel.
Qed.

Lemma only_messages_and_model_matter_witness :
  handleChatRequest
    (chat_request (JObj [("model", JStr "gemini");
                         ("messages", messages_json [mkChatMessage user "Hi"]);
                         ("temperature", JNum "0.2")]))
    sample_env sample_rt
  = handleChatRequest
      (chat_request (JObj [("messages", messages_json [mkChatMessage user "Hi"]);
                           ("topK", JNum "40");
                           ("model", JStr "gemini")]))
      sample_env sample_rt.
Proof.
  refine (only_messages_and_model_matter
            (chat_request (JObj [("model", JStr "gemini");
                                 ("messages", messages_json [mkChatMessage user "Hi"]);
                                 ("temperature", JNum "0.2")]))
            (chat_request (JObj [("messages", messages_json [mkChatMessage user "Hi"]);
                                 ("topK", JNum "40");
                                 ("model", JStr "gemini")]))
            sample_env sample_rt _ _ eq_refl eq_refl _ _ eq_refl eq_refl); discriminate.
Defined.

(** ** Strings and the decoder *)

Lemma cat_cons (x : string) (xs : list string) : Str.cat (x :: xs) = x ++ Str.cat xs.
Proof.
  unfold Str.cat. destruct xs as [|y ys]; cbn [String.concat].
  - now rewrite append_nil_r.
  - reflexivity.
Qed.

Lemma cat_app (xs ys : list string) : Str.cat (xs ++ ys) = Str.cat xs ++ Str.cat ys.
Proof.
  induction xs as [|x xs IH]; [reflexivity|].
  cbn [app]. now rewrite !cat_cons, IH, append_assoc.
Qed.

Lemma text_of_app (o1 o2 : list N) :
  TextDecoder.text_of (o1 ++ o2) = TextDecoder.text_of o1 ++ TextDecoder.text_of o2.
Proof. unfold TextDecoder.text_of. now rewrite map_app, cat_app. Qed.

Lemma join_cons (sep x : string) (xs : list string) :
  xs <> [] -> Str.join sep (x :: xs) = x ++ sep ++ Str.join sep xs.
Proof. destruct xs; [congruence|reflexivity]. Qed.

Lemma lead_ascii (d : TextDecoder.t) (b : N) :
  (b < 128)%N -> TextDecoder.lead d b = (TextDecoder.reset d, [b]).
Proof.
  intros H. unfold TextDecoder.lead.
  assert (E : (b <=? 127)%N = true) by (apply N.leb_le; lia).
  now rewrite E.
Qed.

Lemma run_ascii (bs : list byte) (d : TextDecoder.t) :
  TextDecoder.bytes_needed d = 0%N ->
  Forall (fun b => (Byte.to_N b < 128)%N) bs ->
  snd (TextDecoder.run d bs) = map Byte.to_N bs
  /\ TextDecoder.bytes_needed (fst (TextDecoder.run d bs)) = 0%N
  /\ TextDecoder.bom_seen (fst (TextDecoder.run d bs)) = TextDecoder.bom_seen d.
Proof.
  revert d. induction bs as [|b bs IH]; intros d Hd Hall; [now cbn|].
  inversion Hall as [|? ? Hb Hbs]; subst.
  cbn [TextDecoder.run]. unfold TextDecoder.handler. rewrite Hd. cbn [N.eqb].
  rewrite (lead_ascii d _ Hb).
  destruct (IH (TextDecoder.reset d) eq_refl Hbs) as (Ho & Hn & Hf).
  destruct (TextDecoder.run (TextDecoder.reset d) bs) as [d2 out2].
  cbn [fst snd] in *. cbn [map app]. now rewrite Ho.
Qed.

Lemma text_of_ascii (bs : list byte) :
  Forall (fun b => (Byte.to_N b < 128)%N) bs ->
  TextDecoder.text_of (map Byte.to_N bs) = Str.of_bytes bs.
Proof.
  induction 1 as [|b bs Hb Hbs IH]; [reflexivity|].
  unfold TextDecoder.text_of in *. cbn [map]. rewrite cat_cons.
  unfold TextDecoder.text_of in IH. rewrite IH.
  unfold TextDecoder.encode_code_point.
  assert (E : (Byte.to_N b <? 128)%N = true) by now apply N.ltb_lt.
  rewrite E. unfold Str.of_bytes, string_of_list_byte.
  cbn [map string_of_list_ascii append].
  now rewrite ascii_of_byte_via_N.
Qed.

Lemma decode_ascii (bs : list byte) :
  Forall (fun b => (Byte.to_N b < 128)%N) bs ->
  fst (TextDecoder.decode TextDecoder.new bs false) = Str.of_bytes bs.
Proof.
  intros Hall. unfold TextDecoder.decode. cbn [TextDecoder.do_not_flush TextDecoder.new
    TextDecoder.code_point TextDecoder.bytes_seen TextDecoder.bytes_needed
    TextDecoder.lower TextDecoder.upper TextDecoder.bom_seen].
  destruct (run_ascii bs (TextDecoder.mk 0 0 0 128 191 false false) eq_refl Hall)
    as (Ho & Hn & Hf).
  destruct (TextDecoder.run _ bs) as [d2 out2]. cbn [fst snd] in *.
  unfold TextDecoder.finish. rewrite Hn. cbn [N.eqb]. rewrite app_nil_r.
  unfold TextDecoder.strip_bom. rewrite Hf.
  subst out2. destruct bs as [|b bs]; [reflexivity|].
  cbn [map]. inversion Hall as [|? ? Hb Hbs]; subst.
  assert (E : (Byte.to_N b =? 65279)%N = false) by (apply N.eqb_neq; lia).
  rewrite E. cbn [fst]. exact (text_of_ascii (b :: bs) Hall).
Qed.

(** Chunks of ASCII bytes are framed as they are. *)
Lemma start_ascii (cs : list (list byte)) :
  Forall (Forall (fun b => (Byte.to_N b < 128)%N)) cs ->
  start (mkStream (map Bytes cs) Closed) Stream.fresh
  = mkStream (map (fun bs => Text ("data: " ++ Str.of_bytes bs ++ Str.nl ++ Str.nl)) cs)
             Closed.
Proof.
  intros Hall. rewrite start_bytes. unfold settle, Stream.close. cbn [chunks].
  f_equal. apply map_ext_in. intros bs Hin.
  unfold frame_of, sse_frame. rewrite decode_ascii; [reflexivity|].
  rewrite Forall_forall in Hall. now apply Hall.
Qed.

(** ** What the flattened prompt loses *)

Lemma join_snoc2 (sep a b : string) (l : list string) :
  Str.join sep (l ++ [a; b]) = Str.join sep (l ++ [a ++ sep ++ b]).
Proof.
  induction l as [|x l IH]; [reflexivity|].
  cbn [app]. rewrite !join_cons, IH; [reflexivity| |]; now destruct l.
Qed.

(** X6. The prompt sent to the secondary provider does not keep message
    boundaries: two consecutive messages and one message holding their
    contents with a newline between give the same upstream request,
    whatever the roles. *)
Theorem gemini_prompt_loses_message_boundaries
  (ms : list ChatMessage) (r1 r2 r3 : ChatRole) (a b : string) (env : Env) (rt : Runtime) :
  upstream_calls
    (log_of (generateStreamingResponseUsingGemini
               (messages_json (ms ++ [mkChatMessage r1 a; mkChatMessage r2 b])) env) rt)
  = upstream_calls
      (log_of (generateStreamingResponseUsingGemini
                 (messages_json (ms ++ [mkChatMessage r3 (a ++ Str.nl ++ b)])) env) rt).
Proof.
  unfold log_of. rewrite !gemini_run_typed. cbn [fst upstream_calls].
  rewrite !map_app. cbn [map content]. now rewrite join_snoc2.
Qed.

(** ** What the framing loses *)

Lemma of_bytes_app (xs ys : list byte) :
  Str.of_bytes (xs ++ ys) = Str.of_bytes xs ++ Str.of_bytes ys.
Proof.
  unfold Str.of_bytes, string_of_list_byte.
  induction xs as [|x xs IH]; [reflexivity|].
  cbn [app map string_of_list_ascii append]. now rewrite IH.
Qed.

(** X7. The frames are not escaped, so the output does not keep chunk
    boundaries: for ASCII chunks [a] and [b], relaying the two chunks
    gives the same text as relaying the single chunk made of [a], a blank
    line, "data: " and [b]. *)
Theorem sse_output_loses_chunk_boundaries (a b : list byte) :
  Forall (fun x => (Byte.to_N x < 128)%N) a ->
  Forall (fun x => (Byte.to_N x < 128)%N) b ->
  Stream.text (start (mkStream (map Bytes [a; b]) Closed) Stream.fresh)
  = Stream.text
      (start (mkStream
                (map Bytes [a ++ Str.to_bytes (Str.nl ++ Str.nl ++ "data: ") ++ b])%list
                Closed)
         Stream.fresh).
Proof.
  intros Ha Hb.
  assert (Hsep : Forall (fun x => (Byte.to_N x < 128)%N)
                   (Str.to_bytes (Str.nl ++ Str.nl ++ "data: ")))
    by (repeat constructor).
  rewrite (start_ascii [a; b]) by (repeat constructor; assumption).
  rewrite (start_ascii [(a ++ Str.to_bytes (Str.nl ++ Str.nl ++ "data: ") ++ b)%list]).
  - unfold Stream.text. cbn [chunks map Stream.chunk_text]. rewrite !cat_cons.
    rewrite !of_bytes_app. unfold Str.cat. cbn [String.concat].
    rewrite !append_nil_r.
    change (Str.of_bytes (Str.to_bytes (Str.nl ++ Str.nl ++ "data: ")))
      with (Str.nl ++ Str.nl ++ "data: ").
    now rewrite !append_assoc.
  - constructor; [|constructor]. apply Forall_app. split; [exact Ha|].
    apply Forall_app. split; [exact Hsep|exact Hb].
Qed.

Lemma sse_output_loses_chunk_boundaries_witness :
  Stream.text (start (mkStream (map Bytes [[x48; x69]; [x21]]) Closed) Stream.fresh)
  = Stream.text
      (start (mkStream
                (map Bytes [[x48; x69] ++ Str.to_bytes (Str.nl ++ Str.nl ++ "data: ")
                            ++ [x21]])%list
                Closed)
         Stream.fresh).
Proof.
  refine (sse_output_loses_chunk_boundaries [x48; x69] [x21] _ _); repeat constructor.
Defined.

(** * The browser client *)

(** ** The read loop *)

Lemma addMessageToChat_children (b : Browser) (app : ChatApp) (r c : string) :
  addMessageToChat b app r c
  = with_children b app (children (chatMessages app) ++ [message_el r c])%list.
Proof. reflexivity. Qed.

Lemma set_p_at_end (els : list MessageEl) (el : MessageEl) (text : string) :
  set_p_textContent (els ++ [el]) (List.length els) text
  = (els ++ [mkMessageEl (className el) (innerHTML el) (Some text)])%list.
Proof.
  induction els as [|x els IH]; [reflexivity|].
  cbn [app List.length set_p_textContent]. now rewrite IH.
Qed.

Lemma read_loop_step (b : Browser) (app0 : ChatApp) (els0 : list MessageEl)
  (o : option string) (text : string) :
  scroll_to_bottom b
    (set_chatMessages (with_children b app0 (els0 ++ [assistant_el o]))
       (mkChatMessagesEl
          (set_p_textContent
             (children (chatMessages (with_children b app0 (els0 ++ [assistant_el o]))))
             (List.length els0) text)
          (scrollTop (chatMessages (with_children b app0 (els0 ++ [assistant_el o]))))))
  = with_children b app0 (els0 ++ [assistant_el (Some text)]).
Proof.
  unfold with_children at 2 3. cbn [set_chatMessages chatMessages children].
  rewrite set_p_at_end. reflexivity.
Qed.

(** However the stream goes, the loop only rewrites the text of the reply
    element. *)
Lemma read_loop_shape (b : Browser) (app0 : ChatApp) (els0 : list MessageEl)
  (pending : list chunk) (final : StreamState) :
  forall (d : TextDecoder.t) (text : string) (o : option string),
  exists o',
    (exists text',
       read_loop b pending final d text (List.length els0)
         (with_children b app0 (els0 ++ [assistant_el o]))
       = TryDone text' (with_children b app0 (els0 ++ [assistant_el o'])))
    \/ (exists e,
       read_loop b pending final d text (List.length els0)
         (with_children b app0 (els0 ++ [assistant_el o]))
       = TryThrew e (with_children b app0 (els0 ++ [assistant_el o'])))
    \/ read_loop b pending final d text (List.length els0)
         (with_children b app0 (els0 ++ [assistant_el o]))
       = TryPending (with_children b app0 (els0 ++ [assistant_el o'])).
Proof.
  induction pending as [|c pending IH]; intros d text o.
  - exists o. cbn [read_loop]. destruct final; eauto.
  - destruct c as [bs|s].
    + cbn [read_loop]. destruct (TextDecoder.decode d bs true) as [chunk d'].
      rewrite read_loop_step. apply IH.
    + exists o. cbn [read_loop]. eauto.
Qed.

Lemma read_loop_bytes (b : Browser) (app0 : ChatApp) (els0 : list MessageEl)
  (cs : list (list byte)) (final : StreamState) :
  forall (d : TextDecoder.t) (text : string) (o : option string),
  read_loop b (map Bytes cs) final d text (List.length els0)
    (with_children b app0 (els0 ++ [assistant_el o]))
  = end_of final (text ++ decode_all d cs)
      (with_children b app0
         (els0 ++ [assistant_el (match cs with
                                 | [] => o
                                 | _ => Some (text ++ decode_all d cs)
                                 end)])).
Proof.
  induction cs as [|bs cs IH]; intros d text o.
  - cbn [map read_loop decode_all]. rewrite append_nil_r. now destruct final.
  - cbn [map read_loop decode_all].
    destruct (TextDecoder.decode d bs true) as [chunk d'].
    rewrite read_loop_step, IH, append_assoc.
    destruct cs; [|reflexivity].
    cbn [decode_all]. now rewrite !append_nil_r.
Qed.

(** ** One decoder over all the chunks *)

Lemma handler_flags (d : TextDecoder.t) (f1 f2 : bool) (x : N) :
  TextDecoder.handler (with_flags d f1 f2) x
  = (with_flags (fst (TextDecoder.handler d x)) f1 f2, snd (TextDecoder.handler d x)).
Proof.
  unfold TextDecoder.handler, TextDecoder.lead, TextDecoder.reset, with_flags.
  cbn [TextDecoder.code_point TextDecoder.bytes_seen TextDecoder.bytes_needed
       TextDecoder.lower TextDecoder.upper TextDecoder.bom_seen TextDecoder.do_not_flush].
  repeat match goal with
         | |- context [if ?c then _ else _] => destruct c
         end; reflexivity.
Qed.

Lemma run_flags (bs : list byte) (d : TextDecoder.t) (f1 f2 : bool) :
  TextDecoder.run (with_flags d f1 f2) bs
  = (with_flags (fst (TextDecoder.run d bs)) f1 f2, snd (TextDecoder.run d bs)).
Proof.
  revert d. induction bs as [|x bs IH]; intros d; [reflexivity|].
  cbn [TextDecoder.run]. rewrite handler_flags.
  destruct (TextDecoder.handler d (Byte.to_N x)) as [d1 out1]. cbn [fst snd].
  rewrite IH. destruct (TextDecoder.run d1 bs) as [d2 out2]. reflexivity.
Qed.

Lemma run_app (xs ys : list byte) (d : TextDecoder.t) :
  TextDecoder.run d (xs ++ ys)
  = (fst (TextDecoder.run (fst (TextDecoder.run d xs)) ys),
     (snd (TextDecoder.run d xs) ++ snd (TextDecoder.run (fst (TextDecoder.run d xs)) ys))%list).
Proof.
  revert d. induction xs as [|x xs IH]; intros d.
  - cbn [app TextDecoder.run fst snd]. now destruct (TextDecoder.run d ys).
  - cbn [app TextDecoder.run].
    destruct (TextDecoder.handler d (Byte.to_N x)) as [d1 out1].
    rewrite IH. destruct (TextDecoder.run d1 xs) as [d2 out2]. cbn [fst snd].
    destruct (TextDecoder.run d2 ys) as [d3 out3]. cbn [fst snd].
    now rewrite app_assoc.
Qed.

Lemma with_flags_self (d : TextDecoder.t) :
  with_flags d (TextDecoder.bom_seen d) (TextDecoder.do_not_flush d) = d.
Proof. now destruct d. Qed.

Lemma run_keeps_flags (bs : list byte) (d : TextDecoder.t) :
  TextDecoder.bom_seen (fst (TextDecoder.run d bs)) = TextDecoder.bom_seen d
  /\ TextDecoder.do_not_flush (fst (TextDecoder.run d bs)) = TextDecoder.do_not_flush d.
Proof.
  rewrite <- (with_flags_self d) at 1 3. rewrite run_flags. now cbn.
Qed.

Lemma strip_bom_dnf (d : TextDecoder.t) (out : list N) :
  TextDecoder.do_not_flush (fst (TextDecoder.strip_bom d out)) = TextDecoder.do_not_flush d.
Proof.
  unfold TextDecoder.strip_bom. destruct (TextDecoder.bom_seen d); [reflexivity|].
  now destruct out.
Qed.

Lemma sdecode_dnf (d : TextDecoder.t) (bs : list byte) :
  TextDecoder.do_not_flush (fst (sdecode d bs)) = TextDecoder.do_not_flush d.
Proof.
  unfold sdecode. pose proof (run_keeps_flags bs d) as [_ H].
  destruct (TextDecoder.run d bs) as [d2 out2]. cbn [fst] in H.
  now rewrite strip_bom_dnf.
Qed.

Lemma decode_stream (d : TextDecoder.t) (bs : list byte) :
  TextDecoder.do_not_flush d = true ->
  TextDecoder.decode d bs true
  = (TextDecoder.text_of (snd (sdecode d bs)), fst (sdecode d bs)).
Proof.
  intros H. destruct d as [cp seen needed lo up bom dnf]. cbn in H. subst dnf.
  unfold TextDecoder.decode, sdecode.
  cbn [TextDecoder.do_not_flush TextDecoder.code_point TextDecoder.bytes_seen
       TextDecoder.bytes_needed TextDecoder.lower TextDecoder.upper TextDecoder.bom_seen].
  destruct (TextDecoder.run _ bs) as [d2 out2]. rewrite app_nil_r.
  now destruct (TextDecoder.strip_bom d2 out2).
Qed.

Lemma sdecode_app (xs ys : list byte) (d : TextDecoder.t) :
  sdecode d (xs ++ ys)
  = (fst (sdecode (fst (sdecode d xs)) ys),
     (snd (sdecode d xs) ++ snd (sdecode (fst (sdecode d xs)) ys))%list).
Proof.
  unfold sdecode. rewrite run_app.
  destruct (TextDecoder.run d xs) as [d2 o1]. cbn [fst snd].
  pose proof (run_keeps_flags ys d2) as [Hb3 Hf3].
  destruct (TextDecoder.bom_seen d2) eqn:Hbom.
  - assert (E : TextDecoder.strip_bom d2 o1 = (d2, o1))
      by (unfold TextDecoder.strip_bom; now rewrite Hbom).
    rewrite E. cbn [fst snd].
    destruct (TextDecoder.run d2 ys) as [d3 o2]. cbn [fst snd] in *.
    unfold TextDecoder.strip_bom. now rewrite Hb3.
  - destruct o1 as [|c r].
    + assert (E : TextDecoder.strip_bom d2 [] = (d2, []))
        by (unfold TextDecoder.strip_bom; now rewrite Hbom).
      rewrite E. cbn [fst snd app].
      destruct (TextDecoder.run d2 ys) as [d3 o2]. cbn [fst snd].
      now destruct (TextDecoder.strip_bom d3 o2).
    + assert (E : TextDecoder.strip_bom d2 (c :: r)
                  = (with_flags d2 true (TextDecoder.do_not_flush d2),
                     if N.eqb c 65279 then r else c :: r))
        by (unfold TextDecoder.strip_bom; now rewrite Hbom).
      rewrite E. cbn [fst snd]. rewrite run_flags.
      destruct (TextDecoder.run d2 ys) as [d3 o2]. cbn [fst snd] in *.
      unfold TextDecoder.strip_bom.
      cbn [with_flags TextDecoder.bom_seen fst snd]. rewrite Hb3, Hf3.
      unfold with_flags. cbn [app]. destruct (N.eqb c 65279); reflexivity.
Qed.

Lemma decode_all_streaming (cs : list (list byte)) (d : TextDecoder.t) :
  TextDecoder.do_not_flush d = true ->
  decode_all d cs = fst (TextDecoder.decode d (concat cs) true).
Proof.
  revert d. induction cs as [|bs cs IH]; intros d Hd.
  - cbn [decode_all concat]. rewrite (decode_stream d [] Hd). cbn [fst].
    unfold sdecode. cbn [TextDecoder.run]. unfold TextDecoder.strip_bom.
    now destruct (TextDecoder.bom_seen d).
  - cbn [decode_all concat]. rewrite (decode_stream d bs Hd).
    rewrite (decode_stream d (bs ++ concat cs) Hd). cbn [fst].
    rewrite sdecode_app. cbn [snd]. rewrite text_of_app.
    rewrite (IH (fst (sdecode d bs))) by now rewrite sdecode_dnf.
    rewrite (decode_stream (fst (sdecode d bs)) (concat cs))
      by now rewrite sdecode_dnf.
    reflexivity.
Qed.

Lemma decode_new_streaming (bs : list byte) :
  TextDecoder.decode TextDecoder.new bs true
  = TextDecoder.decode (with_flags TextDecoder.new false true) bs true.
Proof. reflexivity. Qed.

Lemma decode_all_new (cs : list (list byte)) :
  decode_all TextDecoder.new cs = fst (TextDecoder.decode TextDecoder.new (concat cs) true).
Proof.
  rewrite decode_new_streaming.
  rewrite <- (decode_all_streaming cs (with_flags TextDecoder.new false true) eq_refl).
  destruct cs as [|bs cs]; [reflexivity|].
  cbn [decode_all]. now rewrite decode_new_streaming.
Qed.

(** ** The [try] block of [sendMessage] *)

Lemma sendMessage_try_log (b : Browser) (app : ChatApp) :
  fst (sendMessage_try b app) = [EvFetch "/api/chat" (chat_fetch_init b app)].
Proof. reflexivity. Qed.

Lemma sendMessage_try_shape (b : Browser) (app : ChatApp) :
  let els := children (chatMessages app) in
  exists o,
    (exists text,
       snd (sendMessage_try b app)
       = TryDone text
           (set_chatHistory (with_children b app (els ++ [assistant_el o]))
              (chatHistory app ++ [mkChatMessage assistant text])))
    \/ (exists e,
       snd (sendMessage_try b app)
       = TryThrew e (with_children b app (els ++ [assistant_el o])))
    \/ snd (sendMessage_try b app)
       = TryPending (with_children b app (els ++ [assistant_el o])).
Proof.
  intros els. subst els. unfold sendMessage_try. cbn [snd].
  change (scroll_to_bottom b
            (appendChild app (mkMessageEl "message assistant-message" "<p></p>" None)))
    with (with_children b app (children (chatMessages app) ++ [assistant_el None])).
  destruct (window_fetch b "/api/chat" _) as [e|response];
    [exists None; right; left; eauto|].
  destruct (Response_ok response); cbn [negb]; [|exists None; right; left; eauto].
  destruct (body_getReader response) as [reader|]; [|exists None; right; left; eauto].
  destruct (read_loop_shape b app (children (chatMessages app))
              (chunks reader) (state reader)
              TextDecoder.new "" None) as [o' [[text' H]|[[e H]|H]]];
    exists o'; rewrite H; eauto.
Qed.

Lemma sendMessage_try_failed (b : Browser) (app : ChatApp) :
  let els := children (chatMessages app) in
  (exists e, window_fetch b "/api/chat" (chat_fetch_init b app) = inl e)
  \/ (exists response,
        window_fetch b "/api/chat" (chat_fetch_init b app) = inr response
        /\ (Response_ok response = false \/ body response = BodyNull)) ->
  exists e,
    snd (sendMessage_try b app)
    = TryThrew e (with_children b app (els ++ [assistant_el None])).
Proof.
  intros els H. subst els. unfold sendMessage_try. cbn [snd].
  change (scroll_to_bottom b
            (appendChild app (mkMessageEl "message assistant-message" "<p></p>" None)))
    with (with_children b app (children (chatMessages app) ++ [assistant_el None])).
  change (chat_fetch_init b
            (with_children b app (children (chatMessages app) ++ [assistant_el None])))
    with (chat_fetch_init b app).
  destruct H as [[e He] | [response [Hr Hbad]]].
  - rewrite He. eauto.
  - rewrite Hr. destruct (Response_ok response) eqn:Hok; cbn [negb]; [|eauto].
    destruct Hbad as [Hbad|Hnull]; [discriminate|].
    unfold body_getReader. rewrite Hnull. eauto.
Qed.

Lemma sendMessage_try_bytes (b : Browser) (app : ChatApp) (response : Response)
  (cs : list (list byte)) (final : StreamState) :
  let els := children (chatMessages app) in
  window_fetch b "/api/chat" (chat_fetch_init b app) = inr response ->
  Response_ok response = true ->
  body response = BodyStream (mkStream (map Bytes cs) final) ->
  let text := fst (TextDecoder.decode TextDecoder.new (concat cs) true) in
  let shown := match cs with [] => None | _ => Some text end in
  snd (sendMessage_try b app)
  = match final with
    | Closed =>
        TryDone text
          (set_chatHistory (with_children b app (els ++ [assistant_el shown]))
             (chatHistory app ++ [mkChatMessage assistant text]))
    | Errored e => TryThrew e (with_children b app (els ++ [assistant_el shown]))
    | Readable => TryPending (with_children b app (els ++ [assistant_el shown]))
    end.
Proof.
  intros els Hr Hok Hbody text shown. subst els. unfold sendMessage_try. cbn [snd].
  change (scroll_to_bottom b
            (appendChild app (mkMessageEl "message assistant-message" "<p></p>" None)))
    with (with_children b app (children (chatMessages app) ++ [assistant_el None])).
  change (chat_fetch_init b
            (with_children b app (children (chatMessages app) ++ [assistant_el None])))
    with (chat_fetch_init b app).
  rewrite Hr, Hok. cbn [negb]. unfold body_getReader. rewrite Hbody.
  unfold Stream.getReader. cbn [chunks state].
  rewrite (read_loop_bytes b app (children (chatMessages app)) cs final
             TextDecoder.new "" None).
  cbn [append]. rewrite decode_all_new. fold text.
  replace (match cs with [] => None | _ :: _ => Some text end) with shown
    by (subst shown; now destruct cs).
  now destruct final.
Qed.

(** ** [sendMessage], once it sends *)

Lemma sendMessage_sends (b : Browser) (app : ChatApp) :
  sends app ->
  sendMessage b app
  = let app1 := sendMessage_begin b app (JsString.trim (input_value (userInput app))) in
    match snd (sendMessage_try b app1) with
    | TryDone _ app2 =>
        ([EvFetch "/api/chat" (chat_fetch_init b app1)],
         Returned (sendMessage_finally app2))
    | TryThrew e app2 =>
        ([EvFetch "/api/chat" (chat_fetch_init b app1); EvConsoleError "Error:" e],
         Returned (sendMessage_finally (addMessageToChat b app2 "assistant" APOLOGY)))
    | TryPending app2 =>
        ([EvFetch "/api/chat" (chat_fetch_init b app1)], Suspended app2)
    end.
Proof.
  intros [Hm Hp]. unfold sendMessage.
  apply String.eqb_neq in Hm. rewrite Hm, Hp. cbn [orb]. cbv zeta.
  pose proof (sendMessage_try_log b
    (sendMessage_begin b app (JsString.trim (input_value (userInput app))))) as Hlog.
  destruct (sendMessage_try b _) as [t r]. cbn [fst snd] in *. subst t.
  destruct r; reflexivity.
Qed.

Lemma begin_children (b : Browser) (app : ChatApp) (m : string) :
  children (chatMessages (sendMessage_begin b app m))
  = (children (chatMessages app) ++ [message_el "user" m])%list.
Proof. reflexivity. Qed.

Lemma begin_history (b : Browser) (app : ChatApp) (m : string) :
  chatHistory (sendMessage_begin b app m)
  = (chatHistory app ++ [mkChatMessage user m])%list.
Proof. reflexivity. Qed.

Lemma begin_init (b : Browser) (app : ChatApp) (m : string) :
  chat_fetch_init b (sendMessage_begin b app m)
  = chat_fetch_init b (set_chatHistory app (chatHistory app ++ [mkChatMessage user m])).
Proof. reflexivity. Qed.

Lemma strip_first_blank (c : ascii) (rest : string) :
  (Ascii.eqb c " " || Ascii.eqb c "009" || Ascii.eqb c "010" || Ascii.eqb c "013")%char = true ->
  JsString.strip_first JsString.whitespace (String c rest) = Some rest.
Proof.
  intros H. repeat (apply orb_true_iff in H; destruct H as [H|H]);
    apply Ascii.eqb_eq in H; subst c; reflexivity.
Qed.

Lemma trim_blank (s : string) : blank s = true -> JsString.trim s = "".
Proof.
  intros H. unfold JsString.trim.
  assert (E : JsString.trimStart s = "").
  { unfold JsString.trimStart. induction s as [|c s IH]; [reflexivity|].
    cbn [blank] in H. apply andb_true_iff in H. destruct H as [Hc Hs].
    cbn [String.length JsString.strip_all]. rewrite (strip_first_blank c s Hc).
    now apply IH. }
  rewrite E. reflexivity.
Qed.

(** X8. [sendMessage] does nothing at all, and sends nothing, when the
    input trims to the empty string or when an exchange is already in
    progress; an input of spaces, tabs and line breaks only trims to the
    empty string. *)
Theorem sendMessage_ignores_blank_or_busy (b : Browser) (app : ChatApp) :
  (JsString.trim (input_value (userInput app)) = "" \/ isProcessing app = true ->
   sendMessage b app = ([], Returned app))
  /\ (blank (input_value (userInput app)) = true ->
      sendMessage b app = ([], Returned app)).
Proof.
  assert (H : JsString.trim (input_value (userInput app)) = "" \/ isProcessing app = true ->
              sendMessage b app = ([], Returned app)).
  { intros [Hm|Hp]; unfold sendMessage.
    - now rewrite Hm.
    - rewrite Hp. now rewrite orb_true_r. }
  split; [exact H|]. intros Hb. apply H. left. now apply trim_blank.
Qed.

Lemma sendMessage_ignores_blank_or_busy_witness :
  sendMessage (sample_browser (inl (Rejection "offline")))
    (sample_page (" " ++ Str.nl ++ " "))
  = ([], Returned (sample_page (" " ++ Str.nl ++ " "))).
Proof.
  exact (proj2 (sendMessage_ignores_blank_or_busy
                  (sample_browser (inl (Rejection "offline")))
                  (sample_page (" " ++ Str.nl ++ " "))) eq_refl).
Defined.

Lemma sendMessage_cases (b : Browser) (app : ChatApp) :
  sends app ->
  let m := JsString.trim (input_value (userInput app)) in
  let init := chat_fetch_init b
                (set_chatHistory app (chatHistory app ++ [mkChatMessage user m])) in
  let els := children (chatMessages app) in
  exists o app',
    (exists text,
       sendMessage b app = ([EvFetch "/api/chat" init], Returned app')
       /\ chatHistory app'
          = (chatHistory app ++ [mkChatMessage user m; mkChatMessage assistant text])%list
       /\ children (chatMessages app')
          = (els ++ [message_el "user" m; assistant_el o])%list)
    \/ (exists e,
       sendMessage b app
       = ([EvFetch "/api/chat" init; EvConsoleError "Error:" e], Returned app')
       /\ chatHistory app' = (chatHistory app ++ [mkChatMessage user m])%list
       /\ children (chatMessages app')
          = (els ++ [message_el "user" m; assistant_el o;
                     message_el "assistant" APOLOGY])%list)
    \/ (sendMessage b app = ([EvFetch "/api/chat" init], Suspended app')
       /\ chatHistory app' = (chatHistory app ++ [mkChatMessage user m])%list
       /\ children (chatMessages app')
          = (els ++ [message_el "user" m; assistant_el o])%list).
Proof.
  intros Hs m init els. rewrite (sendMessage_sends b app Hs). cbv zeta. fold m.
  rewrite begin_init. fold init.
  destruct (sendMessage_try_shape b (sendMessage_begin b app m))
    as [o [[text H]|[[e H]|H]]]; cbv zeta in H; rewrite H; exists o; eexists.
  - left. exists text. split; [reflexivity|]. split.
    + cbn [sendMessage_finally set_userInput set_sendButton_disabled set_isProcessing
           set_typingIndicator_visible set_chatHistory chatHistory].
      rewrite begin_history, <- app_assoc. reflexivity.
    + cbn [sendMessage_finally set_userInput set_sendButton_disabled set_isProcessing
           set_typingIndicator_visible set_chatHistory chatMessages with_children
           set_chatMessages children].
      rewrite begin_children, <- app_assoc. reflexivity.
  - right. left. exists e. split; [reflexivity|]. split.
    + cbn. reflexivity.
    + rewrite addMessageToChat_children.
      cbn [sendMessage_finally set_userInput set_sendButton_disabled set_isProcessing
           set_typingIndicator_visible set_chatHistory chatMessages with_children
           set_chatMessages children].
      rewrite begin_children, <- !app_assoc. reflexivity.
  - right. right. split; [reflexivity|]. split.
    + cbn. reflexivity.
    + cbn [chatMessages with_children set_chatMessages children].
      rewrite begin_children, <- app_assoc. reflexivity.
Qed.

(** X9. Every run of [sendMessage] that sends makes exactly one request,
    POST /api/chat with the history extended by the trimmed input, and
    ends in one of three ways.  It returns after a full reply: the
    history gains the user message and the reply, the transcript gains
    the user element and the reply element.  It returns after a failure:
    the error is logged, the history gains the user message only, and the
    transcript gains the user element, the reply element and the apology.
    Or it stays at a read that never settles.  Earlier entries of the
    history and of the transcript are never touched. *)
Theorem sendMessage_exchange (b : Browser) (app : ChatApp) :
  sends app ->
  let m := JsString.trim (input_value (userInput app)) in
  let init := chat_fetch_init b
                (set_chatHistory app (chatHistory app ++ [mkChatMessage user m])) in
  let els := children (chatMessages app) in
  exists o app',
    (exists text,
       sendMessage b app = ([EvFetch "/api/chat" init], Returned app')
       /\ chatHistory app'
          = (chatHistory app ++ [mkChatMessage user m; mkChatMessage assistant text])%list
       /\ children (chatMessages app')
          = (els ++ [message_el "user" m; assistant_el o])%list)
    \/ (exists e,
       sendMessage b app
       = ([EvFetch "/api/chat" init; EvConsoleError "Error:" e], Returned app')
       /\ chatHistory app' = (chatHistory app ++ [mkChatMessage user m])%list
       /\ children (chatMessages app')
          = (els ++ [message_el "user" m; assistant_el o;
                     message_el "assistant" APOLOGY])%list)
    \/ (sendMessage b app = ([EvFetch "/api/chat" init], Suspended app')
       /\ chatHistory app' = (chatHistory app ++ [mkChatMessage user m])%list
       /\ children (chatMessages app')
          = (els ++ [message_el "user" m; assistant_el o])%list).
Proof. exact (sendMessage_cases b app). Qed.

Lemma sendMessage_exchange_witness :
  exists o app',
    (exists text,
       sendMessage (sample_browser (inr (mkResponse 200 [] (BodyStream sample_stream))))
         (sample_page "Hi")
       = ([EvFetch "/api/chat"
             (chat_fetch_init
                (sample_browser (inr (mkResponse 200 [] (BodyStream sample_stream))))
                (set_chatHistory (sample_page "Hi") [mkChatMessage user "Hi"]))],
          Returned app')
       /\ chatHistory app' = [mkChatMessage user "Hi"; mkChatMessage assistant text]
       /\ children (chatMessages app') = [message_el "user" "Hi"; assistant_el o]).
Proof.
  destruct (sendMessage_exchange
              (sample_browser (inr (mkResponse 200 [] (BodyStream sample_stream))))
              (sample_page "Hi"))
    as [o [app' [H|[[e [H _]]|[H _]]]]].
  - split; [discriminate|reflexivity].
  - exists o, app'. exact H.
  - discriminate H.
  - discriminate H.
Defined.

Lemma sendMessage_returns_restored
  (b : Browser) (app app' : ChatApp) (t : list Event) :
  sends app ->
  sendMessage b app = (t, Returned app') ->
  isProcessing app' = false
  /\ input_disabled (userInput app') = false
  /\ sendButton_disabled app' = false
  /\ typingIndicator_visible app' = false
  /\ input_value (userInput app') = ""
  /\ style_height (userInput app') = "auto"
  /\ input_focused (userInput app') = true
  /\ settings app' = settings app
  /\ scrollTop (chatMessages app')
     = chat_scrollHeight b (children (chatMessages app')).
Proof.
  intros Hs H. rewrite (sendMessage_sends b app Hs) in H. cbv zeta in H.
  destruct (sendMessage_try_shape b
              (sendMessage_begin b app (JsString.trim (input_value (userInput app)))))
    as [o [[text E]|[[e E]|E]]]; cbv zeta in E; rewrite E in H;
    inversion H; subst; repeat split; reflexivity.
Qed.

(** X10. Whenever a run of [sendMessage] that sends returns, after a reply
    or after a failure alike, nothing is in progress any more, the input
    and the button are enabled, the typing indicator is hidden, the input
    is empty, reset to automatic height and focused, the settings are as
    they were and the transcript is scrolled to its bottom. *)
Theorem sendMessage_restores_controls
  (b : Browser) (app app' : ChatApp) (t : list Event) :
  sends app ->
  sendMessage b app = (t, Returned app') ->
  isProcessing app' = false
  /\ input_disabled (userInput app') = false
  /\ sendButton_disabled app' = false
  /\ typingIndicator_visible app' = false
  /\ input_value (userInput app') = ""
  /\ style_height (userInput app') = "auto"
  /\ input_focused (userInput app') = true
  /\ settings app' = settings app
  /\ scrollTop (chatMessages app')
     = chat_scrollHeight b (children (chatMessages app')).
Proof. exact (sendMessage_returns_restored b app app' t). Qed.

Lemma sendMessage_restores_controls_witness :
  exists app',
    sendMessage (sample_browser (inl (Rejection "offline"))) (sample_page "Hi")
    = ([EvFetch "/api/chat"
          (chat_fetch_init (sample_browser (inl (Rejection "offline")))
             (set_chatHistory (sample_page "Hi") [mkChatMessage user "Hi"]));
        EvConsoleError "Error:" (Rejection "offline")],
       Returned app')
    /\ isProcessing app' = false
    /\ input_disabled (userInput app') = false.
Proof.
  eexists. split; [reflexivity|].
  refine (let H := sendMessage_restores_controls
                     (sample_browser (inl (Rejection "offline"))) (sample_page "Hi")
                     _ _ _ eq_refl in
          conj (proj1 H) (proj1 (proj2 H))).
  split; [discriminate|reflexivity].
Defined.

Lemma sendMessage_reply_text
  (b : Browser) (app : ChatApp) (response : Response) (cs : list (list byte)) :
  sends app ->
  let m := JsString.trim (input_value (userInput app)) in
  let init := chat_fetch_init b
                (set_chatHistory app (chatHistory app ++ [mkChatMessage user m])) in
  window_fetch b "/api/chat" init = inr response ->
  Response_ok response = true ->
  body response = BodyStream (mkStream (map Bytes cs) Closed) ->
  let text := fst (TextDecoder.decode TextDecoder.new (concat cs) true) in
  exists app',
    sendMessage b app = ([EvFetch "/api/chat" init], Returned app')
    /\ chatHistory app'
       = (chatHistory app ++ [mkChatMessage user m; mkChatMessage assistant text])%list
    /\ children (chatMessages app')
       = (children (chatMessages app)
          ++ [message_el "user" m;
              assistant_el (match cs with [] => None | _ => Some text end)])%list.
Proof.
  intros Hs m init Hr Hok Hbody text.
  rewrite (sendMessage_sends b app Hs). cbv zeta. fold m. rewrite begin_init. fold init.
  change (window_fetch b "/api/chat" (chat_fetch_init b (sendMessage_begin b app m))
          = inr response) in Hr.
  rewrite (sendMessage_try_bytes b (sendMessage_begin b app m) response cs Closed
             Hr Hok Hbody).
  eexists. split; [reflexivity|]. split.
  - cbn [sendMessage_finally set_userInput set_sendButton_disabled set_isProcessing
         set_typingIndicator_visible set_chatHistory chatHistory].
    rewrite begin_history, <- app_assoc. reflexivity.
  - cbn [sendMessage_finally set_userInput set_sendButton_disabled set_isProcessing
         set_typingIndicator_visible set_chatHistory chatMessages with_children
         set_chatMessages children].
    rewrite begin_children, <- app_assoc. reflexivity.
Qed.

(** X11. After a reply whose body ends normally, the text recorded in the
    history and shown in the reply element is what one UTF-8 decoder in
    streaming mode gives for all the bytes of the body put end to end: it
    does not depend on how the body was cut into chunks.  With no chunk
    at all the recorded reply is empty and the reply element keeps its
    empty paragraph. *)
Theorem reply_is_streaming_decode_of_body
  (b : Browser) (app : ChatApp) (response : Response) (cs : list (list byte)) :
  sends app ->
  let m := JsString.trim (input_value (userInput app)) in
  let init := chat_fetch_init b
                (set_chatHistory app (chatHistory app ++ [mkChatMessage user m])) in
  window_fetch b "/api/chat" init = inr response ->
  Response_ok response = true ->
  body response = BodyStream (mkStream (map Bytes cs) Closed) ->
  let text := fst (TextDecoder.decode TextDecoder.new (concat cs) true) in
  exists app',
    sendMessage b app = ([EvFetch "/api/chat" init], Returned app')
    /\ chatHistory app'
       = (chatHistory app ++ [mkChatMessage user m; mkChatMessage assistant text])%list
    /\ children (chatMessages app')
       = (children (chatMessages app)
          ++ [message_el "user" m;
              assistant_el (match cs with [] => None | _ => Some text end)])%list.
Proof. exact (sendMessage_reply_text b app response cs). Qed.

Lemma reply_is_streaming_decode_of_body_witness :
  exists app',
    snd (sendMessage
           (sample_browser
              (inr (mkResponse 200 [] (BodyStream (mkStream (map Bytes [[xc3]; [xa9]]) Closed)))))
           (sample_page "Hi"))
    = Returned app'
    /\ chatHistory app'
       = [mkChatMessage user "Hi"; mkChatMessage assistant (Str.of_bytes [xc3; xa9])].
Proof.
  assert (Hs : sends (sample_page "Hi")) by (split; [discriminate|reflexivity]).
  destruct (reply_is_streaming_decode_of_body
              (sample_browser
                 (inr (mkResponse 200 []
                         (BodyStream (mkStream (map Bytes [[xc3]; [xa9]]) Closed)))))
              (sample_page "Hi")
              (mkResponse 200 [] (BodyStream (mkStream (map Bytes [[xc3]; [xa9]]) Closed)))
              [[xc3]; [xa9]]
              Hs eq_refl eq_refl eq_refl)
    as [app' [H1 [H2 _]]].
  exists app'. split; [now rewrite H1 | exact H2].
Defined.

(** X12. When the request is rejected, or answered with a status outside
    200-299, or answered without a body, nothing of the answer is read:
    the error is logged, the apology is displayed under an empty reply
    element, and the history keeps the user message without a reply. *)
Theorem failed_request_shows_apology (b : Browser) (app : ChatApp) :
  sends app ->
  let m := JsString.trim (input_value (userInput app)) in
  let init := chat_fetch_init b
                (set_chatHistory app (chatHistory app ++ [mkChatMessage user m])) in
  (exists e, window_fetch b "/api/chat" init = inl e)
  \/ (exists response,
        window_fetch b "/api/chat" init = inr response
        /\ (Response_ok response = false \/ body response = BodyNull)) ->
  exists e app',
    sendMessage b app
    = ([EvFetch "/api/chat" init; EvConsoleError "Error:" e], Returned app')
    /\ chatHistory app' = (chatHistory app ++ [mkChatMessage user m])%list
    /\ children (chatMessages app')
       = (children (chatMessages app)
          ++ [message_el "user" m; assistant_el None;
              message_el "assistant" APOLOGY])%list.
Proof.
  intros Hs m init Hbad.
  rewrite (sendMessage_sends b app Hs). cbv zeta. fold m. rewrite begin_init. fold init.
  subst init. rewrite <- begin_init in Hbad.
  destruct (sendMessage_try_failed b (sendMessage_begin b app m) Hbad) as [e E].
  rewrite E. exists e. eexists. split; [reflexivity|]. split; [reflexivity|].
  rewrite addMessageToChat_children.
  cbn [sendMessage_finally set_userInput set_sendButton_disabled set_isProcessing
       set_typingIndicator_visible set_chatHistory chatMessages with_children
       set_chatMessages children].
  rewrite begin_children, <- !app_assoc. reflexivity.
Qed.

Lemma failed_request_shows_apology_witness :
  exists e app',
    snd (sendMessage
           (sample_browser (inr (mkResponse 500 [] (BodyString "oops"))))
           (sample_page "Hi"))
    = Returned app'
    /\ chatHistory app' = [mkChatMessage user "Hi"]
    /\ children (chatMessages app')
       = [message_el "user" "Hi"; assistant_el None; message_el "assistant" APOLOGY]
    /\ e = Error "Failed to get response".
Proof.
  assert (Hs : sends (sample_page "Hi")) by (split; [discriminate|reflexivity]).
  destruct (failed_request_shows_apology
              (sample_browser (inr (mkResponse 500 [] (BodyString "oops"))))
              (sample_page "Hi") Hs
              (or_intror (ex_intro _ (mkResponse 500 [] (BodyString "oops"))
                            (conj eq_refl (or_introl eq_refl)))))
    as [e [app' [H1 [H2 H3]]]].
  exists (Error "Failed to get response"), app'.
  split; [now rewrite H1|]. split; [exact H2|]. split; [exact H3|reflexivity].
Defined.

(** X13. When the body fails after some chunks, the text decoded so far
    stays in the reply element, the apology is added after it, the error
    is logged, and the history records no reply at all. *)
Theorem truncated_reply_is_shown_not_recorded
  (b : Browser) (app : ChatApp) (response : Response)
  (cs : list (list byte)) (e : exn) :
  sends app ->
  let m := JsString.trim (input_value (userInput app)) in
  let init := chat_fetch_init b
                (set_chatHistory app (chatHistory app ++ [mkChatMessage user m])) in
  window_fetch b "/api/chat" init = inr response ->
  Response_ok response = true ->
  body response = BodyStream (mkStream (map Bytes cs) (Errored e)) ->
  let text := fst (TextDecoder.decode TextDecoder.new (concat cs) true) in
  exists app',
    sendMessage b app
    = ([EvFetch "/api/chat" init; EvConsoleError "Error:" e], Returned app')
    /\ chatHistory app' = (chatHistory app ++ [mkChatMessage user m])%list
    /\ children (chatMessages app')
       = (children (chatMessages app)
          ++ [message_el "user" m;
              assistant_el (match cs with [] => None | _ => Some text end);
              message_el "assistant" APOLOGY])%list.
Proof.
  intros Hs m init Hr Hok Hbody text.
  rewrite (sendMessage_sends b app Hs). cbv zeta. fold m. rewrite begin_init. fold init.
  change (window_fetch b "/api/chat" (chat_fetch_init b (sendMessage_begin b app m))
          = inr response) in Hr.
  rewrite (sendMessage_try_bytes b (sendMessage_begin b app m) response cs (Errored e)
             Hr Hok Hbody).
  eexists. split; [reflexivity|]. split; [reflexivity|].
  rewrite addMessageToChat_children.
  cbn [sendMessage_finally set_userInput set_sendButton_disabled set_isProcessing
       set_typingIndicator_visible set_chatHistory chatMessages with_children
       set_chatMessages children].
  rewrite begin_children, <- !app_assoc. reflexivity.
Qed.

Lemma truncated_reply_is_shown_not_recorded_witness :
  exists app',
    snd (sendMessage
           (sample_browser
              (inr (mkResponse 200 []
                      (BodyStream (mkStream (map Bytes [[x48; x69]])
                                     (Errored (Rejection "reset")))))))
           (sample_page "Hello"))
    = Returned app'
    /\ chatHistory app' = [mkChatMessage user "Hello"]
    /\ children (chatMessages app')
       = [message_el "user" "Hello"; assistant_el (Some "Hi");
          message_el "assistant" APOLOGY].
Proof.
  assert (Hs : sends (sample_page "Hello")) by (split; [discriminate|reflexivity]).
  destruct (truncated_reply_is_shown_not_recorded
              (sample_browser
                 (inr (mkResponse 200 []
                         (BodyStream (mkStream (map Bytes [[x48; x69]])
                                        (Errored (Rejection "reset")))))))
              (sample_page "Hello")
              (mkResponse 200 []
                 (BodyStream (mkStream (map Bytes [[x48; x69]])
                                (Errored (Rejection "reset")))))
              [[x48; x69]] (Rejection "reset")
              Hs eq_refl eq_refl eq_refl)
    as [app' [H1 [H2 H3]]].
  exists app'. split; [now rewrite H1|]. split; [exact H2|exact H3].
Defined.

(** X14. When the body neither ends nor fails, [sendMessage] never
    returns: the exchange stays in progress with the input and the button
    disabled, and from then on every click and every key press, whatever
    is typed, sends nothing. *)
Theorem unending_reply_blocks_the_page
  (b : Browser) (app : ChatApp) (response : Response) (cs : list (list byte)) :
  sends app ->
  let m := JsString.trim (input_value (userInput app)) in
  let init := chat_fetch_init b
                (set_chatHistory app (chatHistory app ++ [mkChatMessage user m])) in
  window_fetch b "/api/chat" init = inr response ->
  Response_ok response = true ->
  body response = BodyStream (mkStream (map Bytes cs) Readable) ->
  exists app',
    sendMessage b app = ([EvFetch "/api/chat" init], Suspended app')
    /\ isProcessing app' = true
    /\ input_disabled (userInput app') = true
    /\ sendButton_disabled app' = true
    /\ typingIndicator_visible app' = true
    /\ (forall typed key shiftKey,
          fst (listener b (user_types app' typed) Click)
          = ([], Returned (user_types app' typed))
          /\ fst (listener b (user_types app' typed) (Keydown key shiftKey))
             = ([], Returned (user_types app' typed))).
Proof.
  intros Hs m init Hr Hok Hbody.
  rewrite (sendMessage_sends b app Hs). cbv zeta. fold m. rewrite begin_init. fold init.
  change (window_fetch b "/api/chat" (chat_fetch_init b (sendMessage_begin b app m))
          = inr response) in Hr.
  rewrite (sendMessage_try_bytes b (sendMessage_begin b app m) response cs Readable
             Hr Hok Hbody).
  eexists. split; [reflexivity|].
  split; [reflexivity|]. split; [reflexivity|]. split; [reflexivity|].
  split; [reflexivity|].
  intros typed key shiftKey.
  assert (Hbusy : forall a, isProcessing a = true -> sendMessage b a = ([], Returned a)).
  { intros a Ha. unfold sendMessage. rewrite Ha. now rewrite orb_true_r. }
  split.
  - cbn [listener fst]. now apply Hbusy.
  - cbn [listener]. destruct (String.eqb key "Enter" && negb shiftKey); cbn [fst];
      [now apply Hbusy|reflexivity].
Qed.

Lemma unending_reply_blocks_the_page_witness :
  exists app',
    snd (sendMessage
           (sample_browser
              (inr (mkResponse 200 []
                      (BodyStream (mkStream (map Bytes [[x48; x69]]) Readable)))))
           (sample_page "Hello"))
    = Suspended app'
    /\ isProcessing app' = true.
Proof.
  assert (Hs : sends (sample_page "Hello")) by (split; [discriminate|reflexivity]).
  destruct (unending_reply_blocks_the_page
              (sample_browser
                 (inr (mkResponse 200 []
                         (BodyStream (mkStream (map Bytes [[x48; x69]]) Readable)))))
              (sample_page "Hello")
              (mkResponse 200 [] (BodyStream (mkStream (map Bytes [[x48; x69]]) Readable)))
              [[x48; x69]]
              Hs eq_refl eq_refl eq_refl)
    as [app' [H1 [H2 _]]].
  exists app'. split; [now rewrite H1|exact H2].
Defined.

(** ** The history over a whole session *)

Lemma sendMessage_blocked (b : Browser) (app : ChatApp) :
  ~ sends app -> sendMessage b app = ([], Returned app).
Proof.
  intros H. unfold sendMessage, sends in *.
  destruct (String.eqb (JsString.trim (input_value (userInput app))) "") eqn:E;
    [reflexivity|].
  destruct (isProcessing app) eqn:P; [reflexivity|].
  exfalso. apply H. split; [now apply String.eqb_neq|reflexivity].
Qed.

Lemma sends_dec (app : ChatApp) : sends app \/ ~ sends app.
Proof.
  unfold sends.
  destruct (String.eqb (JsString.trim (input_value (userInput app))) "") eqn:E.
  - right. intros [H _]. now apply String.eqb_eq in E.
  - destruct (isProcessing app) eqn:P.
    + right. intros [_ H]. discriminate.
    + left. split; [now apply String.eqb_neq|reflexivity].
Qed.

Lemma sendMessage_keeps_invariant (b : Browser) (app app' : ChatApp) (t : list Event) :
  exchanges (chatHistory app) -> isProcessing app = false ->
  sendMessage b app = (t, Returned app') ->
  exchanges (chatHistory app') /\ isProcessing app' = false.
Proof.
  intros Hex Hidle Hrun.
  destruct (sends_dec app) as [Hs|Hn].
  - split; [|exact (proj1 (sendMessage_returns_restored b app app' t Hs Hrun))].
    destruct (sendMessage_cases b app Hs)
      as [o [a [[text [E [Hh _]]]|[[e [E [Hh _]]]|[E _]]]]];
      rewrite E in Hrun; inversion Hrun; subst.
    + rewrite Hh. apply exchanges_replied; [exact Hex|exact (proj1 Hs)].
    + rewrite Hh. apply exchanges_failed; [exact Hex|exact (proj1 Hs)].
  - rewrite (sendMessage_blocked b app Hn) in Hrun. inversion Hrun; subst. auto.
Qed.

Lemma exchanges_no_system (h : list ChatMessage) :
  exchanges h -> forall msg, In msg h -> role msg <> system.
Proof.
  induction 1 as [|h m Hex IH Hm|h m text Hex IH Hm]; intros msg Hin.
  - destruct Hin.
  - apply in_app_or in Hin. destruct Hin as [Hin|[<-|[]]]; [now apply IH|discriminate].
  - apply in_app_or in Hin.
    destruct Hin as [Hin|[<-|[<-|[]]]]; [now apply IH|discriminate|discriminate].
Qed.

Lemma filter_no_system (h : list ChatMessage) :
  (forall msg, In msg h -> role msg <> system) ->
  filter (fun msg => negb (is_system_role msg)) h = h.
Proof.
  induction h as [|x h IH]; intros H; [reflexivity|].
  cbn [filter]. assert (Hx : is_system_role x = false).
  { unfold is_system_role. specialize (H x (or_introl eq_refl)).
    destruct (role x); congruence. }
  rewrite Hx. cbn [negb]. f_equal. apply IH. intros msg Hin. apply H. now right.
Qed.

Lemma reachable_invariant (b : Browser) (app : ChatApp) :
  reachable b app -> exchanges (chatHistory app) /\ isProcessing app = false.
Proof.
  induction 1 as [page|app text Hr IH|app s Hr IH|app app' ev t p Hr IH Hl].
  - split; [constructor|reflexivity].
  - exact IH.
  - exact IH.
  - destruct IH as [Hex Hidle]. destruct ev; cbn [listener] in Hl.
    + inversion Hl as [Hrun]. exact (sendMessage_keeps_invariant b app app' t Hex Hidle Hrun).
    + destruct (String.eqb key "Enter" && negb shiftKey).
      * inversion Hl as [Hrun].
        exact (sendMessage_keeps_invariant b app app' t Hex Hidle Hrun).
      * inversion Hl; subst. auto.
    + inversion Hl; subst. auto.
Qed.

(** X15. In every state the page reaches from the constructor through
    typing, changing the settings and listener runs that return, nothing
    is in progress, and the history is a sequence of exchanges, each a
    non-empty user message alone or followed by its reply: it never holds
    a system message, so the filter applied before sending removes
    nothing. *)
Theorem history_is_a_sequence_of_exchanges (b : Browser) (app : ChatApp) :
  reachable b app ->
  exchanges (chatHistory app)
  /\ isProcessing app = false
  /\ (forall msg, In msg (chatHistory app) -> role msg <> system)
  /\ filter (fun msg => negb (is_system_role msg)) (chatHistory app) = chatHistory app.
Proof.
  intros Hr. destruct (reachable_invariant b app Hr) as [Hex Hidle].
  pose proof (exchanges_no_system _ Hex) as Hns.
  repeat split; auto. now apply filter_no_system.
Qed.

Lemma history_is_a_sequence_of_exchanges_witness :
  exists app',
    snd (sendMessage (sample_browser (inl (Rejection "offline")))
           (user_types (constructor (sample_browser (inl (Rejection "offline")))
                          (sample_page "")) "Hi"))
    = Returned app'
    /\ exchanges (chatHistory app').
Proof.
  eexists. split; [reflexivity|].
  refine (proj1 (history_is_a_sequence_of_exchanges
                   (sample_browser (inl (Rejection "offline"))) _
                   (reach_listener (sample_browser (inl (Rejection "offline")))
                      (user_types (constructor (sample_browser (inl (Rejection "offline")))
                                     (sample_page "")) "Hi")
                      _ Click
                      (fst (sendMessage (sample_browser (inl (Rejection "offline")))
                              (user_types
                                 (constructor (sample_browser (inl (Rejection "offline")))
                                    (sample_page "")) "Hi")))
                      false
                      (reach_types _ _ _ (reach_constructor _ _)) _))).
  vm_compute. reflexivity.
Defined.

(** ** The client and the worker together *)

Lemma params_dispatch (b : Browser) (app : ChatApp) (env : Env) (rt : Runtime) :
  entered (log_of (handleChatRequest (chat_request (request_params b app)) env) rt)
  = [(selected (Some (JStr (modelSelect_value (settings app)))),
      messages_json
        (default_system_message
         :: filter (fun msg => negb (is_system_role msg)) (chatHistory app)))].
Proof.
  set (api := filter (fun msg => negb (is_system_role msg)) (chatHistory app)).
  assert (Hnone : existsb is_system_role api = false).
  { subst api. induction (chatHistory app) as [|x h IH]; [reflexivity|].
    cbn [filter]. destruct (is_system_role x) eqn:E; cbn [negb]; [exact IH|].
    cbn [existsb]. now rewrite E, IH. }
  pose proof (dispatch_after_selection (chat_request (request_params b app)) env rt
                (request_params b app) (map ChatMessage_json api) (existsb is_system_role api)
                eq_refl ltac:(discriminate) eq_refl (some_typed api)) as H.
  rewrite Hnone in H. exact H.
Qed.

(** X16. The object [sendMessage] serialises as the body of its request,
    taken as the parsed body of the chat handler, always gets a generator
    entered: the one the model selector names ("gemini" or, for any other
    value, the primary one), with the default system message followed by
    the whole history and the new user message.  The client never sends a
    system message of its own. *)
Theorem client_request_gets_system_prompt
  (b : Browser) (app : ChatApp) (env : Env) (rt : Runtime) :
  reachable b app ->
  sends app ->
  let m := JsString.trim (input_value (userInput app)) in
  let params := request_params b
                  (set_chatHistory app (chatHistory app ++ [mkChatMessage user m])) in
  (exists rest,
     fst (sendMessage b app)
     = EvFetch "/api/chat"
         (mkRequestInit "POST" [("Content-Type", "application/json")]
            (JSON.stringify params)) :: rest)
  /\ entered (log_of (handleChatRequest (chat_request params) env) rt)
     = [(selected (Some (JStr (modelSelect_value (settings app)))),
         messages_json
           (default_system_message :: chatHistory app ++ [mkChatMessage user m]))].
Proof.
  intros Hr Hs m params. split.
  - rewrite (sendMessage_sends b app Hs). cbv zeta. fold m. rewrite begin_init.
    destruct (snd (sendMessage_try b (sendMessage_begin b app m))); eexists; reflexivity.
  - subst params. rewrite params_dispatch.
    cbn [set_chatHistory chatHistory settings].
    destruct (reachable_invariant b app Hr) as [Hex _].
    rewrite filter_no_system; [reflexivity|].
    intros msg Hin. apply in_app_or in Hin. destruct Hin as [Hin|[<-|[]]].
    + exact (exchanges_no_system _ Hex msg Hin).
    + discriminate.
Qed.

Lemma client_request_gets_system_prompt_witness :
  entered
    (log_of (handleChatRequest
               (chat_request
                  (request_params (sample_browser (inl (Rejection "offline")))
                     (set_chatHistory (sample_page "Hi") [mkChatMessage user "Hi"])))
               sample_env) sample_rt)
  = [(WorkersAi, messages_json [default_system_message; mkChatMessage user "Hi"])].
Proof.
  assert (Hs : sends (user_types (constructor (sample_browser (inl (Rejection "offline")))
                                    (sample_page "")) "Hi"))
    by (split; [discriminate|reflexivity]).
  exact (proj2 (client_request_gets_system_prompt
                  (sample_browser (inl (Rejection "offline")))
                  (user_types (constructor (sample_browser (inl (Rejection "offline")))
                                 (sample_page "")) "Hi")
                  sample_env sample_rt
                  (reach_types _ _ _ (reach_constructor _ _)) Hs)).
Defined.

(** X17. The constructor displays the greeting and starts from an empty
    history, whatever the page held: the greeting is never part of a
    request, and the first request from a fresh page carries the user's
    message alone. *)
Theorem greeting_is_displayed_not_sent (b : Browser) (page : ChatApp) (typed : string) :
  let app := user_types (constructor b page) typed in
  children (chatMessages app)
  = (children (chatMessages page) ++ [message_el "assistant" GREETING])%list
  /\ chatHistory app = []
  /\ isProcessing app = false
  /\ (JsString.trim typed <> "" ->
      exists rest,
        fst (sendMessage b app)
        = EvFetch "/api/chat"
            (mkRequestInit "POST" [("Content-Type", "application/json")]
               (JSON.stringify
                  (JObj [("model", JStr (modelSelect_value (settings page)));
                         ("messages",
                          messages_json [mkChatMessage user (JsString.trim typed)]);
                         ("temperature",
                          parseFloat b (temperatureInput_value (settings page)));
                         ("topK", parseInt b (topKInput_value (settings page)));
                         ("topP", parseFloat b (topPInput_value (settings page)))])))
          :: rest).
Proof.
  intros app. split; [reflexivity|]. split; [reflexivity|]. split; [reflexivity|].
  intros Hm.
  assert (Hs : sends app) by (split; [exact Hm|reflexivity]).
  rewrite (sendMessage_sends b app Hs). cbv zeta.
  destruct (snd (sendMessage_try b _)); eexists; reflexivity.
Qed.

Lemma greeting_is_displayed_not_sent_witness :
  exists rest,
    fst (sendMessage (sample_browser (inl (Rejection "offline")))
           (user_types (constructor (sample_browser (inl (Rejection "offline")))
                          (sample_page "")) "Hi"))
    = EvFetch "/api/chat"
        (mkRequestInit "POST" [("Content-Type", "application/json")]
           (JSON.stringify
              (JObj [("model", JStr "workers-ai");
                     ("messages", messages_json [mkChatMessage user "Hi"]);
                     ("temperature", JNum "0.7");
                     ("topK", JNum "40");
                     ("topP", JNum "0.9")])))
      :: rest.
Proof.
  refine (proj2 (proj2 (proj2 (greeting_is_displayed_not_sent
            (sample_browser (inl (Rejection "offline"))) (sample_page "") "Hi"))) _).
  discriminate.
Defined.

(** ** Well-formed UTF-8 goes through the decoder unchanged *)

Section Utf8Facts.

Import Utf8.
Local Open Scope list_scope.
Local Open Scope N_scope.

Lemma prefix2_checked : all_from 30 2 check_prefix2 = true.
Proof. vm_compute. reflexivity. Qed.
Lemma prefix3_checked : all_from (N.to_nat 0x3E0) 0x20 check_prefix3 = true.
Proof. vm_compute. reflexivity. Qed.
Lemma prefix4_checked : all_from (N.to_nat 0x4000) 0x400 check_prefix4 = true.
Proof. vm_compute. reflexivity. Qed.
Lemma last_checked : all_from 64 0 check_last = true.
Proof. vm_compute. reflexivity. Qed.

Lemma all_from_spec (f : N -> bool) (n : nat) :
  forall c, all_from n c f = true ->
  forall x, c <= x -> x < c + N.of_nat n -> f x = true.
Proof.
  induction n as [|n IH]; intros c H x Hlo Hhi; [lia|].
  cbn [all_from] in H. destruct (f c) eqn:E; [|discriminate].
  destruct (N.eq_dec x c) as [->|Hne]; [exact E|].
  apply (IH (N.succ c) H); lia.
Qed.

Lemma state_is_eq (d : TextDecoder.t) (cp seen needed : N) :
  state_is d cp seen needed = true ->
  d = TextDecoder.mk cp seen needed 0x80 0xBF false false.
Proof.
  destruct d as [a b c lo up f1 f2]. unfold state_is. cbn.
  intros H. repeat (apply andb_true_iff in H; destruct H as [H ?]).
  repeat match goal with
         | E : (_ =? _) = true |- _ => apply N.eqb_eq in E
         | E : negb _ = true |- _ => apply negb_true_iff in E
         end.
  subst. reflexivity.
Qed.

Lemma silent_eq (r : TextDecoder.t * list N) (cp seen needed : N) :
  silent r cp seen needed = true ->
  r = (TextDecoder.mk cp seen needed 0x80 0xBF false false, []).
Proof.
  destruct r as [d out]. unfold silent. cbn [fst snd]. intros H.
  apply andb_true_iff in H. destruct H as [H1 H2]. apply state_is_eq in H1.
  destruct out; [now subst|discriminate].
Qed.

Lemma split6 (c : N) : N.lor (N.shiftl (N.shiftr c 6) 6) (N.land c 0x3F) = c.
Proof.
  apply N.bits_inj. intros n. rewrite N.lor_spec, N.land_spec.
  change 0x3F with (N.ones 6).
  destruct (N.lt_ge_cases n 6) as [Hlt|Hge].
  - rewrite N.shiftl_spec_low by exact Hlt.
    rewrite N.ones_spec_low by exact Hlt. cbn [orb]. now rewrite andb_true_r.
  - rewrite N.shiftl_spec_high' by exact Hge.
    rewrite N.shiftr_spec'. rewrite N.ones_spec_high by exact Hge.
    rewrite andb_false_r, orb_false_r. f_equal. lia.
Qed.

Lemma low6_lt (c : N) : N.land c 0x3F < 64.
Proof.
  change 0x3F with (N.ones 6). rewrite N.land_ones. apply N.mod_lt. discriminate.
Qed.

Lemma last_byte_facts (l : N) :
  l < 64 ->
  let b := Byte.to_N (byte_at (N.lor 0x80 l)) in
  N.land b 0x3F = l /\ 0x80 <= b /\ b <= 0xBF.
Proof.
  intros Hl b.
  pose proof (all_from_spec check_last 64 0 last_checked l ltac:(lia) ltac:(lia)) as H.
  unfold check_last in H. fold b in H.
  repeat (apply andb_true_iff in H; destruct H as [H ?]).
  apply N.eqb_eq in H. split; [exact H|]. split; now apply N.leb_le.
Qed.

Lemma handler_last (p seen needed b : N) :
  needed <> 0 -> seen + 1 = needed -> 0x80 <= b -> b <= 0xBF ->
  TextDecoder.handler (TextDecoder.mk p seen needed 0x80 0xBF false false) b
  = (d00, [N.lor (N.shiftl p 6) (N.land b 0x3F)]).
Proof.
  intros Hn Hs Hlo Hhi. unfold TextDecoder.handler.
  cbn [TextDecoder.bytes_needed TextDecoder.lower TextDecoder.upper
       TextDecoder.code_point TextDecoder.bytes_seen].
  apply N.eqb_neq in Hn. rewrite Hn.
  apply N.leb_le in Hlo, Hhi. rewrite Hlo, Hhi. cbn [andb negb].
  rewrite Hs, N.eqb_refl. reflexivity.
Qed.

(** The decoder on a prefix whose state is known, then the last byte. *)
Lemma run_prefix_last (prefix : list N) (p seen needed c : N) :
  silent (after prefix) p seen needed = true ->
  needed <> 0 -> seen + 1 = needed -> p = N.shiftr c 6 ->
  TextDecoder.run d00 (map byte_at prefix ++ [byte_at (N.lor 0x80 (N.land c 0x3F))])
  = (d00, [c]).
Proof.
  intros Hp Hn Hs ->. apply silent_eq in Hp. unfold after in Hp.
  rewrite run_app, Hp. cbn [fst snd app TextDecoder.run].
  destruct (last_byte_facts (N.land c 0x3F) (low6_lt c)) as (Hl & Hlo & Hhi).
  rewrite (handler_last _ seen needed _ Hn Hs Hlo Hhi), Hl, split6. reflexivity.
Qed.

Lemma byte_at_to_N (n : N) : n < 256 -> Byte.to_N (byte_at n) = n.
Proof.
  intros H. unfold byte_at. apply Byte.to_of_N.
  rewrite byte_of_ascii_via_N. now rewrite N_ascii_embedding.
Qed.

Lemma to_bytes_app (a b : string) :
  Str.to_bytes (a ++ b) = (Str.to_bytes a ++ Str.to_bytes b)%list.
Proof.
  unfold Str.to_bytes, list_byte_of_string.
  induction a as [|x a IH]; [reflexivity|].
  cbn [append list_ascii_of_string map app]. now rewrite IH.
Qed.

Lemma shr6_bounds (c lo hi : N) :
  64 * lo <= c -> c < 64 * hi -> lo <= N.shiftr c 6 /\ N.shiftr c 6 < hi.
Proof.
  intros Hlo Hhi. rewrite N.shiftr_div_pow2. change (2 ^ 6) with 64.
  pose proof (N.div_mod c 64 ltac:(discriminate)) as E.
  pose proof (N.mod_lt c 64 ltac:(discriminate)) as M.
  set (q := c / 64) in *. set (r := c mod 64) in *. clearbody q r.
  split; lia.
Qed.

Lemma code_point_decodes (c : N) :
  scalar c = true ->
  TextDecoder.run d00 (Str.to_bytes (TextDecoder.encode_code_point c)) = (d00, [c]).
Proof.
  intros Hsc. unfold TextDecoder.encode_code_point.
  destruct (c <? 0x80) eqn:E1.
  - apply N.ltb_lt in E1.
    change (Str.to_bytes (String (ascii_of_N c) "")) with [byte_at c].
    cbn [TextDecoder.run]. rewrite (byte_at_to_N c) by lia.
    unfold TextDecoder.handler. cbn [TextDecoder.bytes_needed d00 N.eqb].
    now rewrite (lead_ascii d00 c E1).
  - apply N.ltb_ge in E1. destruct (c <? 0x800) eqn:E2.
    + apply N.ltb_lt in E2.
      change (Str.to_bytes _)
        with (map byte_at [N.lor 0xC0 (N.shiftr c 6)]
              ++ [byte_at (N.lor 0x80 (N.land c 0x3F))]).
      destruct (shr6_bounds c 2 32 ltac:(lia) ltac:(lia)) as [Hlo Hhi].
      apply (run_prefix_last _ (N.shiftr c 6) 0 1 c); try reflexivity; [|discriminate].
      exact (all_from_spec check_prefix2 30 2 prefix2_checked _ Hlo ltac:(lia)).
    + apply N.ltb_ge in E2. destruct (c <? 0x10000) eqn:E3.
      * apply N.ltb_lt in E3.
        change (Str.to_bytes _)
          with (map byte_at [N.lor 0xE0 (N.shiftr c 12);
                             N.lor 0x80 (N.land (N.shiftr c 6) 0x3F)]
                ++ [byte_at (N.lor 0x80 (N.land c 0x3F))]).
        change 12 with (6 + 6). rewrite <- N.shiftr_shiftr.
        destruct (shr6_bounds c 0x20 0x400 ltac:(lia) ltac:(lia)) as [Hlo Hhi].
        apply (run_prefix_last _ (N.shiftr c 6) 1 2 c); try reflexivity; [|discriminate].
        pose proof (all_from_spec check_prefix3 _ _ prefix3_checked _ Hlo ltac:(lia)) as H.
        unfold check_prefix3 in H. apply orb_true_iff in H.
        destruct H as [H|H]; [|exact H].
        exfalso. apply andb_true_iff in H. destruct H as [Ha Hb].
        apply N.leb_le in Ha. apply N.ltb_lt in Hb.
        rewrite N.shiftr_div_pow2 in Ha, Hb. change (2 ^ 6) with 64 in Ha, Hb.
        pose proof (N.div_mod c 64 ltac:(discriminate)) as E.
        pose proof (N.mod_lt c 64 ltac:(discriminate)) as M.
        set (q := c / 64) in *. set (r := c mod 64) in *. clearbody q r.
        unfold scalar in Hsc. apply orb_true_iff in Hsc.
        destruct Hsc as [S1|S1].
        -- apply N.ltb_lt in S1. lia.
        -- apply andb_true_iff in S1. destruct S1 as [S1 _]. apply N.leb_le in S1. lia.
      * apply N.ltb_ge in E3.
        assert (Hmax : c < 0x110000).
        { unfold scalar in Hsc. apply orb_true_iff in Hsc. destruct Hsc as [S1|S1].
          - apply N.ltb_lt in S1. lia.
          - apply andb_true_iff in S1. destruct S1 as [_ S1]. now apply N.ltb_lt in S1. }
        change (Str.to_bytes _)
          with (map byte_at [N.lor 0xF0 (N.shiftr c 18);
                             N.lor 0x80 (N.land (N.shiftr c 12) 0x3F);
                             N.lor 0x80 (N.land (N.shiftr c 6) 0x3F)]
                ++ [byte_at (N.lor 0x80 (N.land c 0x3F))]).
        change 18 with (6 + 12). change 12 with (6 + 6) at 2.
        rewrite <- !N.shiftr_shiftr.
        destruct (shr6_bounds c 0x400 0x4400 ltac:(lia) ltac:(lia)) as [Hlo Hhi].
        apply (run_prefix_last _ (N.shiftr c 6) 2 3 c); try reflexivity; [|discriminate].
        exact (all_from_spec check_prefix4 _ _ prefix4_checked _ Hlo ltac:(lia)).
Qed.

Lemma code_points_decode (cps : list N) :
  forallb scalar cps = true ->
  TextDecoder.run d00 (Str.to_bytes (TextDecoder.text_of cps)) = (d00, cps).
Proof.
  induction cps as [|c cps IH]; intros H; [reflexivity|].
  cbn [forallb] in H. apply andb_true_iff in H. destruct H as [Hc Hcps].
  unfold TextDecoder.text_of in *. cbn [map]. rewrite cat_cons, to_bytes_app, run_app.
  rewrite (code_point_decodes c Hc). cbn [fst snd]. rewrite (IH Hcps). reflexivity.
Qed.

Lemma decode_valid_utf8 (cps : list N) :
  forallb scalar cps = true ->
  hd 0 cps <> 0xFEFF ->
  fst (TextDecoder.decode TextDecoder.new (Str.to_bytes (TextDecoder.text_of cps)) false)
  = TextDecoder.text_of cps.
Proof.
  intros Hsc Hbom. unfold TextDecoder.decode.
  cbn [TextDecoder.do_not_flush TextDecoder.new TextDecoder.code_point
       TextDecoder.bytes_seen TextDecoder.bytes_needed TextDecoder.lower
       TextDecoder.upper TextDecoder.bom_seen].
  fold d00. rewrite (code_points_decode cps Hsc).
  unfold TextDecoder.finish. cbn [TextDecoder.bytes_needed d00 N.eqb].
  rewrite app_nil_r. unfold TextDecoder.strip_bom. cbn [TextDecoder.bom_seen d00].
  destruct cps as [|c r]; [reflexivity|].
  cbn [hd] in Hbom. apply N.eqb_neq in Hbom. now rewrite Hbom.
Qed.

Lemma start_valid_utf8 (texts : list (list N)) :
  Forall (fun cps => forallb scalar cps = true /\ hd 0 cps <> 0xFEFF) texts ->
  let cs := map (fun cps => Str.to_bytes (TextDecoder.text_of cps)) texts in
  start (mkStream (map Bytes cs) Closed) Stream.fresh
  = mkStream (map (fun bs => Text ("data: " ++ Str.of_bytes bs ++ Str.nl ++ Str.nl)%string) cs)
             Closed.
Proof.
  intros Hall cs. rewrite start_bytes. unfold settle, Stream.close. cbn [chunks].
  f_equal. subst cs. rewrite !map_map. apply map_ext_in. intros cps Hin.
  rewrite Forall_forall in Hall. destruct (Hall cps Hin) as [Hsc Hbom].
  unfold frame_of, sse_frame. rewrite (decode_valid_utf8 cps Hsc Hbom).
  unfold Str.of_bytes, Str.to_bytes. now rewrite string_of_list_byte_of_string.
Qed.

Lemma decode_stream_valid_utf8 (cps : list N) :
  forallb scalar cps = true ->
  hd 0 cps <> 0xFEFF ->
  fst (TextDecoder.decode TextDecoder.new (Str.to_bytes (TextDecoder.text_of cps)) true)
  = TextDecoder.text_of cps.
Proof.
  intros Hsc Hbom. rewrite decode_new_streaming.
  rewrite (decode_stream (with_flags TextDecoder.new false true) _ eq_refl). cbn [fst snd].
  unfold sdecode.
  change (with_flags TextDecoder.new false true) with (with_flags d00 false true).
  rewrite run_flags, (code_points_decode cps Hsc). cbn [fst snd].
  unfold TextDecoder.strip_bom. cbn [with_flags TextDecoder.bom_seen].
  destruct cps as [|c r]; [reflexivity|].
  cbn [hd] in Hbom. apply N.eqb_neq in Hbom. now rewrite Hbom.
Qed.

End Utf8Facts.

(** X18. An upstream chunk that is well-formed UTF-8 and does not begin
    with a byte-order mark is relayed byte for byte: its frame is
    "data: ", the chunk's bytes as they are, and two newlines. *)
Theorem valid_utf8_chunks_relayed_unchanged (texts : list (list N)) :
  Forall (fun cps => forallb Utf8.scalar cps = true /\ hd 0%N cps <> 0xFEFF%N) texts ->
  let cs := map (fun cps => Str.to_bytes (TextDecoder.text_of cps)) texts in
  start (mkStream (map Bytes cs) Closed) Stream.fresh
  = mkStream (map (fun bs => Text ("data: " ++ Str.of_bytes bs ++ Str.nl ++ Str.nl)) cs)
             Closed.
Proof. exact (start_valid_utf8 texts). Qed.

Lemma valid_utf8_chunks_relayed_unchanged_witness :
  start (mkStream (map Bytes [[xc3; xa9]; [xe2; x82; xac; x21]]) Closed) Stream.fresh
  = mkStream [Text ("data: " ++ Str.of_bytes [xc3; xa9] ++ Str.nl ++ Str.nl);
              Text ("data: " ++ Str.of_bytes [xe2; x82; xac; x21] ++ Str.nl ++ Str.nl)]
             Closed.
Proof.
  refine (valid_utf8_chunks_relayed_unchanged [[0xE9]; [0x20AC; 0x21]]%N _).
  repeat constructor; discriminate.
Defined.

(** X19. When the body of the reply, all chunks put end to end, is
    well-formed UTF-8 that does not begin with a byte-order mark, the
    reply recorded in the history is exactly that text, wherever the body
    was cut into chunks, inside a character included. *)
Theorem reply_text_is_body_text
  (b : Browser) (app : ChatApp) (response : Response)
  (cs : list (list byte)) (cps : list N) :
  sends app ->
  let m := JsString.trim (input_value (userInput app)) in
  let init := chat_fetch_init b
                (set_chatHistory app (chatHistory app ++ [mkChatMessage user m])) in
  window_fetch b "/api/chat" init = inr response ->
  Response_ok response = true ->
  body response = BodyStream (mkStream (map Bytes cs) Closed) ->
  concat cs = Str.to_bytes (TextDecoder.text_of cps) ->
  forallb Utf8.scalar cps = true ->
  hd 0%N cps <> 0xFEFF%N ->
  exists app',
    sendMessage b app = ([EvFetch "/api/chat" init], Returned app')
    /\ chatHistory app'
       = (chatHistory app
          ++ [mkChatMessage user m; mkChatMessage assistant (TextDecoder.text_of cps)])%list.
Proof.
  intros Hs m init Hr Hok Hbody Hcat Hsc Hbom.
  destruct (sendMessage_reply_text b app response cs Hs Hr Hok Hbody)
    as [app' [H1 [H2 _]]].
  exists app'. split; [exact H1|].
  rewrite H2, Hcat, (decode_stream_valid_utf8 cps Hsc Hbom). reflexivity.
Qed.

Lemma reply_text_is_body_text_witness :
  exists app',
    snd (sendMessage
           (sample_browser
              (inr (mkResponse 200 []
                      (BodyStream (mkStream (map Bytes [[x48; xc3]; [xa9]]) Closed)))))
           (sample_page "Hi"))
    = Returned app'
    /\ chatHistory app'
       = [mkChatMessage user "Hi";
          mkChatMessage assistant (TextDecoder.text_of [0x48; 0xE9]%N)].
Proof.
  assert (Hs : sends (sample_page "Hi")) by (split; [discriminate|reflexivity]).
  destruct (reply_text_is_body_text
              (sample_browser
                 (inr (mkResponse 200 []
                         (BodyStream (mkStream (map Bytes [[x48; xc3]; [xa9]]) Closed)))))
              (sample_page "Hi")
              (mkResponse 200 [] (BodyStream (mkStream (map Bytes [[x48; xc3]; [xa9]]) Closed)))
              [[x48; xc3]; [xa9]] [0x48; 0xE9]%N
              Hs eq_refl eq_refl eq_refl eq_refl eq_refl ltac:(discriminate))
    as [app' [H1 H2]].
  exists app'. split; [now rewrite H1|exact H2].
Defined.
